(** * Robot QR detection: stabilisation and safety gate

    A shallow embedding of the detection pipeline of the desktop application:
    - [smoothing.py]: [BoundingBox], [DetectedQR], [BoundingBoxSmoother];
    - [roboflow_client.py]: [RoboflowClient.detect] and its response parsing;
    - [local_yolo_client.py]: [LocalYoloClient.detect];
    - [camera_manager.py]: [CameraWorker] (setters, [_detect_qr],
      [_roboflow_worker], [run]) and the [CameraManager] wrapper;
    - [distance_sensor.py]: the sliding minimum of [DistanceSensor];
    - [ui/main_window.py], [ui/controls.py]: [MainWindow._on_frame_ready],
      the banner, the smoothing slider and the tracking button;
    - [visualize_tracking.py]: [robot_stops].

    Python objects are records, attribute writes are record updates, and a
    method is a function from the object (and its arguments) to its result
    and the updated object.  Code that may raise returns in the [py] monad. *)

From Stdlib Require Import ZArith List String Bool Lia.
From Stdlib Require Import Floats.
From Stdlib Require Import Reals Lra.
Import ListNotations.

Local Open Scope Z_scope.

(* ================================================================== *)
(** ** Python numbers

    The coordinates of a box and the smoothing factor are Python [float]s.
    The code only uses [+], [-], [*], [/] and the implicit conversion of an
    [int] operand, so the embedding is written once over this interface and
    read at two instances: IEEE 754 binary64 ([PrimFloat], what CPython's
    [float] is) and the real numbers (the arithmetic without rounding). *)

Class Number (F : Type) : Type := {
  of_int : Z -> F;
  add : F -> F -> F;
  sub : F -> F -> F;
  mul : F -> F -> F;
  div : F -> F -> F
}.

(** [float(z)] for [|z| < 2^63] (exact below [2^53], rounded to nearest
    above); the literals of the code and pixel coordinates are far below. *)
Definition float_of_Z (z : Z) : float :=
  match z with
  | Z0 => PrimFloat.of_uint63 (Uint63.of_Z 0)
  | Zpos _ => PrimFloat.of_uint63 (Uint63.of_Z z)
  | Zneg p => PrimFloat.opp (PrimFloat.of_uint63 (Uint63.of_Z (Zpos p)))
  end.

#[export] Instance float_number : Number float := {
  of_int := float_of_Z;
  add := PrimFloat.add;
  sub := PrimFloat.sub;
  mul := PrimFloat.mul;
  div := PrimFloat.div
}.

#[export] Instance real_number : Number R := {
  of_int := IZR;
  add := Rplus;
  sub := Rminus;
  mul := Rmult;
  div := Rdiv
}.

(* ================================================================== *)
(** ** smoothing.py *)

Module Smoothing.
Section WithNumber.
Context {F : Type} {num : Number F}.

Record BoundingBox : Type := mkBoundingBox {
  x : F;
  y : F;
  width : F;
  height : F
}.

Record DetectedQR : Type := mkDetectedQR {
  payload : string;
  bounding_box : BoundingBox
}.

(** The attributes of a [BoundingBoxSmoother] instance. *)
Record BoundingBoxSmoother : Type := mkSmoother {
  persistence_frames : Z;
  smoothing_alpha : F;
  _smoothed_box : option BoundingBox;
  _frames_without_detection : Z;
  _last_payload : option string
}.

Definition set_smoothed_box (s : BoundingBoxSmoother) (b : option BoundingBox) :=
  mkSmoother (persistence_frames s) (smoothing_alpha s) b
             (_frames_without_detection s) (_last_payload s).

Definition set_frames_without_detection (s : BoundingBoxSmoother) (n : Z) :=
  mkSmoother (persistence_frames s) (smoothing_alpha s) (_smoothed_box s)
             n (_last_payload s).

Definition set_last_payload (s : BoundingBoxSmoother) (p : option string) :=
  mkSmoother (persistence_frames s) (smoothing_alpha s) (_smoothed_box s)
             (_frames_without_detection s) p.

(** [BoundingBoxSmoother.__init__] *)
Definition init (persistence_frames : Z) (smoothing_alpha : F) : BoundingBoxSmoother :=
  mkSmoother persistence_frames smoothing_alpha None 0 None.

(** One coordinate of [_smooth_box]:
    [alpha * new + (1 - alpha) * old], the literal [1] being an [int]. *)
Definition blend (alpha new old : F) : F :=
  add (mul alpha new) (mul (sub (of_int 1) alpha) old).

(** [BoundingBoxSmoother._smooth_box] *)
Definition _smooth_box (s : BoundingBoxSmoother) (new_box : BoundingBox)
  : BoundingBox * BoundingBoxSmoother :=
  match _smoothed_box s with
  | None => (new_box, set_smoothed_box s (Some new_box))
  | Some old =>
      let alpha := smoothing_alpha s in
      let smoothed :=
        mkBoundingBox (blend alpha (x new_box) (x old))
                      (blend alpha (y new_box) (y old))
                      (blend alpha (width new_box) (width old))
                      (blend alpha (height new_box) (height old)) in
      (smoothed, set_smoothed_box s (Some smoothed))
  end.

(** [BoundingBoxSmoother.update] *)
Definition update (s : BoundingBoxSmoother) (detection : option DetectedQR)
  : option DetectedQR * BoundingBoxSmoother :=
  match detection with
  | Some d =>
      let s := set_frames_without_detection s 0 in
      let s := set_last_payload s (Some (payload d)) in
      let '(smoothed_box, s) := _smooth_box s (bounding_box d) in
      (Some (mkDetectedQR (payload d) smoothed_box), s)
  | None =>
      let s := set_frames_without_detection s (_frames_without_detection s + 1) in
      if _frames_without_detection s >=? persistence_frames s then
        let s := set_smoothed_box s None in
        let s := set_last_payload s None in
        (None, s)
      else
        match _smoothed_box s, _last_payload s with
        | Some b, Some p => (Some (mkDetectedQR p b), s)
        | _, _ => (None, s)
        end
  end.

(** [BoundingBoxSmoother.reset] *)
Definition reset (s : BoundingBoxSmoother) : BoundingBoxSmoother :=
  let s := set_smoothed_box s None in
  let s := set_frames_without_detection s 0 in
  set_last_payload s None.

(** The smoother driven by a sequence of per-frame inputs: the outputs in
    order, and the final state. *)
Fixpoint feed (s : BoundingBoxSmoother) (inputs : list (option DetectedQR))
  : list (option DetectedQR) * BoundingBoxSmoother :=
  match inputs with
  | [] => ([], s)
  | i :: rest =>
      let '(o, s1) := update s i in
      let '(os, s2) := feed s1 rest in
      (o :: os, s2)
  end.

(** The state after [k] consecutive frames without a detection. *)
Definition after_misses (k : nat) (s : BoundingBoxSmoother) : BoundingBoxSmoother :=
  snd (feed s (repeat None k)).

(** The state after the same detection was passed [n] times. *)
Definition after_repeats (n : nat) (d : DetectedQR) (s : BoundingBoxSmoother)
  : BoundingBoxSmoother :=
  snd (feed s (repeat (Some d) n)).

(** [smoothed_box is None] exactly when [last_payload is None]. *)
Definition box_payload_inv (s : BoundingBoxSmoother) : Prop :=
  _smoothed_box s = None <-> _last_payload s = None.

(** The states a smoother object goes through: constructed, then any
    sequence of [update] and [reset] calls. *)
Inductive reachable : BoundingBoxSmoother -> Prop :=
| reach_init pf alpha : reachable (init pf alpha)
| reach_update s d : reachable s -> reachable (snd (update s d))
| reach_reset s : reachable s -> reachable (reset s).

(** The four coordinates of a box, to speak of them one at a time. *)
Inductive coord : Type := X | Y | Width | Height.

Definition get (c : coord) (b : BoundingBox) : F :=
  match c with
  | X => x b
  | Y => y b
  | Width => width b
  | Height => height b
  end.

End WithNumber.
Arguments BoundingBox F : clear implicits.
Arguments DetectedQR F : clear implicits.
Arguments BoundingBoxSmoother F : clear implicits.
End Smoothing.

(* ================================================================== *)
(** ** Python exceptions

    A call either returns a value or raises.  [Exception_] stands for any
    other subclass of [Exception]; [SystemExit] is a [BaseException] that is
    not an [Exception], which an [except Exception] clause lets through. *)

Module Py.

Inductive exn : Type :=
| Timeout                          (* requests.exceptions.Timeout *)
| HTTPError (status : Z)           (* raise_for_status() on a 4xx or 5xx reply *)
| RequestException (msg : string)  (* any other failure of requests *)
| KeyError
| IndexError
| TypeError
| ValueError
| AttributeError
| ZeroDivisionError
| UnicodeDecodeError
| Full                             (* queue.Full *)
| Empty                            (* queue.Empty *)
| Exception_ (msg : string)
| SystemExit.

(** [isinstance(e, requests.exceptions.Timeout)] *)
Definition is_Timeout (e : exn) : bool :=
  match e with Timeout => true | _ => false end.

(** [isinstance(e, requests.exceptions.RequestException)] *)
Definition is_RequestException (e : exn) : bool :=
  match e with
  | Timeout | HTTPError _ | RequestException _ => true
  | _ => false
  end.

(** [isinstance(e, (KeyError, IndexError, TypeError))] *)
Definition is_parse_error (e : exn) : bool :=
  match e with KeyError | IndexError | TypeError => true | _ => false end.

Definition is_Full (e : exn) : bool :=
  match e with Full => true | _ => false end.

Definition is_Empty (e : exn) : bool :=
  match e with Empty => true | _ => false end.

(** [isinstance(e, Exception)] *)
Definition is_Exception (e : exn) : bool :=
  match e with SystemExit => false | _ => true end.

(** The result of running Python code: [inl e] when it raised [e]. *)
Definition py (A : Type) : Type := (exn + A)%type.

Definition ret {A} (a : A) : py A := inr a.
Definition raise {A} (e : exn) : py A := inl e.

Definition bind {A B} (c : py A) (k : A -> py B) : py B :=
  match c with
  | inl e => inl e
  | inr a => k a
  end.

(** [try: body / except <class>: handler]. *)
Definition try_except {A} (body : py A) (catches : exn -> bool)
           (handler : exn -> py A) : py A :=
  match body with
  | inr a => inr a
  | inl e => if catches e then handler e else inl e
  end.

End Py.

Declare Scope py_scope.
Delimit Scope py_scope with py.
Notation "x <- c ;; k" := (Py.bind c (fun x => k))
  (at level 61, c at next level, right associativity) : py_scope.
Notation "' pat <- c ;; k" := (Py.bind c (fun x => match x with pat => k end))
  (at level 61, pat pattern, c at next level, right associativity) : py_scope.

(** Truth value of an [Optional[str]]: [None] and [""] are falsy. *)
Definition truthy_str (s : option string) : bool :=
  match s with
  | None => false
  | Some s => negb (String.eqb s EmptyString)
  end.

(* ================================================================== *)
(** ** config.py *)

Module Config.
Definition ROBOFLOW_FRAME_INTERVAL : Z := 3.
Definition ROBOFLOW_PERSISTENCE_FRAMES : Z := 3.
Definition ROBOFLOW_TARGET_CLASS : string := "laptop".
End Config.

(* ================================================================== *)
(** ** Frames

    A frame is a numpy array; the code reads its shape, mirrors it and copies
    it.  What is in the picture only matters to the external collaborators
    (marker decoder, classifier), which are inputs of the model. *)

Class Image (Frame : Type) : Type := {
  shape : Frame -> Z * Z;          (* frame.shape[:2] = (height, width) *)
  flip : Frame -> Frame            (* cv2.flip(frame, 1) *)
}.

(* ================================================================== *)
(** ** roboflow_client.py *)

Module RoboflowClient.
Section WithNumber.
Context {F : Type} {num : Number F}.
Context {Frame : Type} {img : Image Frame}.

(** A value the reply holds where the code expects a number.  [Num v] is a
    number Python computes with, taken as the float of its value (a JSON
    number; [true] and [false] count as 1 and 0; an integer too large for a
    float is not covered).  [Null] is JSON [null] and [Str s] a JSON string:
    the dataclass stores either unchecked, a float format raises
    [TypeError] on the first and [ValueError] on the second, and arithmetic
    raises [TypeError] on both.  (A list or an object behaves as [Null]
    does.) *)
Inductive Value : Type :=
| Num (v : F)
| Null
| Str (s : string).

Record RoboflowDetection : Type := mkRoboflowDetection {
  class_name : string;
  confidence : Value;
  x : Value;          (* centre x *)
  y : Value;          (* centre y *)
  width : Value;
  height : Value
}.

(** An operand of [-] or [/]: the number, or [TypeError]. *)
Definition number (v : Value) : Py.py F :=
  match v with
  | Num v => Py.ret v
  | Null | Str _ => Py.raise Py.TypeError
  end.

(** [RoboflowDetection.bbox]: (x, y, width, height) with x, y the top-left
    corner; [TypeError] when one of the four is not a number. *)
Definition bbox (d : RoboflowDetection) : Py.py (F * F * F * F) :=
  Py.bind (number (width d)) (fun w =>
  Py.bind (number (x d)) (fun cx =>
  Py.bind (number (height d)) (fun h =>
  Py.bind (number (y d)) (fun cy =>
  Py.ret (sub cx (div w (of_int 2)), sub cy (div h (of_int 2)), w, h))))).

(** [f"{v:.2f}"] and [f"{v:.0f}"]: only whether the format raises matters,
    the text goes to the log. *)
Definition format_float (v : Value) : Py.py unit :=
  match v with
  | Num _ => Py.ret tt
  | Null => Py.raise Py.TypeError
  | Str _ => Py.raise Py.ValueError
  end.

Record RoboflowResult : Type := mkRoboflowResult {
  detected : bool;
  detection : option RoboflowDetection;
  image_width : Z;
  image_height : Z
}.

(** One entry of [outputs[0]["predictions"]["predictions"]].  A key that
    is absent is [None]; [pred_class] is also [None] when the value under
    ["class"] is not a string (it then differs from the target class). *)
Record Prediction : Type := mkPrediction {
  pred_class : option string;
  pred_confidence : option Value;
  pred_x : option Value;
  pred_y : option Value;
  pred_width : option Value;
  pred_height : option Value
}.

(** The decoded JSON body.  [Outputs outs] is a dict whose ["outputs"] is a
    list ([[]] when the key is absent) of dicts, each given by the list under
    ["predictions"]["predictions"] ([[]] when a key is absent).
    [IllShaped e] is any other body: reading it in [_parse_response]
    raises [e]. *)
Inductive Response : Type :=
| Outputs (outs : list (list Prediction))
| IllShaped (e : Py.exn).

(** [d.get(key, 0)] *)
Definition get0 (v : option Value) : Value :=
  match v with Some v => v | None => Num (of_int 0) end.

Definition no_detection (width height : Z) : RoboflowResult :=
  mkRoboflowResult false None width height.

(** The [for pred in predictions] loop of [_parse_response]. *)
Fixpoint find_target (predictions : list Prediction) : option RoboflowDetection :=
  match predictions with
  | [] => None
  | pred :: rest =>
      match pred_class pred with
      | Some c =>
          if String.eqb c Config.ROBOFLOW_TARGET_CLASS then
            Some (mkRoboflowDetection c
                    (get0 (pred_confidence pred))
                    (get0 (pred_x pred)) (get0 (pred_y pred))
                    (get0 (pred_width pred)) (get0 (pred_height pred)))
          else find_target rest
      | None => find_target rest
      end
  end.

(** [RoboflowClient._parse_response]; [frame_shape] is (height, width). *)
Definition _parse_response (response : Response) (frame_shape : Z * Z)
  : Py.py RoboflowResult :=
  let '(height, width) := frame_shape in
  Py.bind
    (Py.try_except
       (match response with
        | IllShaped e => Py.raise e
        | Outputs [] => Py.ret (Some (no_detection width height))
        | Outputs (predictions :: _) =>
            match find_target predictions with
            | Some detection =>
                Py.ret (Some (mkRoboflowResult true (Some detection) width height))
            | None => Py.ret None
            end
        end)
       Py.is_parse_error
       (fun _ => Py.ret None))
    (fun returned =>
       match returned with
       | Some r => Py.ret r
       | None => Py.ret (no_detection width height)
       end).

(** What [self._session.post] returns: the status of the reply and the
    outcome of [response.json()] on its body (a [RequestException] when the
    body is not JSON). *)
Record HttpResponse : Type := mkHttpResponse {
  status_code : Z;
  json : Py.py Response
}.

(** [Response.raise_for_status]: an [HTTPError] for a status from 400 to 599,
    nothing for any other status. *)
Definition raise_for_status (response : HttpResponse) : Py.py unit :=
  if (400 <=? status_code response) && (status_code response <? 600)
  then Py.raise (Py.HTTPError (status_code response))
  else Py.ret tt.

(** The lines of [detect] that log the result.  The f-string of a detection
    formats its confidence, x and y as floats. *)
Definition log_result (result : RoboflowResult) : Py.py unit :=
  if detected result then
    match detection result with
    | Some det =>
        Py.bind (format_float (confidence det)) (fun _ =>
        Py.bind (format_float (x det)) (fun _ =>
        format_float (y det)))
    | None => Py.raise Py.AttributeError
    end
  else Py.ret tt.

(** The [try] block of [detect].  [post] is the outcome of its steps up to
    [self._session.post(...)]: JPEG encoding and the HTTP POST with its 10 s
    timeout. *)
Definition detect_try (frame : Frame) (post : Py.py HttpResponse)
  : Py.py RoboflowResult :=
  Py.bind post (fun response =>
  Py.bind (raise_for_status response) (fun _ =>
  Py.bind (json response) (fun body =>
  Py.bind (_parse_response body (shape frame)) (fun result =>
  Py.bind (log_result result) (fun _ =>
  Py.ret result))))).

(** [RoboflowClient.detect].  The three [except] clauses (Timeout,
    RequestException, Exception) log and fall through to the final
    [return]; [None] stands for falling through. *)
Definition detect (api_key : option string) (frame : Frame)
           (post : Py.py HttpResponse) : Py.py RoboflowResult :=
  let '(h, w) := shape frame in
  if negb (truthy_str api_key) then
    Py.ret (no_detection w h)
  else
    Py.bind
      (Py.try_except
         (Py.try_except
            (Py.try_except
               (Py.bind (detect_try frame post) (fun result =>
                Py.ret (Some result)))
               Py.is_Timeout
               (fun _ => Py.ret None))
            Py.is_RequestException
            (fun _ => Py.ret None))
         Py.is_Exception
         (fun _ => Py.ret None))
      (fun returned =>
         match returned with
         | Some r => Py.ret r
         | None => Py.ret (no_detection w h)
         end).

End WithNumber.
Arguments Value F : clear implicits.
Arguments RoboflowDetection F : clear implicits.
Arguments RoboflowResult F : clear implicits.
Arguments Prediction F : clear implicits.
Arguments Response F : clear implicits.
Arguments HttpResponse F : clear implicits.
End RoboflowClient.

(* ================================================================== *)
(** ** The marker decoder (pyzbar), at its interface *)

Module Pyzbar.

Record Rect : Type := mkRect {
  left : Z;
  top : Z;
  width : Z;
  height : Z
}.

(** One decoded symbol.  [data] is the payload as [qr.data.decode('utf-8')]
    returns it, [None] when the bytes are not valid UTF-8 (the call then
    raises [UnicodeDecodeError]). *)
Record Decoded : Type := mkDecoded {
  data : option string;
  rect : Rect
}.

End Pyzbar.

(* ================================================================== *)
(** ** queue.Queue, as the worker uses it *)

Module Queue.
Section WithItem.
Context {A : Type}.

(** [Queue.put_nowait] on a queue of capacity [maxsize > 0]. *)
Definition put_nowait (maxsize : Z) (q : list A) (item : A) : Py.py (list A) :=
  if Z.of_nat (List.length q) >=? maxsize then Py.raise Py.Full
  else Py.ret (q ++ [item]).

(** [Queue.get(timeout=...)] when no other thread puts in the meantime: the
    oldest item, or [queue.Empty] once the wait is over. *)
Definition get (q : list A) : Py.py (A * list A) :=
  match q with
  | [] => Py.raise Py.Empty
  | item :: rest => Py.ret (item, rest)
  end.

End WithItem.
End Queue.

(* ================================================================== *)
(** ** camera_manager.py *)

Module CameraManager.
Section WithWorld.
Context {F : Type} {num : Number F}.
Context {Frame : Type} {img : Image Frame}.

Local Open Scope py_scope.

(** [QR_DETECTION_SCALE = 0.5] *)
Definition QR_DETECTION_SCALE : F := div (of_int 1) (of_int 2).

Definition TARGET_PAYLOAD : string := "ROBOT_R1".

Record ClassificationBBox : Type := mkClassificationBBox {
  x : F;
  y : F;
  width : F;
  height : F
}.

Record FrameData : Type := mkFrameData {
  frame : Frame;
  detection : option (Smoothing.DetectedQR F);
  robot_detected : bool;
  qr_enabled : bool;
  classification_detected : bool;
  classification_bbox : option ClassificationBBox;
  can_continue_moving : bool;
  roboflow_enabled : bool
}.

(** The attributes of a [CameraWorker] that the detection logic reads and
    writes.  [_roboflow_queue] is [queue.Queue(maxsize=1)], an item [None]
    being the exit signal; [_roboflow_thread_alive] stands for
    [self._roboflow_thread is not None and self._roboflow_thread.is_alive()].
    The two locks are not modelled: every method below runs to its end. *)
Record CameraWorker : Type := mkCameraWorker {
  _smoother : Smoothing.BoundingBoxSmoother F;
  _roboflow_enabled : bool;
  _qr_enabled : bool;
  _roboflow_frame_counter : Z;
  _classification_detected : bool;
  _classification_bbox : option ClassificationBBox;
  _frames_without_classification : Z;
  _roboflow_queue : list (option Frame);
  _roboflow_thread_alive : bool;
  _roboflow_thread_running : bool
}.

Definition with_smoother (w : CameraWorker) v :=
  mkCameraWorker v (_roboflow_enabled w) (_qr_enabled w) (_roboflow_frame_counter w)
    (_classification_detected w) (_classification_bbox w) (_frames_without_classification w)
    (_roboflow_queue w) (_roboflow_thread_alive w) (_roboflow_thread_running w).

Definition with_roboflow_enabled (w : CameraWorker) v :=
  mkCameraWorker (_smoother w) v (_qr_enabled w) (_roboflow_frame_counter w)
    (_classification_detected w) (_classification_bbox w) (_frames_without_classification w)
    (_roboflow_queue w) (_roboflow_thread_alive w) (_roboflow_thread_running w).

Definition with_qr_enabled (w : CameraWorker) v :=
  mkCameraWorker (_smoother w) (_roboflow_enabled w) v (_roboflow_frame_counter w)
    (_classification_detected w) (_classification_bbox w) (_frames_without_classification w)
    (_roboflow_queue w) (_roboflow_thread_alive w) (_roboflow_thread_running w).

Definition with_roboflow_frame_counter (w : CameraWorker) v :=
  mkCameraWorker (_smoother w) (_roboflow_enabled w) (_qr_enabled w) v
    (_classification_detected w) (_classification_bbox w) (_frames_without_classification w)
    (_roboflow_queue w) (_roboflow_thread_alive w) (_roboflow_thread_running w).

Definition with_classification_detected (w : CameraWorker) v :=
  mkCameraWorker (_smoother w) (_roboflow_enabled w) (_qr_enabled w) (_roboflow_frame_counter w)
    v (_classification_bbox w) (_frames_without_classification w)
    (_roboflow_queue w) (_roboflow_thread_alive w) (_roboflow_thread_running w).

Definition with_classification_bbox (w : CameraWorker) v :=
  mkCameraWorker (_smoother w) (_roboflow_enabled w) (_qr_enabled w) (_roboflow_frame_counter w)
    (_classification_detected w) v (_frames_without_classification w)
    (_roboflow_queue w) (_roboflow_thread_alive w) (_roboflow_thread_running w).

Definition with_frames_without_classification (w : CameraWorker) v :=
  mkCameraWorker (_smoother w) (_roboflow_enabled w) (_qr_enabled w) (_roboflow_frame_counter w)
    (_classification_detected w) (_classification_bbox w) v
    (_roboflow_queue w) (_roboflow_thread_alive w) (_roboflow_thread_running w).

Definition with_roboflow_queue (w : CameraWorker) v :=
  mkCameraWorker (_smoother w) (_roboflow_enabled w) (_qr_enabled w) (_roboflow_frame_counter w)
    (_classification_detected w) (_classification_bbox w) (_frames_without_classification w)
    v (_roboflow_thread_alive w) (_roboflow_thread_running w).

Definition with_roboflow_thread_alive (w : CameraWorker) v :=
  mkCameraWorker (_smoother w) (_roboflow_enabled w) (_qr_enabled w) (_roboflow_frame_counter w)
    (_classification_detected w) (_classification_bbox w) (_frames_without_classification w)
    (_roboflow_queue w) v (_roboflow_thread_running w).

Definition with_roboflow_thread_running (w : CameraWorker) v :=
  mkCameraWorker (_smoother w) (_roboflow_enabled w) (_qr_enabled w) (_roboflow_frame_counter w)
    (_classification_detected w) (_classification_bbox w) (_frames_without_classification w)
    (_roboflow_queue w) (_roboflow_thread_alive w) v.

(** [CameraWorker.__init__]; the literal [0.6] is the double nearest to 6/10. *)
Definition init : CameraWorker :=
  mkCameraWorker (Smoothing.init 5 (div (of_int 6) (of_int 10)))
                 false true 0 false None 0 [] false false.

(** The [roboflow_enabled] setter, run to its end with no other thread in
    between (its single writes are [set_roboflow_enabled_writes] below). *)
Definition set_roboflow_enabled (w : CameraWorker) (value : bool) : CameraWorker :=
  let w := with_roboflow_enabled w value in
  if negb value then
    let w := with_classification_detected w false in
    let w := with_classification_bbox w None in
    with_frames_without_classification w 0
  else w.

(** The [qr_enabled] setter. *)
Definition set_qr_enabled (w : CameraWorker) (value : bool) : CameraWorker :=
  let w := with_qr_enabled w value in
  if negb value then with_smoother w (Smoothing.reset (_smoother w)) else w.

(** The [for qr in decoded] loop of [_detect_qr]. *)
Fixpoint first_target (decoded : list Pyzbar.Decoded)
  : Py.py (option (Smoothing.DetectedQR F)) :=
  match decoded with
  | [] => Py.ret None
  | qr :: rest =>
      data <- match Pyzbar.data qr with
              | Some s => Py.ret s
              | None => Py.raise Py.UnicodeDecodeError
              end ;;
      if String.eqb data TARGET_PAYLOAD then
        let rect := Pyzbar.rect qr in
        let scale_inv := div (of_int 1) QR_DETECTION_SCALE in
        let box :=
          Smoothing.mkBoundingBox
            (mul (of_int (Pyzbar.left rect)) scale_inv)
            (mul (of_int (Pyzbar.top rect)) scale_inv)
            (mul (of_int (Pyzbar.width rect)) scale_inv)
            (mul (of_int (Pyzbar.height rect)) scale_inv) in
        Py.ret (Some (Smoothing.mkDetectedQR data box))
      else first_target rest
  end.

(** [CameraWorker._detect_qr].  [decode frame] is the outcome of the calls
    that leave the process: [cv2.resize], [cv2.cvtColor] and
    [pyzbar.decode(gray, symbols=[ZBarSymbol.QRCODE])]. *)
Definition _detect_qr (decode : Frame -> Py.py (list Pyzbar.Decoded)) (frame : Frame)
  : Py.py (option (Smoothing.DetectedQR F)) :=
  decoded <- decode frame ;;
  first_target decoded.

(** How an iteration of a [while] loop ends. *)
Inductive ctl : Type :=
| Next        (* the body ran to its end, or [continue] *)
| Break.

(** The block of [_roboflow_worker] under [with self._roboflow_result_lock]:
    how it ends and the worker object as it leaves it.  [det.bbox] is
    computed after the flag and the counter are written: when it raises,
    those two writes stay and no box is stored. *)
Definition publish (w : CameraWorker) (result : RoboflowClient.RoboflowResult F)
  : Py.py unit * CameraWorker :=
  match RoboflowClient.detected result, RoboflowClient.detection result with
  | true, Some det =>
      let w := with_classification_detected w true in
      let w := with_frames_without_classification w 0 in
      match RoboflowClient.bbox det with
      | inl e => (Py.raise e, w)
      | inr (bx, by_, bw, bh) =>
          (Py.ret tt, with_classification_bbox w (Some (mkClassificationBBox bx by_ bw bh)))
      end
  | _, _ =>
      let w := with_frames_without_classification w
                 (_frames_without_classification w + 1) in
      if _frames_without_classification w >=? Config.ROBOFLOW_PERSISTENCE_FRAMES then
        let w := with_classification_detected w false in
        (Py.ret tt, with_classification_bbox w None)
      else (Py.ret tt, w)
  end.

(** The [roboflow_enabled] setter, write by write.  The setter holds
    [self._mutex]; the worker's block above and the reads of [run] hold
    [self._roboflow_result_lock].  The two locks do not exclude each other,
    so the worker's block can run between two of these writes. *)
Definition set_roboflow_enabled_writes (value : bool)
  : list (CameraWorker -> CameraWorker) :=
  (fun w => with_roboflow_enabled w value) ::
  (if negb value then
     [fun w => with_classification_detected w false;
      fun w => with_classification_bbox w None;
      fun w => with_frames_without_classification w 0]
   else []).

Definition run_writes (writes : list (CameraWorker -> CameraWorker)) (w : CameraWorker)
  : CameraWorker :=
  fold_left (fun w write => write w) writes w.

(** The setter in a schedule where its thread is suspended after its first
    [k] writes, the worker thread runs its block on [result], and the setter
    resumes: the worker object when the setter returns. *)
Definition set_roboflow_enabled_during (k : nat)
           (result : RoboflowClient.RoboflowResult F)
           (w : CameraWorker) (value : bool) : CameraWorker :=
  let writes := set_roboflow_enabled_writes value in
  let w := run_writes (firstn k writes) w in
  let w := snd (publish w result) in
  run_writes (skipn k writes) w.

(** The [try] block of [_roboflow_worker]: what it returns or raises, and the
    worker object as it leaves it.  [detect frame] is the outcome of
    [self._roboflow_client.detect(frame)]. *)
Definition worker_try (detect : Frame -> Py.py (RoboflowClient.RoboflowResult F))
           (w : CameraWorker) : Py.py ctl * CameraWorker :=
  match Queue.get (_roboflow_queue w) with
  | inl e => (Py.raise e, w)
  | inr (None, rest) => (Py.ret Break, with_roboflow_queue w rest)
  | inr (Some frame, rest) =>
      let w := with_roboflow_queue w rest in
      match detect frame with
      | inl e => (Py.raise e, w)
      | inr result =>
          let '(r, w) := publish w result in
          (Py.bind r (fun _ => Py.ret Next), w)
      end
  end.

(** One turn of the [while self._roboflow_thread_running] loop of
    [_roboflow_worker]: the [try] block under its two handlers,
    [except queue.Empty: continue] and [except Exception: log]. *)
Definition _roboflow_worker_iteration
           (detect : Frame -> Py.py (RoboflowClient.RoboflowResult F))
           (w : CameraWorker) : Py.py ctl * CameraWorker :=
  if negb (_roboflow_thread_running w) then (Py.ret Break, w)
  else
    let '(r, w) := worker_try detect w in
    (Py.try_except (Py.try_except r Py.is_Empty (fun _ => Py.ret Next))
                   Py.is_Exception (fun _ => Py.ret Next),
     w).

(** The signals of [CameraWorker]. *)
Inductive signal : Type :=
| frame_ready (frame_data : FrameData)
| error_occurred (msg : string).

(** The lines of [run] that hand the frame to the classifier worker:
    [try: self._roboflow_queue.put_nowait(frame.copy()) / except queue.Full: pass]. *)
Definition offer_frame (w : CameraWorker) (frame : Frame) : Py.py CameraWorker :=
  Py.try_except
    (q <- Queue.put_nowait 1 (_roboflow_queue w) (Some frame) ;;
     Py.ret (with_roboflow_queue w q))
    Py.is_Full
    (fun _ => Py.ret w).

(** The [if roboflow_enabled:] block of [run]: the worker object after it,
    and the values of [classification_detected] and [classification_bbox]. *)
Definition classify_step (roboflow_enabled : bool) (w : CameraWorker) (frame : Frame)
  : Py.py (bool * option ClassificationBBox * CameraWorker) :=
  if roboflow_enabled then
    let w := if negb (_roboflow_thread_alive w)
             then with_roboflow_thread_alive (with_roboflow_thread_running w true) true
             else w in
    let w := with_roboflow_frame_counter w (_roboflow_frame_counter w + 1) in
    w <- (if _roboflow_frame_counter w >=? Config.ROBOFLOW_FRAME_INTERVAL then
            let w := with_roboflow_frame_counter w 0 in
            offer_frame w frame
          else Py.ret w) ;;
    Py.ret (_classification_detected w, _classification_bbox w, w)
  else Py.ret (false, None, w).

Definition is_some {A} (o : option A) : bool :=
  match o with Some _ => true | None => false end.

(** One turn of the [while self._running] loop of [run].  [read] is what
    [cap.read()] gave ([None] when [ret] is false), [frames_failed] the local
    counter.  The result is how the turn ends, the signals it emitted, the
    worker object and the counter; [inl e] when [e] leaves [run]. *)
Definition run_iteration (decode : Frame -> Py.py (list Pyzbar.Decoded))
           (read : option Frame) (w : CameraWorker) (frames_failed : Z)
  : Py.py (ctl * list signal * CameraWorker * Z) :=
  match read with
  | None =>
      let frames_failed := frames_failed + 1 in
      if frames_failed >? 30 then
        Py.ret (Break,
                [error_occurred "Camera feed lost. Please check camera connection."],
                w, frames_failed)
      else Py.ret (Next, [], w, frames_failed)
  | Some frame =>
      let frames_failed := 0 in
      let frame := flip frame in
      let qr_enabled := _qr_enabled w in
      detection <- (if qr_enabled then _detect_qr decode frame else Py.ret None) ;;
      let '(smoothed, sm) := Smoothing.update (_smoother w) detection in
      let w := with_smoother w sm in
      let roboflow_enabled := _roboflow_enabled w in
      let robot_detected := is_some smoothed in
      '(classification_detected, classification_bbox, w) <-
        classify_step roboflow_enabled w frame ;;
      let can_continue_moving :=
        if roboflow_enabled then robot_detected && classification_detected
        else robot_detected in
      let frame_data :=
        mkFrameData frame smoothed robot_detected qr_enabled
                    classification_detected classification_bbox
                    can_continue_moving roboflow_enabled in
      Py.ret (Next, [frame_ready frame_data], w, frames_failed)
  end.

(** The capture loop over the successive results of [cap.read()]: the
    signals emitted, in order, and the worker object; [inl e] when [e]
    leaves [run] (what was emitted before is then given by [run_emitted]
    below). *)
Fixpoint run_loop (decode : Frame -> Py.py (list Pyzbar.Decoded))
         (reads : list (option Frame)) (w : CameraWorker) (frames_failed : Z)
  : Py.py (list signal * CameraWorker) :=
  match reads with
  | [] => Py.ret ([], w)
  | read :: rest =>
      '(c, emitted, w, frames_failed) <- run_iteration decode read w frames_failed ;;
      match c with
      | Break => Py.ret (emitted, w)
      | Next =>
          '(later, w) <- run_loop decode rest w frames_failed ;;
          Py.ret ((emitted ++ later)%list, w)
      end
  end.

(** The signals the capture loop has emitted when it ends, by a [break], by
    the end of the reads or by an exception: a signal that was emitted stays
    emitted.  (A turn that raises does so before it emits.) *)
Fixpoint run_emitted (decode : Frame -> Py.py (list Pyzbar.Decoded))
         (reads : list (option Frame)) (w : CameraWorker) (frames_failed : Z)
  : list signal :=
  match reads with
  | [] => []
  | read :: rest =>
      match run_iteration decode read w frames_failed with
      | inl _ => []
      | inr (Break, emitted, _, _) => emitted
      | inr (Next, emitted, w, frames_failed) =>
          (emitted ++ run_emitted decode rest w frames_failed)%list
      end
  end.

End WithWorld.
Arguments FrameData F Frame : clear implicits.
Arguments CameraWorker F Frame : clear implicits.
Arguments ClassificationBBox F : clear implicits.
End CameraManager.

(* ================================================================== *)
(** ** ui/controls.py and ui/main_window.py *)

Module MainWindow.
Section WithWorld.
Context {F : Type} {Frame : Type}.

(** [SafetyStatusBanner]: its flag and the text its label shows. *)
Record SafetyStatusBanner : Type := mkSafetyStatusBanner {
  _can_continue : bool;
  _label : string
}.

(** [SafetyStatusBanner._update_display] *)
Definition _update_display (b : SafetyStatusBanner) : SafetyStatusBanner :=
  if _can_continue b
  then mkSafetyStatusBanner (_can_continue b) "Robot Can Continue Moving"
  else mkSafetyStatusBanner (_can_continue b) "Robot Must Stop".

(** [SafetyStatusBanner.__init__] *)
Definition banner_init : SafetyStatusBanner :=
  _update_display (mkSafetyStatusBanner false "").

(** The [can_continue] setter of the banner. *)
Definition set_can_continue (b : SafetyStatusBanner) (value : bool) : SafetyStatusBanner :=
  if negb (Bool.eqb (_can_continue b) value)
  then _update_display (mkSafetyStatusBanner value (_label b))
  else b.

(** The attributes of [MainWindow] behind the safety decision. *)
Record MainWindow : Type := mkMainWindow {
  _current_distance : Z;
  _distance_threshold : Z;
  _safety_banner : SafetyStatusBanner
}.

(** [MainWindow.__init__] *)
Definition init : MainWindow := mkMainWindow 0 100 banner_init.

(** [MainWindow._on_distance_updated] *)
Definition _on_distance_updated (m : MainWindow) (distance : Z) : MainWindow :=
  mkMainWindow distance (_distance_threshold m) (_safety_banner m).

(** [MainWindow._on_threshold_changed] *)
Definition _on_threshold_changed (m : MainWindow) (value : Z) : MainWindow :=
  mkMainWindow (_current_distance m) value (_safety_banner m).

(** [MainWindow._on_frame_ready], as far as the safety banner goes. *)
Definition _on_frame_ready (m : MainWindow) (frame_data : CameraManager.FrameData F Frame)
  : MainWindow :=
  let can_continue :=
    if _current_distance m >? _distance_threshold m then true
    else CameraManager.can_continue_moving frame_data in
  mkMainWindow (_current_distance m) (_distance_threshold m)
               (set_can_continue (_safety_banner m) can_continue).

(** The decision the window shows after a frame. *)
Definition shown (m : MainWindow) : bool := _can_continue (_safety_banner m).

End WithWorld.
End MainWindow.

From Stdlib Require DecimalString.

(* ================================================================== *)
(** ** The hold window of the smoother, frame by frame *)

Module Window.
Section WithItem.
Context {A : Type}.

(** The number of frames without a detection at the end of a sequence of
    per-frame inputs, [None] when it holds no detection at all. *)
Definition gap_step (g : option nat) (input : option A) : option nat :=
  match input with
  | Some _ => Some 0%nat
  | None => option_map S g
  end.

Definition gap (inputs : list (option A)) : option nat :=
  fold_left gap_step inputs None.

(** Whether a detection that lies [g] frames back is still put out. *)
Definition holds (persistence_frames : Z) (g : option nat) : bool :=
  match g with
  | None => false
  | Some m => (m =? 0)%nat || (Z.of_nat m <? persistence_frames)
  end.

End WithItem.
End Window.

(* ================================================================== *)
(** ** The hand-over slot and the stride counter *)

Module Slot.
Section WithWorld.
Context {F : Type} {Frame : Type}.

(** The slot holds at most one item and the stride counter stays under
    [ROBOFLOW_FRAME_INTERVAL]. *)
Definition slot_inv (w : CameraManager.CameraWorker F Frame) : Prop :=
  (List.length (CameraManager._roboflow_queue w) <= 1)%nat /\
  0 <= CameraManager._roboflow_frame_counter w < Config.ROBOFLOW_FRAME_INTERVAL.

End WithWorld.
End Slot.

(* ================================================================== *)
(** ** Comparing Python numbers *)

(** [a < b] and [a <= b] on the numbers of the code. *)
Class NumberOrder (F : Type) : Type := {
  ltb : F -> F -> bool;
  leb : F -> F -> bool
}.

#[export] Instance float_order : NumberOrder float := {
  ltb := PrimFloat.ltb;
  leb := PrimFloat.leb
}.

(** [a <= b] on the unpacked binary64 numbers. *)
Definition sf_le (a b : spec_float) : Prop :=
  match SFcompare a b with Some Lt | Some Eq => True | _ => False end.

(* ================================================================== *)
(** ** smoothing.py: the [alpha] property and the derived boxes *)

Module SmoothingMore.
Section WithNumber.
Context {F : Type} {num : Number F} {ord : NumberOrder F}.

(** The builtin [min(a, b)]: [b] when [b < a], else [a]. *)
Definition py_min (a b : F) : F := if ltb b a then b else a.

(** The builtin [max(a, b)]: [b] when [b > a], else [a]. *)
Definition py_max (a b : F) : F := if ltb a b then b else a.

(** The [alpha] getter of [BoundingBoxSmoother]. *)
Definition alpha (s : Smoothing.BoundingBoxSmoother F) : F :=
  Smoothing.smoothing_alpha s.

(** The [alpha] setter: [self.smoothing_alpha = max(0.0, min(1.0, value))]. *)
Definition set_alpha (s : Smoothing.BoundingBoxSmoother F) (value : F)
  : Smoothing.BoundingBoxSmoother F :=
  Smoothing.mkSmoother (Smoothing.persistence_frames s)
    (py_max (of_int 0) (py_min (of_int 1) value))
    (Smoothing._smoothed_box s) (Smoothing._frames_without_detection s)
    (Smoothing._last_payload s).

(** [BoundingBox.center_x] and [BoundingBox.center_y] *)
Definition center_x (b : Smoothing.BoundingBox F) : F :=
  add (Smoothing.x b) (div (Smoothing.width b) (of_int 2)).

Definition center_y (b : Smoothing.BoundingBox F) : F :=
  add (Smoothing.y b) (div (Smoothing.height b) (of_int 2)).

(** [BoundingBox.with_padding] *)
Definition with_padding (b : Smoothing.BoundingBox F) (padding_ratio : F)
  : Smoothing.BoundingBox F :=
  let pad_x := mul (Smoothing.width b) padding_ratio in
  let pad_y := mul (Smoothing.height b) padding_ratio in
  Smoothing.mkBoundingBox
    (sub (Smoothing.x b) pad_x)
    (sub (Smoothing.y b) pad_y)
    (add (Smoothing.width b) (mul pad_x (of_int 2)))
    (add (Smoothing.height b) (mul pad_y (of_int 2))).

End WithNumber.
End SmoothingMore.

(* ================================================================== *)
(** ** camera_manager.py: the [smoothing_alpha] property of the worker and
    the [CameraManager] wrapper *)

Module Manager.
Section WithWorld.
Context {F : Type} {num : Number F} {ord : NumberOrder F}.
Context {Frame : Type}.

(** The [smoothing_alpha] getter and setter of [CameraWorker]. *)
Definition worker_smoothing_alpha (w : CameraManager.CameraWorker F Frame) : F :=
  SmoothingMore.alpha (CameraManager._smoother w).

Definition worker_set_smoothing_alpha (w : CameraManager.CameraWorker F Frame)
           (value : F) : CameraManager.CameraWorker F Frame :=
  CameraManager.with_smoother w
    (SmoothingMore.set_alpha (CameraManager._smoother w) value).

(** The attributes of a [CameraManager]; [_worker] is [None] while no
    capture thread exists. *)
Record CameraManager : Type := mkCameraManager {
  _worker : option (CameraManager.CameraWorker F Frame);
  _camera_index : Z;
  _roboflow_enabled : bool;
  _qr_enabled : bool
}.

(** [CameraManager.__init__] *)
Definition init (camera_index : Z) : CameraManager :=
  mkCameraManager None camera_index false true.

(** The [smoothing_alpha] getter: [0.6] without a worker. *)
Definition smoothing_alpha (m : CameraManager) : F :=
  match _worker m with
  | Some w => worker_smoothing_alpha w
  | None => div (of_int 6) (of_int 10)
  end.

(** The [smoothing_alpha] setter: nothing happens without a worker. *)
Definition set_smoothing_alpha (m : CameraManager) (value : F) : CameraManager :=
  match _worker m with
  | Some w =>
      mkCameraManager (Some (worker_set_smoothing_alpha w value))
                      (_camera_index m) (_roboflow_enabled m) (_qr_enabled m)
  | None => m
  end.

(** The [roboflow_enabled] getter and setter. *)
Definition roboflow_enabled (m : CameraManager) : bool :=
  match _worker m with
  | Some w => CameraManager._roboflow_enabled w
  | None => _roboflow_enabled m
  end.

Definition set_roboflow_enabled (m : CameraManager) (value : bool) : CameraManager :=
  mkCameraManager
    (match _worker m with
     | Some w => Some (CameraManager.set_roboflow_enabled w value)
     | None => None
     end)
    (_camera_index m) value (_qr_enabled m).

(** The [qr_enabled] getter and setter. *)
Definition qr_enabled (m : CameraManager) : bool :=
  match _worker m with
  | Some w => CameraManager._qr_enabled w
  | None => _qr_enabled m
  end.

Definition set_qr_enabled (m : CameraManager) (value : bool) : CameraManager :=
  mkCameraManager
    (match _worker m with
     | Some w => Some (CameraManager.set_qr_enabled w value)
     | None => None
     end)
    (_camera_index m) (_roboflow_enabled m) value.

(** [CameraManager.start]: a new worker with the two flags of the manager. *)
Definition start (m : CameraManager) : CameraManager :=
  match _worker m with
  | Some _ => m
  | None =>
      let w := CameraManager.init in
      let w := CameraManager.set_roboflow_enabled w (_roboflow_enabled m) in
      let w := CameraManager.set_qr_enabled w (_qr_enabled m) in
      mkCameraManager (Some w) (_camera_index m) (_roboflow_enabled m) (_qr_enabled m)
  end.

(** [CameraManager.stop] *)
Definition stop (m : CameraManager) : CameraManager :=
  match _worker m with
  | Some _ => mkCameraManager None (_camera_index m) (_roboflow_enabled m) (_qr_enabled m)
  | None => m
  end.

(** What the user interface does to the manager. *)
Inductive op : Type :=
| SetRoboflow (value : bool)
| SetQr (value : bool)
| SetAlpha (value : F)
| Start
| Stop.

Definition apply (m : CameraManager) (o : op) : CameraManager :=
  match o with
  | SetRoboflow value => set_roboflow_enabled m value
  | SetQr value => set_qr_enabled m value
  | SetAlpha value => set_smoothing_alpha m value
  | Start => start m
  | Stop => stop m
  end.

(** The value the last [SetRoboflow] of a sequence gave, [default] without one. *)
Definition last_roboflow (ops : list op) (default : bool) : bool :=
  fold_left (fun acc o => match o with SetRoboflow v => v | _ => acc end) ops default.

Definition last_qr (ops : list op) (default : bool) : bool :=
  fold_left (fun acc o => match o with SetQr v => v | _ => acc end) ops default.

End WithWorld.
Arguments CameraManager F Frame : clear implicits.
Arguments op F : clear implicits.
End Manager.

(* ================================================================== *)
(** ** ui/controls.py: [TrackingButton] and the slider of [SmoothingControl] *)

Module Controls.

(** One entry of [TrackingButton._data]. *)
Record Row : Type := mkRow {
  frame : Z;
  timestamp : string;
  distance_cm : Z;
  robot_detected : bool;
  qr_detected : bool
}.

(** The attributes of a [TrackingButton].  [saved] stands for the files
    [_save_data] has written, oldest first, each by its rows (writing a
    file is taken to succeed). *)
Record TrackingButton : Type := mkTrackingButton {
  _is_tracking : bool;
  _target_frames : Z;
  _current_frame : Z;
  _data : list Row;
  saved : list (list Row)
}.

(** [TrackingButton.__init__] *)
Definition tracking_init (target_frames : Z) : TrackingButton :=
  mkTrackingButton false target_frames 0 [] [].

(** [TrackingButton._save_data]: no file for an empty session. *)
Definition _save_data (b : TrackingButton) : TrackingButton :=
  match _data b with
  | [] => b
  | _ :: _ =>
      mkTrackingButton (_is_tracking b) (_target_frames b) (_current_frame b)
                       (_data b) (saved b ++ [_data b])
  end.

(** [TrackingButton._update_progress]: while tracking, the label shows
    [self._current_frame / self._target_frames * 100], which raises
    [ZeroDivisionError] for a target of 0. *)
Definition _update_progress (b : TrackingButton) : Py.py unit :=
  if _is_tracking b then
    if _target_frames b =? 0 then Py.raise Py.ZeroDivisionError else Py.ret tt
  else Py.ret tt.

(** [TrackingButton.start_tracking]: how the call ends and the button as it
    leaves it. *)
Definition start_tracking (b : TrackingButton) : Py.py unit * TrackingButton :=
  let b := mkTrackingButton true (_target_frames b) 0 [] (saved b) in
  (_update_progress b, b).

(** [TrackingButton.stop_tracking] *)
Definition stop_tracking (b : TrackingButton) : TrackingButton :=
  _save_data (mkTrackingButton false (_target_frames b) (_current_frame b)
                               (_data b) (saved b)).

(** [TrackingButton._on_click] *)
Definition _on_click (b : TrackingButton) : Py.py unit * TrackingButton :=
  if _is_tracking b then (Py.ret tt, stop_tracking b) else start_tracking b.

(** [TrackingButton.record_frame]; [now] is [datetime.now().isoformat()]. *)
Definition record_frame (b : TrackingButton) (now : string) (distance : Z)
           (robot_detected qr_detected : bool) : Py.py unit * TrackingButton :=
  if negb (_is_tracking b) then (Py.ret tt, b)
  else
    let row := mkRow (_current_frame b) now distance robot_detected qr_detected in
    let b := mkTrackingButton (_is_tracking b) (_target_frames b)
                              (_current_frame b + 1) (_data b ++ [row]) (saved b) in
    match _update_progress b with
    | inl e => (Py.raise e, b)
    | inr _ =>
        if _current_frame b >=? _target_frames b
        then (Py.ret tt, stop_tracking b)
        else (Py.ret tt, b)
    end.

(** One call of [record_frame], by its arguments. *)
Record Sample : Type := mkSample {
  now : string;
  distance : Z;
  robot : bool;
  qr : bool
}.

Definition record (b : TrackingButton) (s : Sample) : TrackingButton :=
  snd (record_frame b (now s) (distance s) (robot s) (qr s)).

(** Successive calls of [record_frame], up to the first that raises. *)
Fixpoint record_all (b : TrackingButton) (samples : list Sample)
  : Py.py unit * TrackingButton :=
  match samples with
  | [] => (Py.ret tt, b)
  | s :: rest =>
      match record_frame b (now s) (distance s) (robot s) (qr s) with
      | (inl e, b) => (Py.raise e, b)
      | (inr _, b) => record_all b rest
      end
  end.

(** The rows of samples, numbered from [first]. *)
Fixpoint rows_from (first : Z) (samples : list Sample) : list Row :=
  match samples with
  | [] => []
  | s :: rest =>
      mkRow first (now s) (distance s) (robot s) (qr s) :: rows_from (first + 1) rest
  end.

(** [SmoothingControl._on_slider_changed]: the value emitted for a slider
    position, [value / 100.0]. *)
Definition slider_value {F : Type} {num : Number F} (position : Z) : F :=
  div (of_int position) (of_int 100).

End Controls.

(* ================================================================== *)
(** ** distance_sensor.py *)

Module DistanceSensor.

(** [deque.append] on a deque of at most [maxlen] items. *)
Definition deque_append (maxlen : Z) (buffer : list Z) (item : Z) : list Z :=
  if Z.of_nat (List.length buffer) >=? maxlen
  then tl (buffer ++ [item])
  else buffer ++ [item].

(** The builtin [min] of a sequence that is not empty. *)
Definition py_min_list (first : Z) (rest : list Z) : Z :=
  fold_left (fun m item => if item <? m then item else m) rest first.

(** The attributes of a [DistanceSensor] that the filter uses. *)
Record DistanceSensor : Type := mkDistanceSensor {
  window_size : Z;
  window_buffer : list Z
}.

(** [DistanceSensor.__init__] *)
Definition init : DistanceSensor := mkDistanceSensor 5 [].

(** One turn of [_read_loop] on what [serial_protocol.read_basic_mode]
    returned for the line read ([None] also when no line came): the sensor
    object and the value emitted with [distance_updated], if any.  An
    exception in the turn ([target_values[5]] out of range) is caught by the
    [except Exception] of the loop: nothing is emitted. *)
Definition read_turn (s : DistanceSensor) (target_values : option (list Z))
  : DistanceSensor * option Z :=
  match target_values with
  | None => (s, None)
  | Some values =>
      match nth_error values 5 with
      | None => (s, None)
      | Some distance =>
          let buffer := deque_append (window_size s) (window_buffer s) distance in
          match buffer with
          | [] => (mkDistanceSensor (window_size s) buffer, None)
          | first :: rest =>
              (mkDistanceSensor (window_size s) buffer, Some (py_min_list first rest))
          end
      end
  end.

(** The loop over the successive lines: the values emitted, in order. *)
Fixpoint read_loop (s : DistanceSensor) (lines : list (option (list Z)))
  : DistanceSensor * list Z :=
  match lines with
  | [] => (s, [])
  | line :: rest =>
      let '(s1, out) := read_turn s line in
      let '(s2, outs) := read_loop s1 rest in
      (s2, match out with Some v => v :: outs | None => outs end)
  end.

(** The last [n] items of a list, and the least item of a list. *)
Definition lastn (n : nat) (l : list Z) : list Z :=
  skipn (List.length l - n) l.

Definition least (l : list Z) : Z :=
  match l with
  | [] => 0
  | first :: rest => py_min_list first rest
  end.

(** The distances of the lines that carry one. *)
Definition distances (lines : list (option (list Z))) : list Z :=
  flat_map (fun line =>
              match line with
              | Some values =>
                  match nth_error values 5 with Some d => [d] | None => [] end
              | None => []
              end) lines.

End DistanceSensor.

(* ================================================================== *)
(** ** visualize_tracking.py *)

Module Visualize.

(** The columns of [load_tracking_data], row by row. *)
Record LogRow : Type := mkLogRow {
  frame : Z;
  distance_cm : Z;
  robot_detected : bool;
  qr_detected : bool
}.

(** [robot_stops] of [create_visualization]:
    [np.invert((distances > 150) | (robot_detected & qr_detected))]. *)
Definition robot_stops (data : list LogRow) : list bool :=
  map negb
      (map (fun row => (distance_cm row >? 150) || (robot_detected row && qr_detected row))
           data).

(** A row of a tracking session as [load_tracking_data] returns it from the
    file: [csv.DictWriter] writes [str(value)] of each field, the loader
    reads the numbers back with [int] and the flags with [== 'True']. *)
Definition of_row (r : Controls.Row) : LogRow :=
  mkLogRow (Controls.frame r) (Controls.distance_cm r)
           (Controls.robot_detected r) (Controls.qr_detected r).

End Visualize.

(* ================================================================== *)
(** ** ui/main_window.py: the window with its camera and its tracking button *)

Module App.
Section WithWorld.
Context {F : Type} {num : Number F} {ord : NumberOrder F}.
Context {Frame : Type}.

Record App : Type := mkApp {
  window : MainWindow.MainWindow;
  _camera : Manager.CameraManager F Frame;
  _tracking_button : Controls.TrackingButton
}.

(** [MainWindow.__init__]: the classifier is switched on before the camera
    starts, the tracking button aims at 2000 frames. *)
Definition init : App :=
  mkApp MainWindow.init
        (Manager.set_roboflow_enabled (Manager.init 0) true)
        (Controls.tracking_init 2000).

(** [MainWindow._on_frame_ready], with the tracking record: how the call
    ends and the application as it leaves it; [now] is the time stamp
    [record_frame] takes. *)
Definition _on_frame_ready (a : App) (frame_data : CameraManager.FrameData F Frame)
           (now : string) : Py.py unit * App :=
  let w := MainWindow._on_frame_ready (window a) frame_data in
  let '(r, t) :=
    if Controls._is_tracking (_tracking_button a) then
      Controls.record_frame (_tracking_button a) now
        (MainWindow._current_distance (window a))
        (if CameraManager.roboflow_enabled frame_data
         then CameraManager.classification_detected frame_data else false)
        (if CameraManager.qr_enabled frame_data
         then CameraManager.robot_detected frame_data else false)
    else (Py.ret tt, _tracking_button a) in
  (r, mkApp w (_camera a) t).

(** [MainWindow._on_qr_toggled], [_on_roboflow_toggled], [_on_smoothing_changed] *)
Definition _on_qr_toggled (a : App) (enabled : bool) : App :=
  mkApp (window a) (Manager.set_qr_enabled (_camera a) enabled) (_tracking_button a).

Definition _on_roboflow_toggled (a : App) (enabled : bool) : App :=
  mkApp (window a) (Manager.set_roboflow_enabled (_camera a) enabled)
        (_tracking_button a).

Definition _on_smoothing_changed (a : App) (value : F) : App :=
  mkApp (window a) (Manager.set_smoothing_alpha (_camera a) value)
        (_tracking_button a).

(** [MainWindow._on_distance_updated] and [_on_threshold_changed] *)
Definition _on_distance_updated (a : App) (distance : Z) : App :=
  mkApp (MainWindow._on_distance_updated (window a) distance) (_camera a)
        (_tracking_button a).

Definition _on_threshold_changed (a : App) (value : Z) : App :=
  mkApp (MainWindow._on_threshold_changed (window a) value) (_camera a)
        (_tracking_button a).

End WithWorld.
Arguments App F Frame : clear implicits.
End App.

(* ================================================================== *)
(** ** camera_manager.py: [run], from opening the camera to the way out *)

Module Capture.
Section WithWorld.
Context {F : Type} {num : Number F}.
Context {Frame : Type} {img : Image Frame}.

(** What one attempt to open the camera gives: [cap.isOpened()] false, the
    camera open but the test read failing, or both succeeding. *)
Inductive attempt : Type :=
| NotOpened
| OpenedNoFrame
| OpenedAndRead.

(** The [for attempt in range(max_retries)] loop of [run], from attempt
    number [index] on with [left] attempts to go: the number of the attempt
    that kept the camera, if any, and how often [time.sleep(retry_delay)]
    was called. *)
Fixpoint open_from (outcome : nat -> attempt) (index left : nat) : option nat * nat :=
  match left with
  | O => (None, 0%nat)
  | S left' =>
      match outcome index with
      | OpenedAndRead => (Some index, 0%nat)
      | _ =>
          let '(cap, sleeps) := open_from outcome (S index) left' in
          (cap, if (index <? 4)%nat then S sleeps else sleeps)
      end
  end.

(** [max_retries = 5] *)
Definition open_camera (outcome : nat -> attempt) : option nat * nat :=
  open_from outcome 0 5.

(** The lines of [run] after the loop: the worker thread is told to stop,
    by the flag and, when it is alive and the slot has room, by the exit
    signal [None]. *)
Definition run_finish (w : CameraManager.CameraWorker F Frame)
  : CameraManager.CameraWorker F Frame :=
  let w := CameraManager.with_roboflow_thread_running w false in
  if CameraManager._roboflow_thread_alive w then
    match Queue.put_nowait 1 (CameraManager._roboflow_queue w) None with
    | inr q => CameraManager.with_roboflow_queue w q
    | inl _ => w
    end
  else w.

(** [CameraWorker.run]: the signals emitted and the worker object at the
    end.  [outcome] gives the attempts to open the camera, [reads] the
    results of [cap.read()] until [stop()] ends the loop; [failed_to_open]
    is the text of the first error. *)
Definition run (failed_to_open : string)
           (decode : Frame -> Py.py (list Pyzbar.Decoded))
           (outcome : nat -> attempt) (reads : list (option Frame))
           (w : CameraManager.CameraWorker F Frame)
  : Py.py (list CameraManager.signal * CameraManager.CameraWorker F Frame) :=
  match fst (open_camera outcome) with
  | None => Py.ret ([CameraManager.error_occurred failed_to_open], w)
  | Some _ =>
      Py.bind (CameraManager.run_loop decode reads w 0)
              (fun r => Py.ret (fst r, run_finish (snd r)))
  end.

End WithWorld.
End Capture.

(* ================================================================== *)
(** ** roboflow_client.py: the result for a body of the expected shape *)

(** What [_parse_response] returns for a body whose ["outputs"] is [outs],
    on a frame [h] high and [wd] wide: the first prediction of the target
    class in the first output, if any. *)
Definition parsed {F : Type} {num : Number F}
           (outs : list (list (RoboflowClient.Prediction F))) (h wd : Z)
  : RoboflowClient.RoboflowResult F :=
  match outs with
  | [] => RoboflowClient.no_detection wd h
  | predictions :: _ =>
      match RoboflowClient.find_target predictions with
      | Some det => RoboflowClient.mkRoboflowResult true (Some det) wd h
      | None => RoboflowClient.no_detection wd h
      end
  end.

(* ================================================================== *)
(** ** local_yolo_client.py *)

Module LocalYoloClient.
Section WithNumber.
Context {F : Type} {num : Number F} {ord : NumberOrder F}.
Context {Frame : Type} {img : Image Frame}.

(** [config.YOLO_TARGET_CLASS], read from the environment. *)
Variable YOLO_TARGET_CLASS : string.

(** One entry of [results[0].boxes] as the loop reads it: [cls] is
    [int(box.cls.item())], [conf] is [float(box.conf.item())] and [xyxy] is
    [box.xyxy[0].tolist()]. *)
Record Box : Type := mkBox {
  cls : Z;
  conf : F;
  xyxy : F * F * F * F
}.

(** [str(n)] of an [int]. *)
Definition str (n : Z) : string :=
  DecimalString.NilZero.string_of_int (Z.to_int n).

(** [names.get(cls_id, str(cls_id))] *)
Definition class_of (names : Z -> option string) (cls_id : Z) : string :=
  match names cls_id with
  | Some name => name
  | None => str cls_id
  end.

(** The detection the loop builds from a box. *)
Definition detection_of (names : Z -> option string) (box : Box)
  : RoboflowClient.RoboflowDetection F :=
  let '(x1, y1, x2, y2) := xyxy box in
  let width := sub x2 x1 in
  let height := sub y2 y1 in
  RoboflowClient.mkRoboflowDetection
    (class_of names (cls box)) (RoboflowClient.Num (conf box))
    (RoboflowClient.Num (add x1 (div width (of_int 2))))
    (RoboflowClient.Num (add y1 (div height (of_int 2))))
    (RoboflowClient.Num width) (RoboflowClient.Num height).

(** One turn of the [for box in boxes] loop on [(best_det, best_conf)];
    [conf >= best_conf] is [best_conf <= conf]. *)
Definition best_step (names : Z -> option string)
           (best : option (RoboflowClient.RoboflowDetection F) * F) (box : Box)
  : option (RoboflowClient.RoboflowDetection F) * F :=
  let class_name := class_of names (cls box) in
  if negb (String.eqb class_name YOLO_TARGET_CLASS) then best
  else if leb (snd best) (conf box)
       then (Some (detection_of names box), conf box)
       else best.

(** [LocalYoloClient.detect].  [has_model] is [self._model is not None],
    [names] is [self._names or {}] and [predict] the outcome of
    [self._model.predict(...)]: the list of results, each with its [boxes]
    ([None] when the attribute is [None]).  The [except Exception] clause
    logs and falls through to the final [return]; [None] stands for falling
    through. *)
Definition detect (has_model : bool) (names : Z -> option string) (frame : Frame)
           (predict : Py.py (list (option (list Box))))
  : Py.py (RoboflowClient.RoboflowResult F) :=
  let '(h, w) := shape frame in
  if negb has_model then
    Py.ret (RoboflowClient.no_detection w h)
  else
    Py.bind
      (Py.try_except
         (Py.bind predict (fun results =>
            match results with
            | [] => Py.ret (Some (RoboflowClient.no_detection w h))
            | first :: _ =>
                let best :=
                  match first with
                  | Some boxes => fold_left (best_step names) boxes (None, of_int 0)
                  | None => (None, of_int 0)
                  end in
                match fst best with
                | Some best_det =>
                    Py.ret (Some (RoboflowClient.mkRoboflowResult
                                    true (Some best_det) w h))
                | None => Py.ret None
                end
            end))
         Py.is_Exception
         (fun _ => Py.ret None))
      (fun returned =>
         match returned with
         | Some r => Py.ret r
         | None => Py.ret (RoboflowClient.no_detection w h)
         end).

End WithNumber.
Arguments Box F : clear implicits.

(** What the loop of [detect] has established after the boxes [seen], on
    binary64 numbers: [best_conf] is a number that is not negative, no box
    of the target class among [seen] has a confidence above it (a NaN
    apart), and [best_det] comes from the last box of the target class that
    reaches it. *)
Definition best_inv (YOLO_TARGET_CLASS : string) (names : Z -> option string)
           (seen : list (Box float))
           (best : option (RoboflowClient.RoboflowDetection float) * float) : Prop :=
  PrimFloat.leb 0 (snd best) = true /\
  (forall b, In b seen -> class_of names (cls b) = YOLO_TARGET_CLASS ->
     PrimFloat.leb (conf b) (snd best) = true \/ PrimFloat.is_nan (conf b) = true) /\
  match fst best with
  | None =>
      snd best = 0%float /\
      forall b, In b seen -> class_of names (cls b) = YOLO_TARGET_CLASS ->
        PrimFloat.leb 0 (conf b) = false
  | Some det =>
      exists pre b post,
        seen = (pre ++ b :: post)%list /\
        class_of names (cls b) = YOLO_TARGET_CLASS /\
        det = detection_of names b /\
        conf b = snd best /\
        forall b', In b' post -> class_of names (cls b') = YOLO_TARGET_CLASS ->
          PrimFloat.leb (snd best) (conf b') = false
  end.

End LocalYoloClient.

(* ================================================================== *)
(** ** Concrete inputs

    Frames are numbered; the decoders and classifier outcomes below are the
    ones the examples are run on. *)

Module Examples.

#[global] Instance numbered_frames : Image nat := {
  shape := fun _ => (720, 1280);
  flip := fun f => f
}.

(** A box with corner [(v, 0)], 10 wide and 10 high. *)
Definition box_at (v : Z) : Smoothing.BoundingBox float :=
  Smoothing.mkBoundingBox (of_int v) (of_int 0) (of_int 10) (of_int 10).

Definition seen_at (v : Z) : Smoothing.DetectedQR float :=
  Smoothing.mkDetectedQR "ROBOT_R1" (box_at v).

(** The slider at 30: [alpha = 30 / 100]. *)
Definition alpha_30 : float := div (of_int 30) (of_int 100).

(** The default smoother of the worker, [BoundingBoxSmoother(5, 0.6)]. *)
Definition default_smoother : Smoothing.BoundingBoxSmoother float :=
  Smoothing.init 5 (div (of_int 6) (of_int 10)).

(** A smoother with [alpha = 0.3] that saw the marker at 0 and then, a
    hundred frames long, at 2. *)
Definition stalled : Smoothing.BoundingBoxSmoother float :=
  Smoothing.after_repeats 100 (seen_at 2)
    (snd (Smoothing.update (Smoothing.init 5 alpha_30) (Some (seen_at 0)))).

(** The same boxes over the reals. *)
Definition real_box_at (v : Z) : Smoothing.BoundingBox R :=
  Smoothing.mkBoundingBox (IZR v) (IZR 0) (IZR 10) (IZR 10).

Definition real_seen_at (v : Z) : Smoothing.DetectedQR R :=
  Smoothing.mkDetectedQR "ROBOT_R1" (real_box_at v).

Definition real_smoother : Smoothing.BoundingBoxSmoother R :=
  snd (Smoothing.update (Smoothing.init 5 (3 / 10)%R) (Some (real_seen_at 0))).

(** A decoder that finds the target marker in every frame. *)
Definition decode_target (_ : nat) : Py.py (list Pyzbar.Decoded) :=
  Py.ret [Pyzbar.mkDecoded (Some "ROBOT_R1"%string) (Pyzbar.mkRect 100 50 40 40)].

(** A decoder that finds nothing. *)
Definition decode_nothing (_ : nat) : Py.py (list Pyzbar.Decoded) :=
  Py.ret [].

(** A decoder that fails in every frame. *)
Definition decode_raises (_ : nat) : Py.py (list Pyzbar.Decoded) :=
  Py.raise (Py.Exception_ "zbar: decode failed").

(** A decoder that fails in frame 2 and finds nothing in the others. *)
Definition decode_fails_on_2 (frame : nat) : Py.py (list Pyzbar.Decoded) :=
  if (frame =? 2)%nat then decode_raises frame else decode_nothing frame.

(** A worker with the classifier on and frame 7 waiting in the slot, one
    frame short of the stride. *)
Definition busy_worker : CameraManager.CameraWorker float nat :=
  CameraManager.mkCameraWorker default_smoother true true 2 false None 0
                               [Some 7%nat] true true.

(** A worker whose classifier reported a detection that is still stored. *)
Definition stale_worker : CameraManager.CameraWorker float nat :=
  CameraManager.mkCameraWorker default_smoother true true 1 true
    (Some (CameraManager.mkClassificationBBox (of_int 10) (of_int 20)
                                              (of_int 30) (of_int 40)))
    2 [Some 7%nat] true true.

(** A published frame on which neither detector saw anything. *)
Definition nothing_seen : CameraManager.FrameData float nat :=
  CameraManager.mkFrameData 1%nat None false true false None false true.

(** The window with the threshold at its default of 100 and a reading of 200. *)
Definition far_window : MainWindow.MainWindow :=
  MainWindow._on_distance_updated MainWindow.init 200.

(** The window with a reading of 40, under the threshold of 100. *)
Definition near_window : MainWindow.MainWindow :=
  MainWindow._on_distance_updated MainWindow.init 40.


(** A reply with one laptop centred at (100, 80), 40 wide and 20 high. *)
Definition laptop_reply : RoboflowClient.Response float :=
  RoboflowClient.Outputs
    [[RoboflowClient.mkPrediction (Some "laptop"%string)
        (Some (RoboflowClient.Num (of_int 1)))
        (Some (RoboflowClient.Num (of_int 100))) (Some (RoboflowClient.Num (of_int 80)))
        (Some (RoboflowClient.Num (of_int 40))) (Some (RoboflowClient.Num (of_int 20)))]].

(** A classifier that finds the laptop in every frame. *)
Definition finding (frame : nat) : Py.py (RoboflowClient.RoboflowResult float) :=
  RoboflowClient.detect (Some "key"%string) frame
    (Py.ret (RoboflowClient.mkHttpResponse 200 (Py.ret laptop_reply))).


(** A reply with status 200 and one laptop whose ["width"] is [null]. *)
Definition null_width_reply : RoboflowClient.HttpResponse float :=
  RoboflowClient.mkHttpResponse 200
    (Py.ret (RoboflowClient.Outputs
       [[RoboflowClient.mkPrediction (Some "laptop"%string)
           (Some (RoboflowClient.Num (of_int 1)))
           (Some (RoboflowClient.Num (of_int 100))) (Some (RoboflowClient.Num (of_int 80)))
           (Some RoboflowClient.Null) (Some (RoboflowClient.Num (of_int 20)))]])).

(** A classifier that gets [null_width_reply] for every frame. *)
Definition finding_null_width (frame : nat)
  : Py.py (RoboflowClient.RoboflowResult float) :=
  RoboflowClient.detect (Some "key"%string) frame (Py.ret null_width_reply).

(** The detection the client builds from [laptop_reply]. *)
Definition laptop : RoboflowClient.RoboflowDetection float :=
  RoboflowClient.mkRoboflowDetection "laptop"
    (RoboflowClient.Num (of_int 1))
    (RoboflowClient.Num (of_int 100)) (RoboflowClient.Num (of_int 80))
    (RoboflowClient.Num (of_int 40)) (RoboflowClient.Num (of_int 20)).

(** A decoder that finds the target marker in frames 5 to 40 only. *)
Definition decode_5_to_40 (frame : nat) : Py.py (list Pyzbar.Decoded) :=
  if ((5 <=? frame)%nat && (frame <=? 40)%nat)%bool
  then decode_target frame else decode_nothing frame.

(** The [can_continue_moving] of the frame results a run published. *)
Definition published_gate
           (out : Py.py (list (@CameraManager.signal float nat)
                         * CameraManager.CameraWorker float nat)) : list bool :=
  match out with
  | inl _ => []
  | inr (emitted, _) =>
      flat_map (fun sig => match sig with
                           | CameraManager.frame_ready frame_data =>
                               [CameraManager.can_continue_moving frame_data]
                           | CameraManager.error_occurred _ => []
                           end) emitted
  end.

End Examples.

(* ================================================================== *)
(** ** More concrete inputs *)

Module MoreExamples.

(** What [_detect_qr] finds with [Examples.decode_5_to_40]. *)
Definition found_5_to_40 (frame : nat) : option (Smoothing.DetectedQR float) :=
  if ((5 <=? frame)%nat && (frame <=? 40)%nat)%bool
  then Some (Smoothing.mkDetectedQR "ROBOT_R1"
               (Smoothing.mkBoundingBox
                  (mul (of_int 100) (div (of_int 1) CameraManager.QR_DETECTION_SCALE))
                  (mul (of_int 50) (div (of_int 1) CameraManager.QR_DETECTION_SCALE))
                  (mul (of_int 40) (div (of_int 1) CameraManager.QR_DETECTION_SCALE))
                  (mul (of_int 40) (div (of_int 1) CameraManager.QR_DETECTION_SCALE))))
  else None.

(** A marker seen in the second of seven frames. *)
Definition seen_once : list (option (Smoothing.DetectedQR float)) :=
  [None; Some (Examples.seen_at 2); None; None; None; None; None].

(** A worker with the classifier on, the slot empty and the stride counter
    one turn short of the interval. *)
Definition ready_worker : CameraManager.CameraWorker float nat :=
  CameraManager.mkCameraWorker Examples.default_smoother true true 2 false None 0
                               [] true true.

(** The classifier's result for [Examples.laptop_reply] on a numbered frame. *)
Definition laptop_found : RoboflowClient.RoboflowResult float :=
  RoboflowClient.mkRoboflowResult true (Some Examples.laptop) 1280 720.

(** The application after the camera has started. *)
Definition running_app : App.App float nat :=
  App.mkApp MainWindow.init
            (Manager.start (Manager.set_roboflow_enabled (Manager.init 0) true))
            (Controls.tracking_init 2000).

(** The application with a reading of 120, the threshold at 150 and a
    tracking session under way. *)
Definition tracking_app : App.App float nat :=
  App.mkApp (MainWindow._on_threshold_changed
               (MainWindow._on_distance_updated MainWindow.init 120) 150)
            (Manager.start (Manager.set_roboflow_enabled (Manager.init 0) true))
            (snd (Controls.start_tracking (Controls.tracking_init 2000))).

(** Seven lines of the sensor, each with its distance at index 5. *)
Definition sensor_lines : list (option (list Z)) :=
  map (fun d => Some [1; 0; 0; 0; 0; d]) [120; 80; 130; 140; 150; 160; 170].

(** A decoder that finds a foreign marker, then the target marker, then a
    symbol whose bytes are not UTF-8. *)
Definition decode_three (_ : nat) : Py.py (list Pyzbar.Decoded) :=
  Py.ret [Pyzbar.mkDecoded (Some "ROBOT_R2"%string) (Pyzbar.mkRect 0 0 10 10);
          Pyzbar.mkDecoded (Some "ROBOT_R1"%string) (Pyzbar.mkRect 100 50 40 40);
          Pyzbar.mkDecoded None (Pyzbar.mkRect 7 7 7 7)].

(** A camera that opens at the third attempt. *)
Definition opens_third (k : nat) : Capture.attempt :=
  if (k <? 2)%nat then Capture.NotOpened else Capture.OpenedAndRead.

(** The detection the client builds from [Examples.null_width_reply]. *)
Definition laptop_null_width : RoboflowClient.RoboflowDetection float :=
  RoboflowClient.mkRoboflowDetection "laptop"
    (RoboflowClient.Num (of_int 1))
    (RoboflowClient.Num (of_int 100)) (RoboflowClient.Num (of_int 80))
    RoboflowClient.Null (RoboflowClient.Num (of_int 20)).

(** The class names of a model: 0 is a person, 67 a cell phone. *)
Definition coco_names (cls_id : Z) : option string :=
  if cls_id =? 0 then Some "person"%string
  else if cls_id =? 67 then Some "cell phone"%string
  else None.

(** A box of class [cls_id] with confidence [tenths / 10] and its left edge
    at [left]. *)
Definition yolo_box (cls_id tenths left : Z) : LocalYoloClient.Box float :=
  LocalYoloClient.mkBox cls_id (div (of_int tenths) (of_int 10))
    (of_int left, of_int 0, of_int (left + 10), of_int 10).

(** A phone at 0.5, a person at 0.9 and two phones at 0.8. *)
Definition phone_boxes : list (LocalYoloClient.Box float) :=
  [yolo_box 67 5 0; yolo_box 0 9 100; yolo_box 67 8 200; yolo_box 67 8 300].

End MoreExamples.

(* ================================================================== *)
(** * Properties of the Detection Smoother *)

Section SmootherFacts.
Context {F : Type} {num : Number F}.
Import Smoothing.

Implicit Types (s : BoundingBoxSmoother F) (d : DetectedQR F) (b : BoundingBox F).

Lemma smooth_box_fields s b :
  persistence_frames (snd (_smooth_box s b)) = persistence_frames s /\
  smoothing_alpha (snd (_smooth_box s b)) = smoothing_alpha s /\
  _frames_without_detection (snd (_smooth_box s b)) = _frames_without_detection s /\
  _last_payload (snd (_smooth_box s b)) = _last_payload s /\
  _smoothed_box (snd (_smooth_box s b)) = Some (fst (_smooth_box s b)).
Proof.
  unfold _smooth_box. destruct (_smoothed_box s); cbn; auto.
Qed.

(** A detection: what is put out and what is stored. *)
Lemma update_detected_eq s d :
  update s (Some d) =
  (Some (mkDetectedQR (payload d) (fst (_smooth_box s (bounding_box d)))),
   mkSmoother (persistence_frames s) (smoothing_alpha s)
              (Some (fst (_smooth_box s (bounding_box d)))) 0 (Some (payload d))).
Proof.
  unfold update, _smooth_box. cbn.
  destruct (_smoothed_box s) as [old|]; reflexivity.
Qed.

(** A miss inside the window changes the counter and nothing else. *)
Lemma update_none_within s :
  _frames_without_detection s + 1 < persistence_frames s ->
  update s None =
  (match _smoothed_box s, _last_payload s with
   | Some b, Some p => Some (mkDetectedQR p b)
   | _, _ => None
   end,
   set_frames_without_detection s (_frames_without_detection s + 1)).
Proof.
  intros Hlt. unfold update. cbn.
  destruct (Z.geb_spec (_frames_without_detection s + 1) (persistence_frames s)); [lia|].
  destruct (_smoothed_box s), (_last_payload s); reflexivity.
Qed.

(** A miss that brings the counter to the threshold, or beyond, clears. *)
Lemma update_none_expired s :
  persistence_frames s <= _frames_without_detection s + 1 ->
  update s None =
  (None,
   mkSmoother (persistence_frames s) (smoothing_alpha s) None
              (_frames_without_detection s + 1) None).
Proof.
  intros Hle. unfold update. cbn.
  destruct (Z.geb_spec (_frames_without_detection s + 1) (persistence_frames s)); [|lia].
  reflexivity.
Qed.

Lemma update_none_counter s :
  _frames_without_detection (snd (update s None)) = _frames_without_detection s + 1 /\
  persistence_frames (snd (update s None)) = persistence_frames s /\
  smoothing_alpha (snd (update s None)) = smoothing_alpha s.
Proof.
  destruct (Z.lt_ge_cases (_frames_without_detection s + 1) (persistence_frames s)) as [H|H].
  - rewrite update_none_within by assumption. cbn. auto.
  - rewrite update_none_expired by assumption. cbn. auto.
Qed.

Lemma feed_cons s i rest :
  feed s (i :: rest) =
  (fst (update s i) :: fst (feed (snd (update s i)) rest),
   snd (feed (snd (update s i)) rest)).
Proof.
  cbn [feed]. destruct (update s i) as [o s1]. cbn [fst snd].
  destruct (feed s1 rest) as [os s2]. reflexivity.
Qed.

Lemma after_misses_S k s :
  after_misses (S k) s = after_misses k (snd (update s None)).
Proof.
  unfold after_misses. cbn [repeat]. rewrite feed_cons. reflexivity.
Qed.

Lemma after_repeats_S n d s :
  after_repeats (S n) d s = after_repeats n d (snd (update s (Some d))).
Proof.
  unfold after_repeats. cbn [repeat]. rewrite feed_cons. reflexivity.
Qed.

Lemma after_misses_counter k s :
  _frames_without_detection (after_misses k s) = _frames_without_detection s + Z.of_nat k /\
  persistence_frames (after_misses k s) = persistence_frames s.
Proof.
  revert s. induction k as [|k IH]; intros s.
  - cbn. split; [lia | reflexivity].
  - rewrite after_misses_S. destruct (IH (snd (update s None))) as [Hc Hp].
    destruct (update_none_counter s) as (Hc1 & Hp1 & _).
    rewrite Hc, Hp, Hc1, Hp1. split; [lia | reflexivity].
Qed.

(** While the counter stays under the threshold the misses only count. *)
Lemma after_misses_within k s :
  _frames_without_detection s + Z.of_nat k < persistence_frames s ->
  after_misses k s =
  set_frames_without_detection s (_frames_without_detection s + Z.of_nat k).
Proof.
  revert s. induction k as [|k IH]; intros s Hlt.
  - cbn. destruct s; unfold set_frames_without_detection; cbn. f_equal. lia.
  - rewrite after_misses_S, update_none_within by lia. cbn [snd].
    rewrite IH by (cbn; lia). unfold set_frames_without_detection; cbn.
    f_equal. lia.
Qed.

(** Without a stored box a miss outputs nothing and stores nothing. *)
Lemma update_none_no_box s :
  _smoothed_box s = None ->
  fst (update s None) = None /\ _smoothed_box (snd (update s None)) = None.
Proof.
  intros Hb.
  destruct (Z.lt_ge_cases (_frames_without_detection s + 1) (persistence_frames s)) as [H|H].
  - rewrite update_none_within by assumption. rewrite Hb. cbn. auto.
  - rewrite update_none_expired by assumption. cbn. auto.
Qed.

Lemma after_misses_no_box k s :
  _smoothed_box s = None -> _smoothed_box (after_misses k s) = None.
Proof.
  revert s. induction k as [|k IH]; intros s Hb; [exact Hb|].
  rewrite after_misses_S. apply IH. apply update_none_no_box, Hb.
Qed.

End SmootherFacts.

(* ================================================================== *)
(** * The Detection Smoother: detections, misses, the invariant *)

Section SmootherProperties.
Context {F : Type} {num : Number F}.
Import Smoothing.

Implicit Types (s : BoundingBoxSmoother F) (d : DetectedQR F) (b : BoundingBox F).

(** C8.  When a detection is passed to [update], the counter of missed frames
    is reset to 0, the payload is recorded, and the box put out and stored is,
    coordinate by coordinate, [alpha * new + (1 - alpha) * previous]; when no
    box was stored (the first detection) it is the raw box.  The output
    carries the payload of the detection. *)
Theorem update_detection_smooths s d :
  let previous := _smoothed_box s in
  let alpha := smoothing_alpha s in
  let new := bounding_box d in
  let smoothed :=
    match previous with
    | None => new
    | Some old =>
        mkBoundingBox
          (add (mul alpha (x new)) (mul (sub (of_int 1) alpha) (x old)))
          (add (mul alpha (y new)) (mul (sub (of_int 1) alpha) (y old)))
          (add (mul alpha (width new)) (mul (sub (of_int 1) alpha) (width old)))
          (add (mul alpha (height new)) (mul (sub (of_int 1) alpha) (height old)))
    end in
  update s (Some d) =
  (Some (mkDetectedQR (payload d) smoothed),
   mkSmoother (persistence_frames s) alpha (Some smoothed) 0 (Some (payload d))).
Proof.
  cbv zeta. unfold update, _smooth_box. cbn.
  destruct (_smoothed_box s) as [old|]; reflexivity.
Qed.

(** C3.  After a detection, the [k]-th consecutive miss outputs the detection
    that was put out last (same payload, same smoothed box) and leaves the
    stored box and payload as they are, as long as [k < persistence_frames];
    the miss on which the counter reaches [persistence_frames] (and any later
    one) outputs nothing and clears the stored box and payload; and a
    smoother that never saw a detection outputs nothing on a miss. *)
Theorem misses_hold_then_clear s d :
  let held := fst (update s (Some d)) in
  let s0 := snd (update s (Some d)) in
  (exists b, held = Some (mkDetectedQR (payload d) b) /\ _smoothed_box s0 = Some b) /\
  (forall k : nat,
      (1 <= k)%nat -> Z.of_nat k < persistence_frames s ->
      let kth := update (after_misses (k - 1) s0) None in
      fst kth = held /\
      _smoothed_box (snd kth) = _smoothed_box s0 /\
      _last_payload (snd kth) = _last_payload s0) /\
  (forall k : nat,
      (1 <= k)%nat -> persistence_frames s <= Z.of_nat k ->
      let kth := update (after_misses (k - 1) s0) None in
      fst kth = None /\
      _smoothed_box (snd kth) = None /\
      _last_payload (snd kth) = None) /\
  (forall pf alpha (k : nat),
      fst (update (after_misses k (init pf alpha)) None) = None).
Proof.
  cbv zeta. rewrite update_detected_eq. cbn [fst snd].
  set (b := fst (_smooth_box s (bounding_box d))).
  set (s0 := mkSmoother _ _ _ _ _).
  split; [exists b; split; reflexivity|].
  split; [|split].
  - intros k Hk Hlt.
    rewrite after_misses_within by (subst s0; cbn; lia).
    rewrite update_none_within by (subst s0; cbn; lia).
    subst s0. cbn. auto.
  - intros k Hk Hge.
    destruct (after_misses_counter (k - 1) s0) as [Hc Hp].
    rewrite update_none_expired by (rewrite Hc, Hp; subst s0; cbn; lia).
    cbn. auto.
  - intros pf alpha k.
    apply update_none_no_box, after_misses_no_box. reflexivity.
Qed.

(** C10.  [smoothed_box is None] if and only if [last_payload is None]: this
    holds of a freshly constructed smoother and is kept by every [update]
    (with or without a detection) and by [reset]; so it holds in every state
    the smoother reaches, where the guard of the held detection, which tests
    both fields, never finds one set without the other. *)
Theorem box_and_payload_together :
  (forall pf (alpha : F), box_payload_inv (init pf alpha)) /\
  (forall s (input : option (DetectedQR F)),
      box_payload_inv s -> box_payload_inv (snd (update s input))) /\
  (forall s, box_payload_inv s -> box_payload_inv (reset s)) /\
  (forall s, reachable s -> box_payload_inv s) /\
  (forall s, reachable s ->
      match _smoothed_box s, _last_payload s with
      | Some _, None | None, Some _ => False
      | _, _ => True
      end).
Proof.
  assert (Hinit : forall pf (alpha : F), box_payload_inv (init pf alpha)).
  { intros. unfold box_payload_inv. cbn. tauto. }
  assert (Hupd : forall s (input : option (DetectedQR F)),
             box_payload_inv s -> box_payload_inv (snd (update s input))).
  { intros s [d|] Hinv.
    - rewrite update_detected_eq. unfold box_payload_inv. cbn.
      split; discriminate.
    - destruct (Z.lt_ge_cases (_frames_without_detection s + 1) (persistence_frames s)).
      + rewrite update_none_within by assumption. exact Hinv.
      + rewrite update_none_expired by assumption. unfold box_payload_inv. cbn. tauto. }
  assert (Hreset : forall s, box_payload_inv s -> box_payload_inv (reset s)).
  { intros. unfold box_payload_inv. cbn. tauto. }
  assert (Hreach : forall s, reachable s -> box_payload_inv s).
  { induction 1; auto. }
  split; [exact Hinit | split; [exact Hupd | split; [exact Hreset | split; [exact Hreach|]]]].
  intros s Hr. apply Hreach in Hr. unfold box_payload_inv in Hr.
  destruct (_smoothed_box s), (_last_payload s); auto.
  - destruct Hr as [_ Hr]. specialize (Hr eq_refl). discriminate.
  - destruct Hr as [Hr _]. specialize (Hr eq_refl). discriminate.
Qed.

End SmootherProperties.

(** The window of the default smoother on the binary64 numbers: the marker
    is seen once, then missed; misses 1 to 4 hold it, miss 5 clears. *)
Lemma misses_hold_then_clear_witness :
  let s0 := snd (Smoothing.update Examples.default_smoother (Some (Examples.seen_at 2))) in
  fst (Smoothing.update (Smoothing.after_misses 3 s0) None) = Some (Examples.seen_at 2) /\
  fst (Smoothing.update (Smoothing.after_misses 4 s0) None) = None.
Proof.
  cbv zeta.
  pose proof (misses_hold_then_clear Examples.default_smoother (Examples.seen_at 2))
    as (_ & Hhold & Hclear & _).
  split.
  - apply (Hhold 4%nat); cbn; lia.
  - apply (Hclear 5%nat); cbn; lia.
Defined.

(** The invariant at work on the default smoother: it holds at construction,
    hence after a detection and a miss. *)
Lemma box_and_payload_together_witness :
  Smoothing.box_payload_inv
    (snd (Smoothing.update
            (snd (Smoothing.update Examples.default_smoother (Some (Examples.seen_at 2))))
            None)).
Proof.
  pose proof (@box_and_payload_together float _) as (Hinit & Hupd & _).
  apply Hupd, Hupd. apply (Hinit 5).
Defined.

(* ================================================================== *)
(** * The smoother under a constant input *)

Section ConstantInputExact.
Import Smoothing.
Local Open Scope R_scope.

Implicit Types (s : BoundingBoxSmoother R) (d : DetectedQR R) (b : BoundingBox R).

(** One more detection of the same box, coordinate by coordinate. *)
Lemma exact_step s d b :
  _smoothed_box s = Some b ->
  exists b',
    snd (update s (Some d)) =
      mkSmoother (persistence_frames s) (smoothing_alpha s) (Some b') 0
                 (Some (payload d)) /\
    forall c, get c b' - get c (bounding_box d) =
              (1 - smoothing_alpha s) * (get c b - get c (bounding_box d)).
Proof.
  intros Hb. rewrite update_detected_eq. unfold _smooth_box. rewrite Hb. cbn [fst snd].
  eexists. split; [reflexivity|].
  intros [ | | | ]; cbn; unfold blend; cbn; ring.
Qed.

(** [n] more detections of the same box: the closed form. *)
Lemma exact_closed_form n : forall s d b,
  _smoothed_box s = Some b ->
  exists bn,
    _smoothed_box (after_repeats n d s) = Some bn /\
    forall c, get c bn - get c (bounding_box d) =
              (1 - smoothing_alpha s) ^ n * (get c b - get c (bounding_box d)).
Proof.
  induction n as [|n IH]; intros s d b Hb.
  - exists b. split; [exact Hb|]. intros c. cbn. ring.
  - rewrite after_repeats_S.
    destruct (exact_step s d b Hb) as (b' & Hs' & Hstep).
    destruct (IH (snd (update s (Some d))) d b') as (bn & Hbn & Hn).
    { rewrite Hs'. reflexivity. }
    exists bn. split; [exact Hbn|].
    intros c. rewrite Hn, Hstep, Hs'. cbn. ring.
Qed.

(** The first detection stores the box as it is. *)
Lemma exact_first s d :
  _smoothed_box s = None ->
  snd (update s (Some d)) =
    mkSmoother (persistence_frames s) (smoothing_alpha s) (Some (bounding_box d)) 0
               (Some (payload d)).
Proof.
  intros Hb. rewrite update_detected_eq. unfold _smooth_box. rewrite Hb. reflexivity.
Qed.

(** C9, in exact arithmetic.  For [0 < alpha < 1] and any target box, each
    further detection of that box multiplies the distance of every coordinate
    of the smoothed box to the target by [1 - alpha], so the distance
    strictly decreases whenever it is not zero; and the repeated detection
    brings every coordinate as close to the target as one asks. *)
Theorem constant_input_converges_exact s d :
  0 < smoothing_alpha s < 1 ->
  let target := bounding_box d in
  (forall b, _smoothed_box s = Some b ->
     exists b',
       _smoothed_box (snd (update s (Some d))) = Some b' /\
       forall c,
         Rabs (get c b' - get c target) =
           (1 - smoothing_alpha s) * Rabs (get c b - get c target) /\
         (Rabs (get c b - get c target) <> 0 ->
          Rabs (get c b' - get c target) < Rabs (get c b - get c target))) /\
  (forall eps, 0 < eps ->
     exists N : nat, forall n : nat, (N <= n)%nat ->
       exists bn,
         _smoothed_box (after_repeats n d s) = Some bn /\
         forall c, Rabs (get c bn - get c target) < eps).
Proof.
  intros Halpha target. split.
  - intros b Hb. destruct (exact_step s d b Hb) as (b' & Hs' & Hstep).
    exists b'. split; [rewrite Hs'; reflexivity|].
    intros c. fold target in Hstep. rewrite Hstep, Rabs_mult.
    rewrite (Rabs_pos_eq (1 - smoothing_alpha s)) by lra.
    split; [reflexivity|].
    intros Hnz. pose proof (Rabs_pos (get c b - get c target)). nra.
  - intros eps Heps.
    (* it is enough to treat a state that holds a box *)
    assert (Hsome : forall s1 b, smoothing_alpha s1 = smoothing_alpha s ->
              _smoothed_box s1 = Some b ->
              exists N : nat, forall n : nat, (N <= n)%nat ->
                exists bn, _smoothed_box (after_repeats n d s1) = Some bn /\
                           forall c, Rabs (get c bn - get c target) < eps).
    { intros s1 b Ha Hb.
      set (M := Rabs (get X b - get X target) + Rabs (get Y b - get Y target)
                + Rabs (get Width b - get Width target)
                + Rabs (get Height b - get Height target) + 1).
      assert (HM : 0 < M).
      { unfold M.
        pose proof (Rabs_pos (get X b - get X target)).
        pose proof (Rabs_pos (get Y b - get Y target)).
        pose proof (Rabs_pos (get Width b - get Width target)).
        pose proof (Rabs_pos (get Height b - get Height target)). lra. }
      assert (HcM : forall c, Rabs (get c b - get c target) < M).
      { unfold M.
        pose proof (Rabs_pos (get X b - get X target)).
        pose proof (Rabs_pos (get Y b - get Y target)).
        pose proof (Rabs_pos (get Width b - get Width target)).
        pose proof (Rabs_pos (get Height b - get Height target)).
        intros [ | | | ]; lra. }
      destruct (pow_lt_1_zero (1 - smoothing_alpha s)) with (y := eps / M)
        as [N HN].
      { rewrite Rabs_pos_eq; lra. }
      { apply Rdiv_lt_0_compat; assumption. }
      exists N. intros n Hn.
      destruct (exact_closed_form n s1 d b Hb) as (bn & Hbn & Hform).
      exists bn. split; [exact Hbn|].
      intros c. fold target in Hform. rewrite Hform, Ha, Rabs_mult.
      specialize (HN n Hn). specialize (HcM c).
      pose proof (Rabs_pos ((1 - smoothing_alpha s) ^ n)).
      pose proof (Rabs_pos (get c b - get c target)).
      apply Rle_lt_trans with (Rabs ((1 - smoothing_alpha s) ^ n) * M).
      - apply Rmult_le_compat_l; lra.
      - apply Rmult_lt_reg_r with (/ M); [apply Rinv_0_lt_compat; exact HM|].
        rewrite Rmult_assoc, Rinv_r by lra. rewrite Rmult_1_r. exact HN. }
    destruct (_smoothed_box s) as [b|] eqn:Hb.
    + apply (Hsome s b eq_refl Hb).
    + destruct (Hsome (snd (update s (Some d))) target) as [N HN].
      { rewrite exact_first by exact Hb. reflexivity. }
      { rewrite exact_first by exact Hb. reflexivity. }
      exists (S N). intros n Hn. destruct n as [|n]; [lia|].
      rewrite after_repeats_S. apply HN. lia.
Qed.

End ConstantInputExact.

(** The exact smoother with [alpha = 3/10] on the box at 0, fed the box at 2. *)
Lemma constant_input_converges_exact_witness :
  (0 < 3 / 10 < 1)%R /\
  exists N : nat, forall n : nat, (N <= n)%nat ->
    exists bn,
      Smoothing._smoothed_box
        (Smoothing.after_repeats n (Examples.real_seen_at 2) Examples.real_smoother)
      = Some bn /\
      forall c, (Rabs (Smoothing.get c bn - Smoothing.get c (Examples.real_box_at 2)) < 1 / 1000)%R.
Proof.
  assert (Ha : (0 < 3 / 10 < 1)%R) by lra.
  split; [exact Ha|].
  destruct (constant_input_converges_exact Examples.real_smoother
              (Examples.real_seen_at 2) Ha) as [_ Hconv].
  apply Hconv. lra.
Defined.

(** C9 on the numbers the code runs on.  With [alpha = 0.3] in binary64, a
    smoother that saw the marker at [x = 0] and then a hundred times at
    [x = 2] holds [x = 1.9999999999999991]: the distance to the target is not
    zero, one more detection at [x = 2] leaves the box where it is, and so
    does any number of them. *)
Lemma constant_input_stalls_binary64 :
  let s := Examples.stalled in
  let d := Examples.seen_at 2 in
  let s' := snd (Smoothing.update s (Some d)) in
  PrimFloat.ltb 0 (Smoothing.smoothing_alpha s) = true /\
  PrimFloat.ltb (Smoothing.smoothing_alpha s) 1 = true /\
  exists b b',
    Smoothing._smoothed_box s = Some b /\
    Smoothing._smoothed_box s' = Some b' /\
    PrimFloat.eqb (PrimFloat.abs (PrimFloat.sub (Smoothing.x b) 2)) 0 = false /\
    PrimFloat.ltb (PrimFloat.abs (PrimFloat.sub (Smoothing.x b') 2))
                  (PrimFloat.abs (PrimFloat.sub (Smoothing.x b) 2)) = false /\
    b' = b /\
    forall n, Smoothing._smoothed_box (Smoothing.after_repeats n d s) = Some b.
Proof.
  cbv zeta.
  assert (Hfix : snd (Smoothing.update Examples.stalled (Some (Examples.seen_at 2)))
                 = Examples.stalled) by (vm_compute; reflexivity).
  split; [vm_compute; reflexivity|].
  split; [vm_compute; reflexivity|].
  assert (Hb : exists b, Smoothing._smoothed_box Examples.stalled = Some b /\
               PrimFloat.eqb (PrimFloat.abs (PrimFloat.sub (Smoothing.x b) 2)) 0 = false /\
               PrimFloat.ltb (PrimFloat.abs (PrimFloat.sub (Smoothing.x b) 2))
                             (PrimFloat.abs (PrimFloat.sub (Smoothing.x b) 2)) = false).
  { eexists. split; [vm_compute; reflexivity|]. split; vm_compute; reflexivity. }
  destruct Hb as (b & Hb & Hnz & Hlt).
  exists b, b. rewrite Hfix.
  repeat (split; [assumption || reflexivity|]).
  induction n as [|n IH]; [exact Hb|].
  rewrite after_repeats_S, Hfix. exact IH.
Qed.

(* ================================================================== *)
(** * Facts about the capture loop and the classifier worker *)

Section CameraFacts.
Context {F : Type} {num : Number F}.
Context {Frame : Type} {img : Image Frame}.
Import CameraManager.

Implicit Types (w : CameraWorker F Frame) (frame : Frame).

(** The hand-over to the worker never raises: the frame goes into an empty
    slot, and a full slot is left as it is. *)
Lemma offer_frame_eq w frame :
  offer_frame w frame =
  Py.ret (match _roboflow_queue w with
          | [] => with_roboflow_queue w [Some frame]
          | _ :: _ => w
          end).
Proof.
  unfold offer_frame, Queue.put_nowait.
  destruct (_roboflow_queue w) as [|item rest]; [reflexivity|].
  destruct (Z.geb_spec (Z.of_nat (List.length (item :: rest))) 1) as [_|Hlt].
  - reflexivity.
  - cbn [List.length] in Hlt. lia.
Qed.

(** The classifier block of [run] returns, reports the stored classifier
    state when the classifier is enabled and nothing when it is not, and
    leaves the fields of the detection state alone. *)
Lemma classify_step_returns (enabled : bool) w frame :
  exists w',
    classify_step enabled w frame =
      Py.ret (if enabled then _classification_detected w else false,
              if enabled then _classification_bbox w else None,
              w') /\
    _smoother w' = _smoother w /\
    _roboflow_enabled w' = _roboflow_enabled w /\
    _qr_enabled w' = _qr_enabled w /\
    _classification_detected w' = _classification_detected w /\
    _classification_bbox w' = _classification_bbox w /\
    _frames_without_classification w' = _frames_without_classification w /\
    (_roboflow_queue w <> [] -> _roboflow_queue w' = _roboflow_queue w) /\
    (enabled = true ->
     _roboflow_frame_counter w + 1 >= Config.ROBOFLOW_FRAME_INTERVAL ->
     _roboflow_frame_counter w' = 0).
Proof.
  unfold classify_step. destruct enabled.
  2:{ exists w. repeat split; auto. discriminate. }
  set (w1 := if negb (_roboflow_thread_alive w) then _ else w).
  assert (H1 : _smoother w1 = _smoother w /\
               _roboflow_enabled w1 = _roboflow_enabled w /\
               _qr_enabled w1 = _qr_enabled w /\
               _classification_detected w1 = _classification_detected w /\
               _classification_bbox w1 = _classification_bbox w /\
               _frames_without_classification w1 = _frames_without_classification w /\
               _roboflow_queue w1 = _roboflow_queue w /\
               _roboflow_frame_counter w1 = _roboflow_frame_counter w).
  { subst w1. destruct (negb (_roboflow_thread_alive w)); cbn; repeat split; reflexivity. }
  destruct H1 as (Hs & He & Hq & Hd & Hb & Hf & Hqu & Hc).
  set (w2 := with_roboflow_frame_counter w1 (_roboflow_frame_counter w1 + 1)).
  destruct (Z.geb_spec (_roboflow_frame_counter w2) Config.ROBOFLOW_FRAME_INTERVAL)
    as [Hge|Hlt].
  - rewrite offer_frame_eq. cbn [Py.bind Py.ret].
    set (w3 := match _roboflow_queue (with_roboflow_frame_counter w2 0) with
               | [] => _ | _ :: _ => _ end).
    exists w3.
    assert (H3 : _smoother w3 = _smoother w /\
                 _roboflow_enabled w3 = _roboflow_enabled w /\
                 _qr_enabled w3 = _qr_enabled w /\
                 _classification_detected w3 = _classification_detected w /\
                 _classification_bbox w3 = _classification_bbox w /\
                 _frames_without_classification w3 = _frames_without_classification w /\
                 (_roboflow_queue w <> [] -> _roboflow_queue w3 = _roboflow_queue w) /\
                 _roboflow_frame_counter w3 = 0).
    { subst w3 w2. cbn. rewrite Hqu.
      destruct (_roboflow_queue w) eqn:Hqw; cbn;
        repeat split; auto; congruence. }
    destruct H3 as (? & ? & ? & Hd3 & Hb3 & ? & ? & ?).
    rewrite Hd3, Hb3. repeat split; auto.
  - cbn [Py.bind Py.ret]. exists w2. subst w2. cbn.
    rewrite Hd, Hb. repeat split; auto.
    intros _ Hge. cbn in Hlt. lia.
Qed.

(** A turn of [run] on a frame whose marker detection returns: one frame
    result is published, built from the smoothed detection and from what
    the classifier block reported. *)
Lemma run_iteration_returns decode frame w (frames_failed : Z)
      (found : option (Smoothing.DetectedQR F)) :
  (if _qr_enabled w then _detect_qr decode (flip frame) else Py.ret None)
    = Py.ret found ->
  exists w',
    run_iteration decode (Some frame) w frames_failed =
      Py.ret (Next,
              [frame_ready
                 (mkFrameData (flip frame)
                    (fst (Smoothing.update (_smoother w) found))
                    (is_some (fst (Smoothing.update (_smoother w) found)))
                    (_qr_enabled w)
                    (if _roboflow_enabled w then _classification_detected w else false)
                    (if _roboflow_enabled w then _classification_bbox w else None)
                    (if _roboflow_enabled w
                     then is_some (fst (Smoothing.update (_smoother w) found))
                          && _classification_detected w
                     else is_some (fst (Smoothing.update (_smoother w) found)))
                    (_roboflow_enabled w))],
              w', 0) /\
    _smoother w' = snd (Smoothing.update (_smoother w) found) /\
    _roboflow_enabled w' = _roboflow_enabled w /\
    _classification_detected w' = _classification_detected w /\
    _classification_bbox w' = _classification_bbox w /\
    (_roboflow_queue w <> [] -> _roboflow_queue w' = _roboflow_queue w) /\
    (_roboflow_enabled w = true ->
     _roboflow_frame_counter w + 1 >= Config.ROBOFLOW_FRAME_INTERVAL ->
     _roboflow_frame_counter w' = 0).
Proof.
  intros Hfound. unfold run_iteration. rewrite Hfound. cbn [Py.bind Py.ret].
  destruct (Smoothing.update (_smoother w) found) as [smoothed sm] eqn:Hupd.
  cbn [fst snd].
  destruct (classify_step_returns (_roboflow_enabled (with_smoother w sm))
                                  (with_smoother w sm) (flip frame))
    as (w' & Hstep & Hs & He & _ & Hd & Hb & _ & Hq & Hc).
  rewrite Hstep. cbn [Py.bind Py.ret]. cbn in *.
  exists w'. split.
  - destruct (_roboflow_enabled w); reflexivity.
  - repeat split; auto.
Qed.

(** A turn of [run] on a frame whose marker detection raises lets the
    exception through. *)
Lemma run_iteration_raises decode frame w (frames_failed : Z) e :
  _qr_enabled w = true ->
  _detect_qr decode (flip frame) = Py.raise e ->
  run_iteration decode (Some frame) w frames_failed = Py.raise e.
Proof.
  intros Hq Hraise. unfold run_iteration. rewrite Hq, Hraise. reflexivity.
Qed.

(** What the worker's [with self._roboflow_result_lock] block stores. *)
Lemma publish_detection w (r : RoboflowClient.RoboflowResult F) det (bx by_ bw bh : F) :
  RoboflowClient.detected r = true ->
  RoboflowClient.detection r = Some det ->
  RoboflowClient.x det = RoboflowClient.Num bx ->
  RoboflowClient.y det = RoboflowClient.Num by_ ->
  RoboflowClient.width det = RoboflowClient.Num bw ->
  RoboflowClient.height det = RoboflowClient.Num bh ->
  publish w r =
  (Py.ret tt,
   mkCameraWorker (_smoother w) (_roboflow_enabled w) (_qr_enabled w)
     (_roboflow_frame_counter w) true
     (Some (mkClassificationBBox (sub bx (div bw (of_int 2)))
                                 (sub by_ (div bh (of_int 2))) bw bh))
     0 (_roboflow_queue w) (_roboflow_thread_alive w) (_roboflow_thread_running w)).
Proof.
  intros Hd Hdet Hx Hy Hw Hh. unfold publish, RoboflowClient.bbox.
  rewrite Hd, Hdet, Hx, Hy, Hw, Hh. reflexivity.
Qed.

(** [det.bbox] raises nothing but [TypeError], and does so exactly when one
    of the four values is not a number. *)
Lemma bbox_outcome (det : RoboflowClient.RoboflowDetection F) :
  match RoboflowClient.bbox det with
  | inl e =>
      e = Py.TypeError /\
      ~ (exists bx by_ bw bh,
            RoboflowClient.x det = RoboflowClient.Num bx /\
            RoboflowClient.y det = RoboflowClient.Num by_ /\
            RoboflowClient.width det = RoboflowClient.Num bw /\
            RoboflowClient.height det = RoboflowClient.Num bh)
  | inr box =>
      exists bx by_ bw bh,
        RoboflowClient.x det = RoboflowClient.Num bx /\
        RoboflowClient.y det = RoboflowClient.Num by_ /\
        RoboflowClient.width det = RoboflowClient.Num bw /\
        RoboflowClient.height det = RoboflowClient.Num bh /\
        box = (sub bx (div bw (of_int 2)), sub by_ (div bh (of_int 2)), bw, bh)
  end.
Proof.
  unfold RoboflowClient.bbox.
  destruct (RoboflowClient.width det) as [bw| |sw] eqn:Hw; cbn;
    try (split; [reflexivity|]; intros (? & ? & ? & ? & _ & _ & H & _); discriminate H).
  destruct (RoboflowClient.x det) as [bx| |sx] eqn:Hx; cbn;
    try (split; [reflexivity|]; intros (? & ? & ? & ? & H & _); discriminate H).
  destruct (RoboflowClient.height det) as [bh| |sh] eqn:Hh; cbn;
    try (split; [reflexivity|]; intros (? & ? & ? & ? & _ & _ & _ & H); discriminate H).
  destruct (RoboflowClient.y det) as [by_| |sy] eqn:Hy; cbn;
    try (split; [reflexivity|]; intros (? & ? & ? & ? & _ & H & _); discriminate H).
  exists bx, by_, bw, bh. repeat split.
Qed.

(** When [det.bbox] raises, the flag and the counter are already written
    and the box that was stored stays. *)
Lemma publish_bbox_raises w (r : RoboflowClient.RoboflowResult F) det e :
  RoboflowClient.detected r = true ->
  RoboflowClient.detection r = Some det ->
  RoboflowClient.bbox det = Py.raise e ->
  publish w r =
  (Py.raise e,
   mkCameraWorker (_smoother w) (_roboflow_enabled w) (_qr_enabled w)
     (_roboflow_frame_counter w) true (_classification_bbox w)
     0 (_roboflow_queue w) (_roboflow_thread_alive w) (_roboflow_thread_running w)).
Proof.
  intros Hd Hdet Hbox. unfold publish. rewrite Hd, Hdet.
  unfold Py.raise in Hbox. rewrite Hbox. reflexivity.
Qed.

Lemma publish_no_detection w (r : RoboflowClient.RoboflowResult F) :
  RoboflowClient.detected r = false \/ RoboflowClient.detection r = None ->
  publish w r =
  (Py.ret tt,
   mkCameraWorker (_smoother w) (_roboflow_enabled w) (_qr_enabled w)
     (_roboflow_frame_counter w)
     (if _frames_without_classification w + 1 >=? Config.ROBOFLOW_PERSISTENCE_FRAMES
      then false else _classification_detected w)
     (if _frames_without_classification w + 1 >=? Config.ROBOFLOW_PERSISTENCE_FRAMES
      then None else _classification_bbox w)
     (_frames_without_classification w + 1)
     (_roboflow_queue w) (_roboflow_thread_alive w) (_roboflow_thread_running w)).
Proof.
  intros Hno. unfold publish.
  assert (Hm : match RoboflowClient.detected r, RoboflowClient.detection r with
               | true, Some _ => False
               | _, _ => True
               end).
  { destruct Hno as [H|H]; rewrite H; [exact I|].
    destruct (RoboflowClient.detected r); exact I. }
  destruct (RoboflowClient.detected r), (RoboflowClient.detection r);
    try contradiction; cbn;
    destruct (_frames_without_classification w + 1 >=? Config.ROBOFLOW_PERSISTENCE_FRAMES);
    reflexivity.
Qed.

(** The block writes the three fields of the classifier state only. *)
Lemma publish_other_fields w (r : RoboflowClient.RoboflowResult F) :
  let w' := snd (publish w r) in
  _smoother w' = _smoother w /\
  _roboflow_enabled w' = _roboflow_enabled w /\
  _qr_enabled w' = _qr_enabled w /\
  _roboflow_frame_counter w' = _roboflow_frame_counter w /\
  _roboflow_queue w' = _roboflow_queue w /\
  _roboflow_thread_alive w' = _roboflow_thread_alive w /\
  _roboflow_thread_running w' = _roboflow_thread_running w.
Proof.
  cbv zeta. unfold publish.
  destruct (RoboflowClient.detected r), (RoboflowClient.detection r) as [det|];
    cbn; try destruct (RoboflowClient.bbox det) as [e|[[[bx by_] bw] bh]];
    try destruct (_ >=? _); cbn; repeat split; reflexivity.
Qed.

(** A result with a detection sets the flag and resets the counter, whether
    the box can be computed or not. *)
Lemma publish_sets_flag w (r : RoboflowClient.RoboflowResult F) det :
  RoboflowClient.detected r = true ->
  RoboflowClient.detection r = Some det ->
  _classification_detected (snd (publish w r)) = true /\
  _frames_without_classification (snd (publish w r)) = 0.
Proof.
  intros Hd Hdet. unfold publish. rewrite Hd, Hdet.
  destruct (RoboflowClient.bbox det) as [e|[[[bx by_] bw] bh]]; cbn; auto.
Qed.

(** The block raises nothing but the [TypeError] of [det.bbox]. *)
Lemma publish_raises w (r : RoboflowClient.RoboflowResult F) e :
  fst (publish w r) = Py.raise e -> e = Py.TypeError.
Proof.
  unfold publish.
  destruct (RoboflowClient.detected r), (RoboflowClient.detection r) as [det|];
    cbn; try destruct (_ >=? _); cbn; try discriminate.
  pose proof (bbox_outcome det) as Hbox.
  destruct (RoboflowClient.bbox det) as [e'|[[[bx by_] bw] bh]]; cbn; [|discriminate].
  intros [= <-]. apply Hbox.
Qed.

(** With an API key, [detect] returns what its [try] block returns, turns
    every [Exception] raised in it into "no detection" and lets anything
    else through. *)
Lemma detect_by_body (api_key : option string) frame
      (post : Py.py (RoboflowClient.HttpResponse F)) :
  truthy_str api_key = true ->
  RoboflowClient.detect api_key frame post =
  match RoboflowClient.detect_try frame post with
  | inr result => Py.ret result
  | inl e =>
      if Py.is_Exception e
      then Py.ret (RoboflowClient.no_detection (snd (shape frame)) (fst (shape frame)))
      else Py.raise e
  end.
Proof.
  intros Hkey. unfold RoboflowClient.detect.
  destruct (shape frame) as [h wd] eqn:Hshape. rewrite Hkey. cbn [negb fst snd].
  destruct (RoboflowClient.detect_try frame post) as [e|result]; cbn [Py.bind].
  - destruct e; reflexivity.
  - reflexivity.
Qed.

Lemma detect_without_key (api_key : option string) frame
      (post : Py.py (RoboflowClient.HttpResponse F)) :
  truthy_str api_key = false ->
  RoboflowClient.detect api_key frame post =
  Py.ret (RoboflowClient.no_detection (snd (shape frame)) (fst (shape frame))).
Proof.
  intros Hkey. unfold RoboflowClient.detect.
  destruct (shape frame) as [h wd]. rewrite Hkey. reflexivity.
Qed.









(** The worker's turn on a waiting frame for which the client returns: the
    turn ends normally, also when the block raised. *)
Lemma worker_iteration_result
      (detect : Frame -> Py.py (RoboflowClient.RoboflowResult F)) w frame rest r :
  _roboflow_thread_running w = true ->
  _roboflow_queue w = Some frame :: rest ->
  detect frame = Py.ret r ->
  _roboflow_worker_iteration detect w =
  (Py.ret Next, snd (publish (with_roboflow_queue w rest) r)).
Proof.
  intros Hrun Hq Hd. unfold _roboflow_worker_iteration, worker_try, Queue.get.
  rewrite Hrun, Hq. cbn. unfold Py.ret in Hd. rewrite Hd.
  pose proof (publish_raises (with_roboflow_queue w rest) r) as Hraise.
  destruct (publish (with_roboflow_queue w rest) r) as [[e|[]] w'];
    cbn in *; [|reflexivity].
  rewrite (Hraise e eq_refl). reflexivity.
Qed.

(** The setter run to its end without interruption is the sequence of its
    writes. *)
Lemma set_roboflow_enabled_by_writes w (value : bool) :
  set_roboflow_enabled w value = run_writes (set_roboflow_enabled_writes value) w.
Proof. destruct value; reflexivity. Qed.

End CameraFacts.

(** The banner shows the value it was last given. *)
Lemma set_can_continue_shows (b : MainWindow.SafetyStatusBanner) (value : bool) :
  MainWindow._can_continue (MainWindow.set_can_continue b value) = value.
Proof.
  unfold MainWindow.set_can_continue, MainWindow._update_display.
  destruct (MainWindow._can_continue b) eqn:Hb, value; cbn; auto.
Qed.

(* ================================================================== *)
(** * The safety gate, the classifier worker and the capture loop *)

Section GateProperties.
Context {F : Type} {num : Number F}.
Context {Frame : Type} {img : Image Frame}.
Import CameraManager.

Implicit Types (w : CameraWorker F Frame) (frame : Frame) (m : MainWindow.MainWindow).

(** C1.  Whenever the current distance reading exceeds the distance
    threshold, the decision the window shows after a frame is "may
    continue", whatever the frame result says about the marker, the
    classifier and what is enabled. *)
Theorem far_target_may_continue m (frame_data : FrameData F Frame) :
  MainWindow._current_distance m > MainWindow._distance_threshold m ->
  MainWindow.shown (MainWindow._on_frame_ready m frame_data) = true.
Proof.
  intros Hfar. unfold MainWindow.shown, MainWindow._on_frame_ready.
  cbn [MainWindow._safety_banner]. rewrite set_can_continue_shows.
  destruct (Z.gtb_spec (MainWindow._current_distance m)
                       (MainWindow._distance_threshold m)) as [_|Hle]; [reflexivity|lia].
Qed.

(** C2.  For a frame whose distance reading does not exceed the threshold,
    the decision shown is the gate of the published frame result: with the
    classifier enabled, marker detected and classifier detected; with the
    classifier disabled, marker detected alone.  "Marker detected" is that
    the smoother put out a detection for the frame, "classifier detected"
    the flag the worker published last. *)
Theorem near_target_gate decode frame w (frames_failed : Z) m
        (found : option (Smoothing.DetectedQR F)) :
  (if _qr_enabled w then _detect_qr decode (flip frame) else Py.ret None)
    = Py.ret found ->
  MainWindow._current_distance m <= MainWindow._distance_threshold m ->
  let marker_detected := is_some (fst (Smoothing.update (_smoother w) found)) in
  let classifier_detected := _classification_detected w in
  exists frame_data w',
    run_iteration decode (Some frame) w frames_failed =
      Py.ret (Next, [frame_ready frame_data], w', 0) /\
    robot_detected frame_data = marker_detected /\
    roboflow_enabled frame_data = _roboflow_enabled w /\
    can_continue_moving frame_data =
      (if _roboflow_enabled w then marker_detected && classifier_detected
       else marker_detected) /\
    MainWindow.shown (MainWindow._on_frame_ready m frame_data) =
      (if _roboflow_enabled w then marker_detected && classifier_detected
       else marker_detected).
Proof.
  intros Hfound Hnear. cbv zeta.
  destruct (run_iteration_returns decode frame w frames_failed found Hfound)
    as (w' & Hrun & _).
  eexists. exists w'. split; [exact Hrun|]. cbn.
  repeat split.
  unfold MainWindow.shown, MainWindow._on_frame_ready.
  cbn [MainWindow._safety_banner]. rewrite set_can_continue_shows.
  destruct (Z.gtb_spec (MainWindow._current_distance m)
                       (MainWindow._distance_threshold m)) as [Hgt|_]; [lia|].
  reflexivity.
Qed.


(** What an exception of the external marker decoder does.  The exception
    leaves [_detect_qr] as it is, and with it the turn of the capture loop
    and the loop itself: no frame result is published for the frame.  The
    decoder is only called while marker detection is enabled. *)
Lemma decoder_error_propagates decode frame w (frames_failed : Z) e :
  decode (flip frame) = Py.raise e ->
  _detect_qr (F := F) decode (flip frame) = Py.raise e /\
  (_qr_enabled w = true ->
   run_iteration decode (Some frame) w frames_failed = Py.raise e /\
   forall later, run_loop decode (Some frame :: later) w frames_failed = Py.raise e) /\
  (_qr_enabled w = false ->
   exists frame_data w',
     run_iteration decode (Some frame) w frames_failed =
       Py.ret (Next, [frame_ready frame_data], w', 0)).
Proof.
  intros Hraise.
  assert (Hdet : _detect_qr (F := F) decode (flip frame) = Py.raise e).
  { unfold _detect_qr. unfold Py.raise in Hraise. rewrite Hraise. reflexivity. }
  split; [exact Hdet|]. split.
  - intros Hq.
    pose proof (run_iteration_raises decode frame w frames_failed e Hq Hdet) as Hit.
    split; [exact Hit|].
    intros later. cbn [run_loop]. rewrite Hit. reflexivity.
  - intros Hq.
    destruct (run_iteration_returns decode frame w frames_failed None) as (w' & Hrun & _).
    { rewrite Hq. reflexivity. }
    eexists. exists w'. exact Hrun.
Qed.

(** C6.  When the capture loop hands a frame to the classifier worker while
    the slot is full, [put_nowait] raises [queue.Full] at once, the
    hand-over returns with the worker object as it was, and the turn of the
    loop publishes its frame result with the slot holding what it held: the
    frame that waits is not replaced, the new one is dropped. *)
Theorem full_slot_drops_frame decode frame w (frames_failed : Z)
        (found : option (Smoothing.DetectedQR F)) :
  _roboflow_queue w <> [] ->
  _roboflow_enabled w = true ->
  _roboflow_frame_counter w + 1 >= Config.ROBOFLOW_FRAME_INTERVAL ->
  (if _qr_enabled w then _detect_qr decode (flip frame) else Py.ret None)
    = Py.ret found ->
  Queue.put_nowait 1 (_roboflow_queue w) (Some (flip frame)) = Py.raise Py.Full /\
  offer_frame w (flip frame) = Py.ret w /\
  exists frame_data w',
    run_iteration decode (Some frame) w frames_failed =
      Py.ret (Next, [frame_ready frame_data], w', 0) /\
    _roboflow_queue w' = _roboflow_queue w /\
    _roboflow_frame_counter w' = 0.
Proof.
  intros Hfull Hen Hstride Hfound.
  split; [|split].
  - unfold Queue.put_nowait.
    destruct (_roboflow_queue w) as [|item rest]; [contradiction|].
    destruct (Z.geb_spec (Z.of_nat (List.length (item :: rest))) 1) as [_|Hlt];
      [reflexivity|].
    cbn [List.length] in Hlt. lia.
  - rewrite offer_frame_eq.
    destruct (_roboflow_queue w); [contradiction|reflexivity].
  - destruct (run_iteration_returns decode frame w frames_failed found Hfound)
      as (w' & Hrun & _ & _ & _ & _ & Hq & Hc).
    eexists. exists w'. split; [exact Hrun|]. split; auto.
Qed.

(** The [roboflow_enabled] setter when no other thread runs between its
    writes.  Setting the flag to false leaves the worker object with
    [classification_detected] false, no stored box and the counter of frames
    without classification at 0, whatever it held before (a stored
    detection, a frame in the slot, a running worker thread); the frame
    results of a turn of the capture loop that follows carry no classifier
    detection and no classifier box. *)
Lemma disabling_resets_classifier w :
  let w' := set_roboflow_enabled w false in
  _roboflow_enabled w' = false /\
  _classification_detected w' = false /\
  _classification_bbox w' = None /\
  _frames_without_classification w' = 0 /\
  _roboflow_queue w' = _roboflow_queue w /\
  _roboflow_thread_alive w' = _roboflow_thread_alive w /\
  _roboflow_thread_running w' = _roboflow_thread_running w /\
  forall decode frame (frames_failed : Z),
    match run_iteration decode (Some frame) w' frames_failed with
    | inl e => _qr_enabled w = true /\ _detect_qr (F := F) decode (flip frame) = inl e
    | inr (_, emitted, _, _) =>
        exists frame_data,
          emitted = [frame_ready frame_data] /\
          classification_detected frame_data = false /\
          classification_bbox frame_data = None /\
          can_continue_moving frame_data = robot_detected frame_data
    end.
Proof.
  cbv zeta. do 7 (split; [reflexivity|]).
  intros decode frame frames_failed.
  set (w' := set_roboflow_enabled w false).
  destruct (if _qr_enabled w' then _detect_qr decode (flip frame) else Py.ret None)
    as [e|found] eqn:Hfound.
  - assert (Hq : _qr_enabled w = true).
    { destruct (_qr_enabled w) eqn:Hq; [reflexivity|].
      subst w'. cbn in Hfound. rewrite Hq in Hfound. discriminate. }
    assert (Hd : _detect_qr decode (flip frame) = inl e).
    { subst w'. cbn in Hfound. rewrite Hq in Hfound. exact Hfound. }
    rewrite (run_iteration_raises decode frame w' frames_failed e Hq Hd).
    split; assumption.
  - destruct (run_iteration_returns decode frame w' frames_failed found Hfound)
      as (w'' & Hrun & _).
    rewrite Hrun. cbn. eexists. split; [reflexivity|]. cbn. auto.
Qed.

End GateProperties.

(* ================================================================== *)
(** * The theorems at concrete inputs (binary64 numbers, numbered frames) *)

(** Distance 200 over a threshold of 100, marker and classifier both
    without a detection: the window shows "may continue". *)
Lemma far_target_may_continue_witness :
  MainWindow._current_distance Examples.far_window = 200 /\
  MainWindow._distance_threshold Examples.far_window = 100 /\
  CameraManager.robot_detected Examples.nothing_seen = false /\
  CameraManager.classification_detected Examples.nothing_seen = false /\
  MainWindow.shown (MainWindow._on_frame_ready Examples.far_window Examples.nothing_seen)
    = true.
Proof.
  do 4 (split; [reflexivity|]).
  apply (far_target_may_continue Examples.far_window Examples.nothing_seen).
  cbn. lia.
Defined.

(** Distance 40 under the threshold, classifier enabled: the marker is seen
    and the classifier flag is set, so the window shows "may continue"; with
    the flag cleared by disabling and enabling again it shows "must stop". *)
Lemma near_target_gate_witness :
  (exists frame_data w',
      CameraManager.run_iteration Examples.decode_target (Some 1%nat)
                                  Examples.stale_worker 0
        = Py.ret (CameraManager.Next, [CameraManager.frame_ready frame_data], w', 0) /\
      MainWindow.shown (MainWindow._on_frame_ready Examples.near_window frame_data) = true) /\
  (exists frame_data w',
      CameraManager.run_iteration Examples.decode_target (Some 1%nat)
        (CameraManager.set_roboflow_enabled
           (CameraManager.set_roboflow_enabled Examples.stale_worker false) true) 0
        = Py.ret (CameraManager.Next, [CameraManager.frame_ready frame_data], w', 0) /\
      MainWindow.shown (MainWindow._on_frame_ready Examples.near_window frame_data) = false).
Proof.
  split.
  - edestruct (near_target_gate Examples.decode_target 1%nat Examples.stale_worker 0
                                Examples.near_window)
      as (frame_data & w' & Hrun & _ & _ & _ & Hshown).
    + reflexivity.
    + cbn. lia.
    + exists frame_data, w'. split; [exact Hrun|]. rewrite Hshown. reflexivity.
  - edestruct (near_target_gate Examples.decode_target 1%nat
                 (CameraManager.set_roboflow_enabled
                    (CameraManager.set_roboflow_enabled Examples.stale_worker false) true)
                 0 Examples.near_window)
      as (frame_data & w' & Hrun & _ & _ & _ & Hshown).
    + reflexivity.
    + cbn. lia.
    + exists frame_data, w'. split; [exact Hrun|]. rewrite Hshown. reflexivity.
Defined.



(** C5 at a failing input.  The decoder fails with an [Exception]:
    [_detect_qr] does not return "no detection", it raises, and the turn of
    the capture loop and the loop raise with it.  In a run over frames 1, 2
    and 3 where the decoder fails in frame 2, frame 1 is published and
    nothing else: [run] ends by the exception, frame 3 is never read, no
    error is signalled and the lines that tell the worker thread to stop
    are skipped.  The classifier path absorbs the same exception, in the
    client and in the worker's turn. *)
Theorem decoder_error_aborts_capture :
  CameraManager._detect_qr (F := float) Examples.decode_raises 1%nat <> Py.ret None /\
  CameraManager._detect_qr (F := float) Examples.decode_raises 1%nat
    = Py.raise (Py.Exception_ "zbar: decode failed") /\
  CameraManager.run_iteration (F := float) Examples.decode_raises (Some 1%nat)
                              CameraManager.init 0
    = Py.raise (Py.Exception_ "zbar: decode failed") /\
  CameraManager.run_loop (F := float) Examples.decode_raises [Some 1%nat; Some 2%nat]
                         CameraManager.init 0
    = Py.raise (Py.Exception_ "zbar: decode failed") /\
  Capture.run "Failed to open camera 0." Examples.decode_fails_on_2
              (fun _ => Capture.OpenedAndRead) [Some 1%nat; Some 2%nat; Some 3%nat]
              Examples.busy_worker
    = Py.raise (Py.Exception_ "zbar: decode failed") /\
  (exists frame_data,
      CameraManager.run_emitted Examples.decode_fails_on_2
                                [Some 1%nat; Some 2%nat; Some 3%nat]
                                Examples.busy_worker 0
        = [CameraManager.frame_ready frame_data] /\
      CameraManager.frame frame_data = 1%nat) /\
  RoboflowClient.detect (F := float) (Some "key"%string) 1%nat
                        (Py.raise (Py.Exception_ "zbar: decode failed"))
    = Py.ret (RoboflowClient.no_detection 1280 720) /\
  fst (CameraManager._roboflow_worker_iteration
         (fun _ => Py.raise (Py.Exception_ "zbar: decode failed")) Examples.busy_worker)
    = Py.ret CameraManager.Next.
Proof.
  split; [discriminate|]. do 4 (split; [reflexivity|]).
  split; [eexists; split; reflexivity|]. split; reflexivity.
Qed.

(** The failing decoder on frame 1: the exception is the one [_detect_qr]
    raises. *)
Lemma decoder_error_propagates_witness :
  Examples.decode_raises (flip 1%nat) = Py.raise (Py.Exception_ "zbar: decode failed") /\
  CameraManager._detect_qr (F := float) Examples.decode_raises (flip 1%nat)
    = Py.raise (Py.Exception_ "zbar: decode failed").
Proof.
  split; [reflexivity|].
  apply (decoder_error_propagates (F := float) Examples.decode_raises 1%nat
                                  CameraManager.init 0).
  reflexivity.
Defined.

(** The slot holds frame 7 and the stride is reached: frame 1 is dropped and
    frame 7 still waits. *)
Lemma full_slot_drops_frame_witness :
  exists frame_data w',
    CameraManager.run_iteration Examples.decode_nothing (Some 1%nat)
                                Examples.busy_worker 0
      = Py.ret (CameraManager.Next, [CameraManager.frame_ready frame_data], w', 0) /\
    CameraManager._roboflow_queue w' = [Some 7%nat].
Proof.
  edestruct (full_slot_drops_frame Examples.decode_nothing 1%nat Examples.busy_worker 0)
    as (_ & _ & frame_data & w' & Hrun & Hq & _).
  - discriminate.
  - reflexivity.
  - unfold Config.ROBOFLOW_FRAME_INTERVAL. cbn. lia.
  - reflexivity.
  - exists frame_data, w'. split; [exact Hrun | exact Hq].
Defined.

(** C7 at a failing schedule.  [Examples.stale_worker] holds a detection
    and its box.  The thread that sets [roboflow_enabled = False] is
    suspended after its second write ([_classification_detected = False]);
    the worker thread, whose block holds the other lock, publishes the
    laptop found in the frame it had taken; the setter resumes with its last
    two writes.  When the setter returns the classifier is disabled,
    [_classification_detected] is true, the box is gone and the counter is
    0.  Suspended after its third write, the setter returns with the flag
    and the box of the laptop both set.  Run without interruption, the same
    setter resets the three fields. *)
Theorem disabling_races_with_worker :
  CameraManager._classification_detected Examples.stale_worker = true /\
  CameraManager._roboflow_enabled
    (CameraManager.set_roboflow_enabled_during 2 MoreExamples.laptop_found
                                               Examples.stale_worker false) = false /\
  CameraManager._classification_detected
    (CameraManager.set_roboflow_enabled_during 2 MoreExamples.laptop_found
                                               Examples.stale_worker false) = true /\
  CameraManager._classification_bbox
    (CameraManager.set_roboflow_enabled_during 2 MoreExamples.laptop_found
                                               Examples.stale_worker false) = None /\
  CameraManager._frames_without_classification
    (CameraManager.set_roboflow_enabled_during 2 MoreExamples.laptop_found
                                               Examples.stale_worker false) = 0 /\
  CameraManager._classification_detected
    (CameraManager.set_roboflow_enabled_during 3 MoreExamples.laptop_found
                                               Examples.stale_worker false) = true /\
  CameraManager._classification_bbox
    (CameraManager.set_roboflow_enabled_during 3 MoreExamples.laptop_found
                                               Examples.stale_worker false)
    = Some (CameraManager.mkClassificationBBox (of_int 80) (of_int 70)
                                               (of_int 40) (of_int 20)) /\
  CameraManager._classification_detected
    (CameraManager.set_roboflow_enabled Examples.stale_worker false) = false /\
  CameraManager._classification_bbox
    (CameraManager.set_roboflow_enabled Examples.stale_worker false) = None /\
  CameraManager._frames_without_classification
    (CameraManager.set_roboflow_enabled Examples.stale_worker false) = 0.
Proof.
  repeat split; reflexivity.
Qed.

(** End to end.  The camera yields frames 1 to 50 and the marker is in
    frames 5 to 40 only; with the worker as constructed (persistence of 5
    frames, classifier disabled) the published gate is true from frame 5
    through frame 44, the four frames after 40 being held over. *)
Theorem marker_run_5_to_44 :
  Examples.published_gate
    (CameraManager.run_loop Examples.decode_5_to_40 (map Some (seq 1 50))
                            CameraManager.init 0)
  = map (fun frame => ((5 <=? frame)%nat && (frame <=? 44)%nat)%bool) (seq 1 50).
Proof.
  vm_compute. reflexivity.
Qed.

(* ================================================================== *)
(** * The hold window, over whole runs *)

Section WindowFacts.
Context {A : Type}.
Import Window.

Implicit Types (l : list (option A)) (g : option nat).

Lemma gap_snoc l (a : option A) : gap (l ++ [a]) = gap_step (gap l) a.
Proof. unfold gap. rewrite fold_left_app. reflexivity. Qed.

(** [gap] finds the last detection. *)
Lemma gap_some l : forall m,
  gap l = Some m <->
  (m < List.length l)%nat /\
  nth (List.length l - 1 - m) l None <> None /\
  (forall k, (k < m)%nat -> nth (List.length l - 1 - k) l None = None).
Proof.
  induction l as [|a l IH] using rev_ind; intros m.
  - cbn. split; [discriminate|]. intros [H _]. lia.
  - rewrite gap_snoc, length_app. cbn [List.length].
    replace (List.length l + 1 - 1)%nat with (List.length l) by lia.
    destruct a as [a|]; cbn [gap_step].
    + split.
      * intros [= <-]. split; [lia|]. split.
        -- rewrite Nat.sub_0_r, nth_middle. discriminate.
        -- intros k Hk. lia.
      * intros (Hm & Hsome & Hnone).
        destruct m as [|m]; [reflexivity|].
        specialize (Hnone 0%nat ltac:(lia)).
        rewrite Nat.sub_0_r, nth_middle in Hnone. discriminate.
    + destruct (gap l) as [g|] eqn:Hg; cbn [option_map].
      * split.
        -- intros [= <-]. destruct (proj1 (IH g) eq_refl) as (Hlt & Hsome & Hnone).
           split; [lia|]. split.
           ++ rewrite app_nth1 by lia.
              replace (List.length l - S g)%nat with (List.length l - 1 - g)%nat by lia.
              exact Hsome.
           ++ intros k Hk. destruct k as [|k].
              ** rewrite Nat.sub_0_r, nth_middle. reflexivity.
              ** rewrite app_nth1 by lia.
                 replace (List.length l - S k)%nat with (List.length l - 1 - k)%nat by lia.
                 apply Hnone. lia.
        -- intros (Hm & Hsome & Hnone).
           destruct m as [|m].
           { rewrite Nat.sub_0_r, nth_middle in Hsome. contradiction. }
           assert (Hg' : Some g = Some m); [|congruence].
           apply IH. split; [lia|]. split.
           ++ rewrite app_nth1 in Hsome by lia.
              replace (List.length l - 1 - m)%nat with (List.length l - S m)%nat by lia.
              exact Hsome.
           ++ intros k Hk. specialize (Hnone (S k) ltac:(lia)).
              rewrite app_nth1 in Hnone by lia.
              replace (List.length l - 1 - k)%nat with (List.length l - S k)%nat by lia.
              exact Hnone.
      * split; [discriminate|].
        intros (Hm & Hsome & Hnone). exfalso.
        destruct m as [|m].
        { rewrite Nat.sub_0_r, nth_middle in Hsome. contradiction. }
        assert (Hg' : @None nat = Some m); [|discriminate].
        apply IH. split; [lia|]. split.
        -- rewrite app_nth1 in Hsome by lia.
           replace (List.length l - 1 - m)%nat with (List.length l - S m)%nat by lia.
           exact Hsome.
        -- intros k Hk. specialize (Hnone (S k) ltac:(lia)).
           rewrite app_nth1 in Hnone by lia.
           replace (List.length l - 1 - k)%nat with (List.length l - S k)%nat by lia.
           exact Hnone.
Qed.

Lemma gap_none l :
  gap l = None <-> forall j, nth j l None = None.
Proof.
  induction l as [|a l IH] using rev_ind.
  - cbn. split; [|reflexivity]. intros _ [|j]; reflexivity.
  - rewrite gap_snoc. destruct a as [a|]; cbn [gap_step].
    + split; [discriminate|]. intros H. specialize (H (List.length l)).
      rewrite nth_middle in H. discriminate.
    + destruct (gap l) as [g|] eqn:Hg; cbn [option_map].
      * split; [discriminate|]. intros H.
        assert (Hn : Some g = None); [|discriminate].
        apply IH. intros j. destruct (Nat.lt_ge_cases j (List.length l)) as [Hj|Hj].
        -- specialize (H j). rewrite app_nth1 in H by exact Hj. exact H.
        -- apply nth_overflow. exact Hj.
      * split; [|reflexivity]. intros _ j.
        destruct (Nat.lt_ge_cases j (List.length l)) as [Hj|Hj].
        -- rewrite app_nth1 by exact Hj. apply IH. reflexivity.
        -- destruct (Nat.eq_dec j (List.length l)) as [->|Hne].
           ++ rewrite nth_middle. reflexivity.
           ++ apply nth_overflow. rewrite length_app. cbn. lia.
Qed.

(** A detection is still put out at the end of [l] exactly when one lies at
    the last position, or fewer than [pf] positions back. *)
Lemma holds_gap_iff (pf : Z) l :
  l <> [] ->
  holds pf (gap l) = true <->
  exists j, (j < List.length l)%nat /\ nth j l None <> None /\
            (j = (List.length l - 1)%nat \/
             Z.of_nat (List.length l - 1 - j) < pf).
Proof.
  intros Hne.
  assert (Hlen : (0 < List.length l)%nat).
  { destruct l; [contradiction|cbn; lia]. }
  split.
  - destruct (gap l) as [m|] eqn:Hg; [|discriminate].
    apply gap_some in Hg. destruct Hg as (Hm & Hsome & _).
    cbn [holds]. intros Hh. exists (List.length l - 1 - m)%nat.
    split; [lia|]. split; [exact Hsome|].
    apply orb_true_iff in Hh. destruct Hh as [H0|Hlt].
    + apply Nat.eqb_eq in H0. subst m. left. lia.
    + apply Z.ltb_lt in Hlt. right.
      replace (List.length l - 1 - (List.length l - 1 - m))%nat with m by lia.
      exact Hlt.
  - intros (j & Hj & Hsome & Hwin).
    destruct (gap l) as [m|] eqn:Hg.
    + apply gap_some in Hg. destruct Hg as (Hm & _ & Hnone).
      assert (Hle : (m <= List.length l - 1 - j)%nat).
      { destruct (Nat.le_gt_cases m (List.length l - 1 - j)) as [H|H]; [exact H|].
        exfalso. apply Hsome.
        specialize (Hnone (List.length l - 1 - j)%nat H).
        replace (List.length l - 1 - (List.length l - 1 - j))%nat with j in Hnone by lia.
        exact Hnone. }
      cbn [holds]. apply orb_true_iff. destruct Hwin as [->|Hlt].
      * left. apply Nat.eqb_eq. lia.
      * right. apply Z.ltb_lt. lia.
    + exfalso. apply Hsome. apply gap_none. exact Hg.
Qed.

End WindowFacts.

Section SmootherWindow.
Context {F : Type} {num : Number F}.
Import Smoothing.

Implicit Types (s : BoundingBoxSmoother F) (l : list (option (DetectedQR F))).

Lemma feed_snoc s l (a : option (DetectedQR F)) :
  feed s (l ++ [a]) =
  (fst (feed s l) ++ [fst (update (snd (feed s l)) a)],
   snd (update (snd (feed s l)) a)).
Proof.
  revert s. induction l as [|i l IH]; intros s.
  - cbn [app]. rewrite feed_cons. reflexivity.
  - cbn [app]. rewrite !feed_cons, IH. reflexivity.
Qed.

Lemma feed_length s l : List.length (fst (feed s l)) = List.length l.
Proof.
  revert s. induction l as [|i l IH]; intros s; [reflexivity|].
  rewrite feed_cons. cbn. rewrite IH. reflexivity.
Qed.

(** The output for position [i] only depends on the inputs up to [i]. *)
Lemma feed_nth l : forall s i,
  (i < List.length l)%nat ->
  nth i (fst (feed s l)) None =
  fst (update (snd (feed s (firstn i l))) (nth i l None)).
Proof.
  induction l as [|a l IH]; intros s i Hi; [cbn in Hi; lia|].
  rewrite feed_cons. destruct i as [|i]; [reflexivity|].
  cbn [fst nth firstn]. rewrite feed_cons. cbn [snd].
  apply IH. cbn in Hi. lia.
Qed.

(** The state of a smoother that started fresh, in terms of the gap since
    the last detection. *)
Lemma window_state (pf : Z) (alpha : F) l :
  let s := snd (feed (init pf alpha) l) in
  persistence_frames s = pf /\
  match Window.gap l with
  | None => _smoothed_box s = None
  | Some m =>
      _frames_without_detection s = Z.of_nat m /\
      if Window.holds pf (Some m)
      then _smoothed_box s <> None /\ _last_payload s <> None
      else _smoothed_box s = None
  end.
Proof.
  induction l as [|a l IH] using rev_ind; [cbn; auto|].
  cbv zeta in *. rewrite feed_snoc, gap_snoc. cbn [snd].
  set (s := snd (feed (init pf alpha) l)) in *.
  destruct IH as [Hpf IH].
  destruct a as [d|]; cbn [Window.gap_step].
  - rewrite update_detected_eq. cbn. repeat split; auto; discriminate.
  - destruct (update_none_counter s) as (Hc & Hp & _).
    split; [congruence|].
    destruct (Window.gap l) as [m|]; cbn [option_map].
    + destruct IH as [Hm IH]. split; [rewrite Hc, Hm; lia|].
      cbn [Window.holds] in *. cbn [Nat.eqb orb].
      destruct (Z.ltb_spec (Z.of_nat (S m)) pf) as [Hlt|Hge].
      * rewrite update_none_within by lia. cbn [snd].
        assert (Hh : ((m =? 0)%nat || (Z.of_nat m <? pf)) = true).
        { apply orb_true_iff. right. apply Z.ltb_lt. lia. }
        rewrite Hh in IH. exact IH.
      * rewrite update_none_expired by lia. reflexivity.
    + apply update_none_no_box, IH.
Qed.

(** Whether the smoother puts out a detection for the input that follows [l]. *)
Lemma window_output (pf : Z) (alpha : F) l (a : option (DetectedQR F)) :
  CameraManager.is_some (fst (update (snd (feed (init pf alpha) l)) a)) =
  Window.holds pf (Window.gap (l ++ [a])).
Proof.
  rewrite gap_snoc.
  destruct (window_state pf alpha l) as [Hpf Hst]. cbv zeta in *.
  set (s := snd (feed (init pf alpha) l)) in *.
  destruct a as [d|]; cbn [Window.gap_step].
  - rewrite update_detected_eq. reflexivity.
  - destruct (Window.gap l) as [m|]; cbn [option_map].
    + destruct Hst as [Hm Hst]. cbn [Window.holds] in *. cbn [Nat.eqb orb].
      destruct (Z.ltb_spec (Z.of_nat (S m)) pf) as [Hlt|Hge].
      * rewrite update_none_within by lia. cbn [fst].
        assert (Hh : ((m =? 0)%nat || (Z.of_nat m <? pf)) = true).
        { apply orb_true_iff. right. apply Z.ltb_lt. lia. }
        rewrite Hh in Hst. destruct Hst as [Hb Hp].
        destruct (_smoothed_box s); [|contradiction].
        destruct (_last_payload s); [reflexivity|contradiction].
      * rewrite update_none_expired by lia. reflexivity.
    + destruct (update_none_no_box s Hst) as [Ho _]. rewrite Ho. reflexivity.
Qed.

Lemma firstn_snoc_nth {A} (l : list A) (d : A) i :
  (i < List.length l)%nat -> firstn i l ++ [nth i l d] = firstn (S i) l.
Proof.
  revert i. induction l as [|a l IH]; intros i Hi; [cbn in Hi; lia|].
  destruct i as [|i]; [reflexivity|].
  cbn [firstn nth app]. f_equal. apply IH. cbn in Hi. lia.
Qed.

(** Which positions of a run get a detection out of a fresh smoother. *)
Lemma window_positions (pf : Z) (alpha : F) l i :
  (i < List.length l)%nat ->
  CameraManager.is_some (nth i (fst (feed (init pf alpha) l)) None) = true <->
  exists j, (j <= i)%nat /\ nth j l None <> None /\
            (j = i \/ Z.of_nat (i - j) < pf).
Proof.
  intros Hi. rewrite feed_nth by exact Hi. rewrite window_output.
  rewrite firstn_snoc_nth by exact Hi.
  assert (Hlen : List.length (firstn (S i) l) = S i).
  { rewrite length_firstn. lia. }
  rewrite holds_gap_iff.
  2:{ intros Hnil. rewrite Hnil in Hlen. discriminate. }
  rewrite Hlen. replace (S i - 1)%nat with i by lia.
  split; intros (j & Hj & Hsome & Hwin); exists j.
  - split; [lia|]. split; [|exact Hwin].
    rewrite nth_firstn in Hsome.
    destruct (Nat.ltb_spec j (S i)); [exact Hsome|contradiction].
  - split; [lia|]. split; [|exact Hwin].
    rewrite nth_firstn. destruct (Nat.ltb_spec j (S i)); [exact Hsome|lia].
Qed.

End SmootherWindow.

(* ================================================================== *)
(** * The capture loop over whole runs *)

Section RunFacts.
Context {F : Type} {num : Number F}.
Context {Frame : Type} {img : Image Frame}.
Import CameraManager.

Implicit Types (w : CameraWorker F Frame) (frame : Frame).

(** The classifier block of [run], field by field. *)
Lemma classify_step_fields (enabled : bool) w frame :
  exists w',
    classify_step enabled w frame =
      Py.ret (if enabled then _classification_detected w else false,
              if enabled then _classification_bbox w else None,
              w') /\
    _smoother w' = _smoother w /\
    _roboflow_enabled w' = _roboflow_enabled w /\
    _qr_enabled w' = _qr_enabled w /\
    _classification_detected w' = _classification_detected w /\
    _classification_bbox w' = _classification_bbox w /\
    _frames_without_classification w' = _frames_without_classification w /\
    _roboflow_frame_counter w' =
      (if enabled
       then if _roboflow_frame_counter w + 1 >=? Config.ROBOFLOW_FRAME_INTERVAL
            then 0 else _roboflow_frame_counter w + 1
       else _roboflow_frame_counter w) /\
    _roboflow_queue w' =
      (if enabled && (_roboflow_frame_counter w + 1 >=? Config.ROBOFLOW_FRAME_INTERVAL)
       then match _roboflow_queue w with
            | [] => [Some frame]
            | _ :: _ => _roboflow_queue w
            end
       else _roboflow_queue w) /\
    _roboflow_thread_alive w' = (enabled || _roboflow_thread_alive w) /\
    _roboflow_thread_running w' =
      (if enabled && negb (_roboflow_thread_alive w) then true
       else _roboflow_thread_running w).
Proof.
  unfold classify_step. destruct enabled; cbn [andb orb].
  2:{ exists w. repeat split; reflexivity. }
  destruct (_roboflow_thread_alive w) eqn:Halive; cbn [negb].
  - destruct (Z.geb_spec (_roboflow_frame_counter w + 1) Config.ROBOFLOW_FRAME_INTERVAL)
      as [Hge|Hlt]; cbn.
    + destruct (Z.geb_spec (_roboflow_frame_counter w + 1) Config.ROBOFLOW_FRAME_INTERVAL);
        [|lia].
      rewrite offer_frame_eq. cbn.
      destruct (_roboflow_queue w) eqn:Hq; cbn;
        eexists; (split; [reflexivity|]); cbn; rewrite ?Hq, ?Halive; repeat split; reflexivity.
    + destruct (Z.geb_spec (_roboflow_frame_counter w + 1) Config.ROBOFLOW_FRAME_INTERVAL);
        [lia|].
      cbn. eexists; (split; [reflexivity|]); cbn; rewrite ?Halive; repeat split; reflexivity.
  - destruct (Z.geb_spec (_roboflow_frame_counter w + 1) Config.ROBOFLOW_FRAME_INTERVAL)
      as [Hge|Hlt]; cbn.
    + destruct (Z.geb_spec (_roboflow_frame_counter w + 1) Config.ROBOFLOW_FRAME_INTERVAL);
        [|lia].
      rewrite offer_frame_eq. cbn.
      destruct (_roboflow_queue w) eqn:Hq; cbn;
        eexists; (split; [reflexivity|]); cbn; rewrite ?Hq; repeat split; reflexivity.
    + destruct (Z.geb_spec (_roboflow_frame_counter w + 1) Config.ROBOFLOW_FRAME_INTERVAL);
        [lia|].
      cbn. eexists; (split; [reflexivity|]); cbn; repeat split; reflexivity.
Qed.

(** A turn of [run] on a frame whose marker detection returns, in full. *)
Lemma run_iteration_frame decode frame w (frames_failed : Z)
      (found : option (Smoothing.DetectedQR F)) :
  (if _qr_enabled w then _detect_qr decode (flip frame) else Py.ret None)
    = Py.ret found ->
  let smoothed := fst (Smoothing.update (_smoother w) found) in
  let frame_data :=
    mkFrameData (flip frame) smoothed (is_some smoothed) (_qr_enabled w)
      (if _roboflow_enabled w then _classification_detected w else false)
      (if _roboflow_enabled w then _classification_bbox w else None)
      (if _roboflow_enabled w
       then is_some smoothed && _classification_detected w
       else is_some smoothed)
      (_roboflow_enabled w) in
  exists w',
    run_iteration decode (Some frame) w frames_failed =
      Py.ret (Next, [frame_ready frame_data], w', 0) /\
    _smoother w' = snd (Smoothing.update (_smoother w) found) /\
    _roboflow_enabled w' = _roboflow_enabled w /\
    _qr_enabled w' = _qr_enabled w /\
    _classification_detected w' = _classification_detected w /\
    _classification_bbox w' = _classification_bbox w /\
    _frames_without_classification w' = _frames_without_classification w /\
    _roboflow_frame_counter w' =
      (if _roboflow_enabled w
       then if _roboflow_frame_counter w + 1 >=? Config.ROBOFLOW_FRAME_INTERVAL
            then 0 else _roboflow_frame_counter w + 1
       else _roboflow_frame_counter w) /\
    _roboflow_queue w' =
      (if _roboflow_enabled w
          && (_roboflow_frame_counter w + 1 >=? Config.ROBOFLOW_FRAME_INTERVAL)
       then match _roboflow_queue w with
            | [] => [Some (flip frame)]
            | _ :: _ => _roboflow_queue w
            end
       else _roboflow_queue w).
Proof.
  intros Hfound. cbv zeta. unfold run_iteration. rewrite Hfound. cbn [Py.bind Py.ret].
  destruct (Smoothing.update (_smoother w) found) as [smoothed sm] eqn:Hupd.
  cbn [fst snd].
  destruct (classify_step_fields (_roboflow_enabled (with_smoother w sm))
                                 (with_smoother w sm) (flip frame))
    as (w' & Hstep & Hs & He & Hq & Hd & Hb & Hf & Hc & Hqu & _).
  rewrite Hstep. cbn [Py.bind Py.ret]. cbn in *.
  exists w'. split.
  - destruct (_roboflow_enabled w); reflexivity.
  - repeat split; assumption.
Qed.

(** A failed read counts and, up to thirty in a row, does nothing else. *)
Lemma run_iteration_failed_read decode w (frames_failed : Z) :
  run_iteration decode None w frames_failed =
  if frames_failed + 1 >? 30
  then Py.ret (Break,
               [error_occurred "Camera feed lost. Please check camera connection."],
               w, frames_failed + 1)
  else Py.ret (Next, [], w, frames_failed + 1).
Proof. reflexivity. Qed.

Lemma run_loop_cons_frame decode (read : option Frame) later w (frames_failed : Z)
      c emitted w' ff' :
  run_iteration decode read w frames_failed = Py.ret (c, emitted, w', ff') ->
  run_loop decode (read :: later) w frames_failed =
  match c with
  | Break => Py.ret (emitted, w')
  | Next =>
      Py.bind (run_loop decode later w' ff')
              (fun r => Py.ret ((emitted ++ fst r)%list, snd r))
  end.
Proof.
  intros Hit. cbn [run_loop]. rewrite Hit. cbn [Py.bind Py.ret].
  destruct c; [|reflexivity].
  destruct (run_loop decode later w' ff') as [e|[later' w'']]; reflexivity.
Qed.

(** With the classifier off and the marker detector on, the loop is the
    smoother run over what the detector finds, frame by frame. *)
Lemma run_loop_marker_only decode (found : Frame -> option (Smoothing.DetectedQR F))
      (frames : list Frame) : forall w (frames_failed : Z),
  (forall frame, _detect_qr decode (flip frame) = Py.ret (found frame)) ->
  _qr_enabled w = true ->
  _roboflow_enabled w = false ->
  exists frame_data w',
    run_loop decode (map Some frames) w frames_failed =
      Py.ret (map frame_ready frame_data, w') /\
    map detection frame_data =
      fst (Smoothing.feed (_smoother w) (map found frames)) /\
    map can_continue_moving frame_data =
      map is_some (fst (Smoothing.feed (_smoother w) (map found frames))) /\
    map CameraManager.frame frame_data = map flip frames.
Proof.
  induction frames as [|frame frames IH]; intros w frames_failed Hdec Hq Hr.
  - exists [], w. repeat split; reflexivity.
  - destruct (run_iteration_frame decode frame w frames_failed (found frame))
      as (w1 & Hit & Hs1 & Hr1 & Hq1 & _).
    { rewrite Hq. apply Hdec. }
    destruct (IH w1 0 Hdec) as (fds & w' & Hloop & Hdet & Hgate & Hfr).
    { congruence. }
    { congruence. }
    cbn [map]. rewrite (run_loop_cons_frame _ _ _ _ _ _ _ _ _ Hit), Hloop.
    cbn [Py.bind Py.ret fst snd app].
    eexists (_ :: fds), w'. split; [reflexivity|].
    rewrite feed_cons. cbn [map fst].
    rewrite Hdet, Hgate, Hfr, Hs1, Hr. repeat split; reflexivity.
Qed.

End RunFacts.

(* ================================================================== *)
(** * Further properties of the code *)

Section WindowProperties.
Context {F : Type} {num : Number F}.
Context {Frame : Type} {img : Image Frame}.

(** A smoother that starts fresh and is fed one input per frame puts out a
    detection at frame [i] exactly when the marker was detected at frame
    [i], or at an earlier frame fewer than [persistence_frames] frames
    before [i]. *)
Theorem smoother_output_window (pf : Z) (alpha : F)
        (inputs : list (option (Smoothing.DetectedQR F))) (i : nat) :
  (i < List.length inputs)%nat ->
  CameraManager.is_some
    (nth i (fst (Smoothing.feed (Smoothing.init pf alpha) inputs)) None) = true <->
  exists j, (j <= i)%nat /\ nth j inputs None <> None /\
            (j = i \/ Z.of_nat (i - j) < pf).
Proof. apply window_positions. Qed.

(** With marker detection on and the classifier off, a run of the capture
    loop over frames that are all read publishes one frame result per frame,
    and the gate of frame [i] is true exactly when the marker was decoded in
    frame [i] or in an earlier frame fewer than [persistence_frames] frames
    before it. *)
Theorem marker_gate_follows_window
        (decode : Frame -> Py.py (list Pyzbar.Decoded))
        (found : Frame -> option (Smoothing.DetectedQR F))
        (frames : list Frame) (w : CameraManager.CameraWorker F Frame)
        (frames_failed : Z) (pf : Z) (alpha : F) :
  (forall frame, CameraManager._detect_qr decode (flip frame) = Py.ret (found frame)) ->
  CameraManager._qr_enabled w = true ->
  CameraManager._roboflow_enabled w = false ->
  CameraManager._smoother w = Smoothing.init pf alpha ->
  exists frame_data w',
    CameraManager.run_loop decode (map Some frames) w frames_failed =
      Py.ret (map CameraManager.frame_ready frame_data, w') /\
    List.length frame_data = List.length frames /\
    forall i, (i < List.length frames)%nat ->
      nth i (map CameraManager.can_continue_moving frame_data) false = true <->
      exists j, (j <= i)%nat /\ nth j (map found frames) None <> None /\
                (j = i \/ Z.of_nat (i - j) < pf).
Proof.
  intros Hdec Hq Hr Hs.
  destruct (run_loop_marker_only decode found frames w frames_failed Hdec Hq Hr)
    as (fds & w' & Hloop & _ & Hgate & Hfr).
  exists fds, w'. split; [exact Hloop|]. split.
  - rewrite <- (length_map CameraManager.frame fds), Hfr. apply length_map.
  - intros i Hi. rewrite Hgate, Hs.
    change false with (@CameraManager.is_some (Smoothing.DetectedQR F) None).
    rewrite map_nth. apply window_positions. rewrite length_map. exact Hi.
Qed.

End WindowProperties.

(** The default smoother on seven frames with the marker in the second: the
    sixth frame, four frames later, still gets the detection. *)
Lemma smoother_output_window_witness :
  CameraManager.is_some
    (nth 5 (fst (Smoothing.feed (Smoothing.init 5 (div (of_int 6) (of_int 10)))
                                MoreExamples.seen_once)) None) = true.
Proof.
  apply (smoother_output_window 5 (div (of_int 6) (of_int 10)) MoreExamples.seen_once 5).
  - cbn. lia.
  - exists 1%nat. split; [lia|]. split; [discriminate|]. right. cbn. lia.
Defined.

(** Frames 1 to 50 with the marker in frames 5 to 40, on the worker as it is
    constructed: the gate of a frame is true exactly within the window. *)
Lemma marker_gate_follows_window_witness :
  exists (frame_data : list (CameraManager.FrameData float nat)) w',
    CameraManager.run_loop Examples.decode_5_to_40 (map Some (seq 1 50))
                           CameraManager.init 0 =
      Py.ret (map CameraManager.frame_ready frame_data, w') /\
    List.length frame_data = 50%nat /\
    forall i, (i < 50)%nat ->
      nth i (map CameraManager.can_continue_moving frame_data) false = true <->
      exists j, (j <= i)%nat /\
                nth j (map MoreExamples.found_5_to_40 (seq 1 50)) None <> None /\
                (j = i \/ Z.of_nat (i - j) < 5).
Proof.
  apply (marker_gate_follows_window (F := float) Examples.decode_5_to_40
           MoreExamples.found_5_to_40 (seq 1 50) CameraManager.init 0 5
           (div (of_int 6) (of_int 10))).
  - intros frame.
    unfold Examples.decode_5_to_40, MoreExamples.found_5_to_40, CameraManager._detect_qr.
    cbn [flip Examples.numbered_frames].
    destruct ((5 <=? frame)%nat && (frame <=? 40)%nat)%bool; reflexivity.
  - reflexivity.
  - reflexivity.
  - reflexivity.
Defined.

Section LoopProperties.
Context {F : Type} {num : Number F}.
Context {Frame : Type} {img : Image Frame}.
Import CameraManager.

Implicit Types (w : CameraWorker F Frame) (frame : Frame).

Lemma bind_ret_pair {A B} (c : Py.py (list A * B)) :
  Py.bind c (fun r => Py.ret (([] ++ fst r)%list, snd r)) = c.
Proof. destruct c as [e|[a b]]; reflexivity. Qed.

Lemma run_loop_failed_reads decode (k : nat) : forall w (frames_failed : Z) later,
  frames_failed + Z.of_nat k <= 30 ->
  run_loop decode (repeat None k ++ later) w frames_failed =
  run_loop decode later w (frames_failed + Z.of_nat k).
Proof.
  induction k as [|k IH]; intros w frames_failed later Hle.
  - cbn [repeat app]. f_equal. lia.
  - cbn [repeat app].
    rewrite (run_loop_cons_frame decode None _ w frames_failed Next [] w (frames_failed + 1)).
    + rewrite bind_ret_pair, IH by lia. f_equal. lia.
    + rewrite run_iteration_failed_read.
      destruct (Z.gtb_spec (frames_failed + 1) 30); [lia|reflexivity].
Qed.

(** The capture loop tolerates thirty failed reads in a row and gives up on
    the thirty-first: it then reports the lost camera once and reads no
    further frame.  A frame that is read makes the loop forget the failures
    before it. *)
Theorem read_failure_budget decode w (frames_failed : Z) (k : nat) later :
  (frames_failed + Z.of_nat k <= 30 ->
   run_loop decode (repeat None k ++ later) w frames_failed =
   run_loop decode later w (frames_failed + Z.of_nat k)) /\
  (frames_failed + Z.of_nat k = 30 ->
   run_loop decode (repeat None k ++ None :: later) w frames_failed =
   Py.ret ([error_occurred "Camera feed lost. Please check camera connection."], w)) /\
  (forall frame (other : Z),
   run_loop decode (Some frame :: later) w frames_failed =
   run_loop decode (Some frame :: later) w other).
Proof.
  split; [|split].
  - apply run_loop_failed_reads.
  - intros Hk. rewrite run_loop_failed_reads by lia.
    rewrite (run_loop_cons_frame decode None _ w _ Break
               [error_occurred "Camera feed lost. Please check camera connection."]
               w (frames_failed + Z.of_nat k + 1)); [reflexivity|].
    rewrite run_iteration_failed_read.
    destruct (Z.gtb_spec (frames_failed + Z.of_nat k + 1) 30); [reflexivity|lia].
  - intros frame other. reflexivity.
Qed.



(** The slot of the classifier worker never holds more than one frame and
    the stride counter stays in [0, ROBOFLOW_FRAME_INTERVAL): both hold of a
    new worker object and are kept by every turn of the capture loop that
    returns, by every turn of the worker thread and by the two setters. *)
Theorem slot_stays_single :
  Slot.slot_inv (@CameraManager.init F num Frame) /\
  (forall decode read w (frames_failed : Z) c emitted w' ff',
      Slot.slot_inv w ->
      run_iteration decode read w frames_failed = Py.ret (c, emitted, w', ff') ->
      Slot.slot_inv w') /\
  (forall detect w,
      Slot.slot_inv w -> Slot.slot_inv (snd (_roboflow_worker_iteration detect w))) /\
  (forall w (value : bool),
      Slot.slot_inv w ->
      Slot.slot_inv (set_roboflow_enabled w value) /\
      Slot.slot_inv (set_qr_enabled w value)).
Proof.
  unfold Slot.slot_inv, Config.ROBOFLOW_FRAME_INTERVAL.
  split; [cbn; lia|]. split; [|split].
  - intros decode read w frames_failed c emitted w' ff' [Hlen Hc] Hit.
    destruct read as [frame|].
    + destruct (if _qr_enabled w then _detect_qr decode (flip frame) else Py.ret None)
        as [e|found] eqn:Hfound.
      * exfalso. unfold run_iteration in Hit. rewrite Hfound in Hit. discriminate.
      * destruct (run_iteration_frame decode frame w frames_failed found Hfound)
          as (w1 & Hit1 & _ & _ & _ & _ & _ & _ & Hc1 & Hq1).
        rewrite Hit1 in Hit. injection Hit as _ _ <- _.
        rewrite Hc1, Hq1. unfold Config.ROBOFLOW_FRAME_INTERVAL.
        destruct (_roboflow_enabled w); cbn [andb].
        -- destruct (Z.geb_spec (_roboflow_frame_counter w + 1) 3).
           ++ split; [|lia]. destruct (_roboflow_queue w); cbn in *; lia.
           ++ split; [exact Hlen|lia].
        -- split; [exact Hlen|lia].
    + rewrite run_iteration_failed_read in Hit.
      destruct (frames_failed + 1 >? 30); injection Hit as _ _ <- _; auto.
  - intros detect w [Hlen Hc].
    unfold _roboflow_worker_iteration.
    destruct (negb (_roboflow_thread_running w)); [cbn; auto|].
    unfold worker_try, Queue.get.
    destruct (_roboflow_queue w) as [|[frame|] rest] eqn:Hq; cbn.
    + rewrite Hq. cbn. lia.
    + cbn in Hlen.
      destruct (detect frame) as [e|r]; cbn; [lia|].
      pose proof (publish_other_fields (with_roboflow_queue w rest) r)
        as (_ & _ & _ & Hc' & Hq' & _).
      destruct (publish (with_roboflow_queue w rest) r) as [res w2].
      cbn in *. rewrite Hc', Hq'. lia.
    + cbn in Hlen. lia.
  - intros w value [Hlen Hc]. destruct value; cbn; auto.
Qed.

(** With the classifier enabled, the capture loop hands a frame to the
    worker on every third turn (the stride counter goes 0, 1, 2, 0, ...),
    and only into an empty slot; on the other turns the slot is not
    touched. *)
Theorem every_third_frame_offered decode frame w (frames_failed : Z)
        (found : option (Smoothing.DetectedQR F)) :
  Slot.slot_inv w ->
  _roboflow_enabled w = true ->
  (if _qr_enabled w then _detect_qr decode (flip frame) else Py.ret None)
    = Py.ret found ->
  exists frame_data w',
    run_iteration decode (Some frame) w frames_failed =
      Py.ret (Next, [frame_ready frame_data], w', 0) /\
    _roboflow_frame_counter w' = (_roboflow_frame_counter w + 1) mod 3 /\
    _roboflow_queue w' =
      match _roboflow_queue w with
      | [] => if _roboflow_frame_counter w =? 2 then [Some (flip frame)] else []
      | _ :: _ => _roboflow_queue w
      end.
Proof.
  intros [Hlen Hc] Hen Hfound. unfold Config.ROBOFLOW_FRAME_INTERVAL in Hc.
  destruct (run_iteration_frame decode frame w frames_failed found Hfound)
    as (w' & Hit & _ & _ & _ & _ & _ & _ & Hc' & Hq').
  eexists. exists w'. split; [exact Hit|].
  rewrite Hc', Hq', Hen. unfold Config.ROBOFLOW_FRAME_INTERVAL. cbn [andb].
  destruct (Z.geb_spec (_roboflow_frame_counter w + 1) 3) as [Hge|Hlt].
  - assert (Hc2 : _roboflow_frame_counter w = 2) by lia.
    rewrite Hc2. split; [reflexivity|].
    destruct (_roboflow_queue w); reflexivity.
  - split.
    + rewrite Z.mod_small by lia. reflexivity.
    + destruct (Z.eqb_spec (_roboflow_frame_counter w) 2); [lia|].
      destruct (_roboflow_queue w); reflexivity.
Qed.

(** The worker thread is not stopped by disabling the classifier.  A frame
    that waits in the slot is still classified afterwards; the detection it
    yields is stored after the reset, enabling again resets nothing, and the
    next frame result reports that older detection. *)
Theorem stale_detection_after_toggle
        (detect : Frame -> Py.py (RoboflowClient.RoboflowResult F))
        w frame rest r det decode next (frames_failed : Z)
        (found : option (Smoothing.DetectedQR F)) :
  _roboflow_thread_running w = true ->
  _roboflow_queue w = Some frame :: rest ->
  detect frame = Py.ret r ->
  RoboflowClient.detected r = true ->
  RoboflowClient.detection r = Some det ->
  (if _qr_enabled w then _detect_qr decode (flip next) else Py.ret None)
    = Py.ret found ->
  let disabled := set_roboflow_enabled w false in
  let after_worker := snd (_roboflow_worker_iteration detect disabled) in
  let enabled := set_roboflow_enabled after_worker true in
  _classification_detected disabled = false /\
  _classification_detected after_worker = true /\
  exists frame_data w',
    run_iteration decode (Some next) enabled frames_failed =
      Py.ret (Next, [frame_ready frame_data], w', 0) /\
    classification_detected frame_data = true.
Proof.
  intros Hrun Hq Hd Hdet Hsome Hfound. cbv zeta.
  split; [reflexivity|].
  rewrite (worker_iteration_result detect (set_roboflow_enabled w false) frame rest r)
    by assumption.
  cbn [snd].
  set (queued := with_roboflow_queue (set_roboflow_enabled w false) rest).
  destruct (publish_sets_flag queued r det Hdet Hsome) as [Hflag _].
  pose proof (publish_other_fields queued r) as (_ & _ & Hq' & _).
  split; [exact Hflag|].
  edestruct (run_iteration_frame decode next
               (set_roboflow_enabled (snd (publish queued r)) true))
    as (w' & Hit & _).
  2:{ eexists. exists w'. split; [exact Hit|].
      cbn [classification_detected]. cbn. exact Hflag. }
  cbn. cbn in Hq'. rewrite Hq'. exact Hfound.
Qed.

(** The classifier flag is debounced: over consecutive results without a
    detection the counter goes up by one each, flag and box are kept while
    the counter is under [ROBOFLOW_PERSISTENCE_FRAMES] (3), and cleared by
    the result that brings it there. *)
Theorem classifier_flag_debounce w (results : list (RoboflowClient.RoboflowResult F)) :
  (forall r, In r results ->
     RoboflowClient.detected r = false \/ RoboflowClient.detection r = None) ->
  let w' := fold_left (fun w r => snd (publish w r)) results w in
  _frames_without_classification w' =
    _frames_without_classification w + Z.of_nat (List.length results) /\
  (_frames_without_classification w + Z.of_nat (List.length results)
     < Config.ROBOFLOW_PERSISTENCE_FRAMES ->
   _classification_detected w' = _classification_detected w /\
   _classification_bbox w' = _classification_bbox w) /\
  (results <> [] ->
   Config.ROBOFLOW_PERSISTENCE_FRAMES
     <= _frames_without_classification w + Z.of_nat (List.length results) ->
   _classification_detected w' = false /\ _classification_bbox w' = None).
Proof.
  revert w. induction results as [|r results IH] using rev_ind; intros w Hno.
  - cbn. split; [lia|]. split; [auto|]. intros H. contradiction.
  - cbv zeta. rewrite fold_left_app, length_app. cbn [fold_left List.length].
    destruct (IH w) as (Hc & Hkeep & Hclear).
    { intros r' Hin. apply Hno, in_or_app. left. exact Hin. }
    rewrite publish_no_detection by (apply Hno, in_or_app; right; left; reflexivity).
    cbn. cbv zeta in Hc. rewrite Hc.
    destruct (Z.geb_spec
                (_frames_without_classification w + Z.of_nat (List.length results) + 1)
                Config.ROBOFLOW_PERSISTENCE_FRAMES) as [Hge|Hlt].
    + split; [lia|]. split; [lia|]. auto.
    + split; [lia|]. split; [|lia].
      intros _. apply Hkeep. lia.
Qed.

End LoopProperties.

(* ================================================================== *)
(** * The smoothing factor on binary64 numbers *)

Section FloatOrder.
Local Open Scope float_scope.

Lemma prim2sf_zero : Prim2SF 0 = S754_zero false.
Proof. vm_compute. reflexivity. Qed.

Lemma prim2sf_one : Prim2SF 1 = S754_finite false 4503599627370496 (-52).
Proof. vm_compute. reflexivity. Qed.

Lemma float_ltb_leb (a b : float) : (a <? b) = true -> (a <=? b) = true.
Proof.
  rewrite ltb_spec, leb_spec. unfold SFltb, SFleb.
  destruct (SFcompare (Prim2SF a) (Prim2SF b)) as [[ | | ]|]; congruence.
Qed.

Lemma SFcompare_antisym (a b : spec_float) :
  SFcompare b a = option_map CompOpp (SFcompare a b).
Proof.
  destruct a as [sa|sa| |sa ma ea], b as [sb|sb| |sb mb eb];
    try destruct sa; try destruct sb;
    cbn [SFcompare option_map CompOpp]; try reflexivity.
  - rewrite (Z.compare_antisym eb ea).
    destruct (eb ?= ea)%Z; cbn [CompOpp]; try reflexivity.
    pose proof (Pos.compare_cont_antisym ma mb Eq) as H. cbn [CompOpp] in H.
    rewrite <- H. reflexivity.
  - rewrite (Z.compare_antisym eb ea).
    destruct (eb ?= ea)%Z; cbn [CompOpp]; try reflexivity.
    pose proof (Pos.compare_cont_antisym ma mb Eq) as H. cbn [CompOpp] in H.
    rewrite <- H. reflexivity.
Qed.

Lemma float_ltb_asym (a b : float) : (a <? b) = true -> (b <? a) = false.
Proof.
  rewrite !ltb_spec. unfold SFltb. rewrite (SFcompare_antisym (Prim2SF a) (Prim2SF b)).
  destruct (SFcompare (Prim2SF a) (Prim2SF b)) as [[ | | ]|];
    cbn [option_map CompOpp]; congruence.
Qed.

(** Below zero is below one. *)
Lemma float_neg_lt_one (v : float) : (v <? 0) = true -> (v <? 1) = true.
Proof.
  rewrite !ltb_spec. unfold SFltb. rewrite prim2sf_zero, prim2sf_one.
  destruct (Prim2SF v) as [s|s| |s m e]; try destruct s;
    cbn [SFcompare]; intros H; try reflexivity; try discriminate H.
Qed.

End FloatOrder.

Section AlphaSetter.
Import Smoothing SmoothingMore.
Local Open Scope float_scope.

Lemma clamp_cases (v : float) :
  py_max (of_int 0) (py_min (of_int 1) v) =
  if v <? 1 then (if 0 <? v then v else 0) else 1.
Proof.
  unfold py_max, py_min. cbn [ltb float_order of_int float_number].
  change (float_of_Z 1) with 1. change (float_of_Z 0) with 0.
  destruct (v <? 1); [reflexivity|].
  replace (0 <? 1) with true by (vm_compute; reflexivity). reflexivity.
Qed.

(** The [alpha] setter on the numbers the code runs on.  Whatever float is
    written, the stored factor lies between 0 and 1; a value strictly
    between 0 and 1 is stored as it is, a value below 0 is stored as 0.0, a
    value above 1 as 1.0, and so is NaN. *)
Theorem alpha_setter_clamps (s : BoundingBoxSmoother float) (value : float) :
  let a := alpha (set_alpha s value) in
  (0 <=? a) = true /\ (a <=? 1) = true /\
  ((0 <? value) = true -> (value <? 1) = true -> a = value) /\
  ((value <? 0) = true -> a = 0) /\
  ((1 <? value) = true -> a = 1) /\
  alpha (set_alpha s nan) = 1.
Proof.
  cbv zeta. unfold alpha, set_alpha. cbn [smoothing_alpha]. rewrite !clamp_cases.
  split; [|split; [|split; [|split; [|split]]]].
  - destruct (value <? 1) eqn:H1; [|vm_compute; reflexivity].
    destruct (0 <? value) eqn:H0; [|vm_compute; reflexivity].
    apply float_ltb_leb, H0.
  - destruct (value <? 1) eqn:H1; [|vm_compute; reflexivity].
    destruct (0 <? value) eqn:H0; [|vm_compute; reflexivity].
    apply float_ltb_leb, H1.
  - intros H0 H1. rewrite H1, H0. reflexivity.
  - intros Hneg. rewrite (float_neg_lt_one value Hneg).
    rewrite (float_ltb_asym value 0 Hneg). reflexivity.
  - intros Hbig. rewrite (float_ltb_asym 1 value Hbig). reflexivity.
  - vm_compute. reflexivity.
Qed.

End AlphaSetter.

(* ================================================================== *)
(** * The camera manager, the slider and the tracking button *)

Section ManagerProperties.
Context {F : Type} {num : Number F} {ord : NumberOrder F}.
Context {Frame : Type}.
Import Manager.

Implicit Types (m : CameraManager F Frame).

(** The worker, when there is one, has the flags of the manager. *)
Lemma manager_sync_kept (ops : list (op F)) : forall m,
  (forall w, _worker m = Some w ->
     CameraManager._roboflow_enabled w = _roboflow_enabled m /\
     CameraManager._qr_enabled w = _qr_enabled m) ->
  let m' := fold_left apply ops m in
  (forall w, _worker m' = Some w ->
     CameraManager._roboflow_enabled w = _roboflow_enabled m' /\
     CameraManager._qr_enabled w = _qr_enabled m') /\
  _roboflow_enabled m' = last_roboflow ops (_roboflow_enabled m) /\
  _qr_enabled m' = last_qr ops (_qr_enabled m).
Proof.
  induction ops as [|o ops IH]; intros m Hsync.
  - cbn. auto.
  - cbn [fold_left]. cbv zeta.
    assert (Hstep : (forall w, _worker (apply m o) = Some w ->
                       CameraManager._roboflow_enabled w = _roboflow_enabled (apply m o) /\
                       CameraManager._qr_enabled w = _qr_enabled (apply m o)) /\
                    _roboflow_enabled (apply m o) =
                      match o with SetRoboflow v => v | _ => _roboflow_enabled m end /\
                    _qr_enabled (apply m o) =
                      match o with SetQr v => v | _ => _qr_enabled m end).
    { destruct o as [v|v|v| | ]; cbn [apply].
      - unfold set_roboflow_enabled. cbn. split; [|auto].
        destruct (_worker m) as [w0|] eqn:Hw; [|discriminate].
        intros w [= <-]. destruct (Hsync w0 eq_refl) as [_ Hq].
        destruct v; cbn; auto.
      - unfold set_qr_enabled. cbn. split; [|auto].
        destruct (_worker m) as [w0|] eqn:Hw; [|discriminate].
        intros w [= <-]. destruct (Hsync w0 eq_refl) as [Hr _].
        destruct v; cbn; auto.
      - unfold set_smoothing_alpha.
        destruct (_worker m) as [w0|] eqn:Hw; cbn.
        + split; [|auto]. intros w [= <-]. apply (Hsync w0 eq_refl).
        + rewrite Hw. split; [discriminate|auto].
      - unfold start.
        destruct (_worker m) as [w0|] eqn:Hw; cbn.
        + rewrite Hw. split; [|auto]. intros w [= <-]. apply (Hsync w0 eq_refl).
        + split; [|auto]. intros w [= <-].
          destruct (_roboflow_enabled m), (_qr_enabled m); cbn; auto.
      - unfold stop.
        destruct (_worker m) as [w0|] eqn:Hw; cbn.
        + split; [discriminate|auto].
        + rewrite Hw. split; [discriminate|auto]. }
    destruct Hstep as (Hsync' & Hr & Hq).
    destruct (IH (apply m o) Hsync') as (Hs & Hr' & Hq').
    split; [exact Hs|]. rewrite Hr', Hq', Hr, Hq. split; reflexivity.
Qed.

(** Whatever the user interface does to the manager (toggles, smoothing
    changes, starts and stops, in any order), the [roboflow_enabled] and
    [qr_enabled] getters return the value set last, or the value at
    construction (off and on) when none was set: the toggles are kept over
    a stop and start of the camera. *)
Theorem manager_flags_follow_last_set (ops : list (op F)) (camera_index : Z) :
  let m : CameraManager F Frame := fold_left apply ops (init camera_index) in
  roboflow_enabled m = last_roboflow ops false /\
  qr_enabled m = last_qr ops true.
Proof.
  cbv zeta.
  destruct (manager_sync_kept ops (init camera_index)) as (Hsync & Hr & Hq).
  { intros w [=]. }
  cbv zeta in *. unfold roboflow_enabled, qr_enabled.
  destruct (_worker (fold_left apply ops (init camera_index))) as [w|] eqn:Hw.
  - destruct (Hsync w eq_refl) as [Hwr Hwq]. rewrite Hwr, Hwq, Hr, Hq. auto.
  - rewrite Hr, Hq. auto.
Qed.

(** The smoothing factor is not kept like the toggles.  A factor set while
    no worker exists is dropped, and a stop and start of the camera gives a
    worker with the factor 0.6, no stored marker box and no classifier
    detection, whatever was set or detected before; the two toggles carry
    over. *)
Theorem restart_forgets_smoothing m (value : F) :
  let restarted := start (set_smoothing_alpha (stop m) value) in
  smoothing_alpha restarted = div (of_int 6) (of_int 10) /\
  roboflow_enabled restarted = _roboflow_enabled m /\
  qr_enabled restarted = _qr_enabled m /\
  exists w,
    _worker restarted = Some w /\
    Smoothing._smoothed_box (CameraManager._smoother w) = None /\
    Smoothing._last_payload (CameraManager._smoother w) = None /\
    CameraManager._classification_detected w = false /\
    CameraManager._classification_bbox w = None /\
    CameraManager._roboflow_queue w = [].
Proof.
  cbv zeta. unfold stop, set_smoothing_alpha, start.
  destruct (_worker m) as [w0|] eqn:Hw; cbn; rewrite ?Hw; cbn;
    destruct (_roboflow_enabled m), (_qr_enabled m); cbn;
    repeat split; eexists; repeat split.
Qed.

End ManagerProperties.

Section SliderProperties.
Import Manager.
Local Open Scope float_scope.

Lemma slider_positions_in_range (n : nat) :
  (n <= 100)%nat ->
  SmoothingMore.py_max (of_int 0) (SmoothingMore.py_min (of_int 1)
    (Controls.slider_value (F := float) (Z.of_nat n))) =
  Controls.slider_value (Z.of_nat n).
Proof.
  intros Hn.
  do 101 (destruct n as [|n]; [vm_compute; reflexivity|]).
  lia.
Qed.

(** Every position of the smoothing slider (0 to 100) reaches the smoother
    of the running worker as [position / 100.0], unchanged by the clamp of
    the setter. *)
Theorem slider_position_is_stored {Frame : Type} (a : App.App float Frame)
        (w : CameraManager.CameraWorker float Frame) (position : Z) :
  _worker (App._camera a) = Some w ->
  (0 <= position <= 100)%Z ->
  smoothing_alpha
    (App._camera (App._on_smoothing_changed a (Controls.slider_value position)))
  = Controls.slider_value position.
Proof.
  intros Hw Hpos. unfold App._on_smoothing_changed. cbn [App._camera].
  unfold smoothing_alpha, set_smoothing_alpha. rewrite Hw. cbn [_worker].
  unfold worker_smoothing_alpha, worker_set_smoothing_alpha, SmoothingMore.alpha,
    SmoothingMore.set_alpha.
  cbn [CameraManager._smoother CameraManager.with_smoother Smoothing.smoothing_alpha].
  rewrite <- (Z2Nat.id position) by lia.
  apply slider_positions_in_range. lia.
Qed.

End SliderProperties.

Section TrackingProperties.
Import Controls.

Lemma rows_from_app (first : Z) (l1 l2 : list Sample) :
  rows_from first (l1 ++ l2) =
  (rows_from first l1 ++ rows_from (first + Z.of_nat (List.length l1)) l2)%list.
Proof.
  revert first. induction l1 as [|s l1 IH]; intros first.
  - cbn. f_equal. lia.
  - cbn [app rows_from List.length]. rewrite IH. cbn [app]. do 3 f_equal. lia.
Qed.

(** With a target that is not 0, a call of [record_frame] returns and
    leaves the target as it is. *)
Lemma record_frame_returns b (now : string) (distance : Z) (robot qr : bool) :
  _target_frames b <> 0 ->
  fst (record_frame b now distance robot qr) = Py.ret tt /\
  _target_frames (snd (record_frame b now distance robot qr)) = _target_frames b.
Proof.
  intros Htarget. unfold record_frame, _update_progress.
  destruct (_is_tracking b); cbn; [|auto].
  destruct (Z.eqb_spec (_target_frames b) 0) as [Hz|_]; [contradiction|].
  destruct (_current_frame b + 1 >=? _target_frames b); cbn; [|auto].
  unfold stop_tracking, _save_data. cbn.
  destruct (_data b ++ _)%list; cbn; auto.
Qed.

(** While the target is not reached, recording only appends. *)
Lemma record_below_target (samples : list Sample) : forall b,
  _is_tracking b = true ->
  _target_frames b <> 0 ->
  _current_frame b + Z.of_nat (List.length samples) < _target_frames b ->
  fold_left record samples b =
  mkTrackingButton true (_target_frames b)
    (_current_frame b + Z.of_nat (List.length samples))
    (_data b ++ rows_from (_current_frame b) samples) (saved b).
Proof.
  induction samples as [|s samples IH]; intros b Ht Htarget Hlt.
  - cbn. rewrite Z.add_0_r, app_nil_r. destruct b; cbn in *. subst. reflexivity.
  - cbn [fold_left List.length] in *. rewrite Nat2Z.inj_succ in *.
    assert (Hrec : record b s =
              mkTrackingButton true (_target_frames b) (_current_frame b + 1)
                (_data b ++ [mkRow (_current_frame b) (now s) (distance s) (robot s) (qr s)])
                (saved b)).
    { unfold record, record_frame, _update_progress. rewrite Ht. cbn.
      destruct (Z.eqb_spec (_target_frames b) 0) as [Hz|_]; [contradiction|].
      destruct (Z.geb_spec (_current_frame b + 1) (_target_frames b)); [lia|].
      reflexivity. }
    rewrite Hrec, IH by (cbn; first [reflexivity | assumption | lia]).
    cbn [_target_frames _current_frame _data saved rows_from].
    rewrite <- app_assoc. cbn [app]. f_equal. lia.
Qed.

(** The sample that reaches the target ends the session and writes it out. *)
Lemma record_reaches_target b (s : Sample) :
  _is_tracking b = true ->
  _target_frames b <> 0 ->
  _target_frames b <= _current_frame b + 1 ->
  record b s =
  mkTrackingButton false (_target_frames b) (_current_frame b + 1)
    (_data b ++ [mkRow (_current_frame b) (now s) (distance s) (robot s) (qr s)])
    (saved b ++
     [_data b ++ [mkRow (_current_frame b) (now s) (distance s) (robot s) (qr s)]]).
Proof.
  intros Ht Htarget Hge. unfold record, record_frame, _update_progress. rewrite Ht. cbn.
  destruct (Z.eqb_spec (_target_frames b) 0) as [Hz|_]; [contradiction|].
  destruct (Z.geb_spec (_current_frame b + 1) (_target_frames b)); [|lia].
  unfold stop_tracking, _save_data. cbn.
  destruct (_data b); reflexivity.
Qed.

Lemma record_not_tracking (samples : list Sample) : forall b,
  _is_tracking b = false -> fold_left record samples b = b.
Proof.
  induction samples as [|s samples IH]; intros b Ht; [reflexivity|].
  cbn [fold_left]. unfold record at 2, record_frame. rewrite Ht. cbn.
  apply IH, Ht.
Qed.

(** With a target that is not 0 no call raises. *)
Lemma record_all_returns (samples : list Sample) : forall b,
  _target_frames b <> 0 ->
  record_all b samples = (Py.ret tt, fold_left record samples b).
Proof.
  induction samples as [|s samples IH]; intros b Htarget; [reflexivity|].
  cbn [record_all fold_left]. unfold record at 2.
  destruct (record_frame_returns b (now s) (distance s) (robot s) (qr s) Htarget)
    as [Hret Hkeep].
  destruct (record_frame b (now s) (distance s) (robot s) (qr s)) as [[e|[]] b1];
    cbn in *; [discriminate Hret|].
  apply IH. rewrite Hkeep. exact Htarget.
Qed.

(** A tracking session.  For a target that is not 0, [start_tracking] and
    the calls of [record_frame] after it return, and the calls are stored
    as rows numbered from 0; the call that brings the count to
    [target_frames] (the first call when the target is negative) ends the
    session by itself and writes exactly one file, holding the rows
    recorded up to there; the calls that follow are dropped.  For a target
    of 0, [start_tracking] raises [ZeroDivisionError] and leaves the button
    tracking. *)
Theorem tracking_session b (samples : list Sample) :
  (_target_frames b <> 0 ->
   let target := Z.to_nat (Z.max 1 (_target_frames b)) in
   let b' := fold_left record samples (snd (start_tracking b)) in
   fst (start_tracking b) = Py.ret tt /\
   record_all (snd (start_tracking b)) samples = (Py.ret tt, b') /\
   if (List.length samples <? target)%nat
   then _is_tracking b' = true /\
        _data b' = rows_from 0 samples /\
        saved b' = saved b
   else _is_tracking b' = false /\
        _data b' = rows_from 0 (firstn target samples) /\
        saved b' = (saved b ++ [rows_from 0 (firstn target samples)])%list) /\
  (_target_frames b = 0 ->
   fst (start_tracking b) = Py.raise Py.ZeroDivisionError /\
   _is_tracking (snd (start_tracking b)) = true).
Proof.
  split.
  2:{ intros Hz. unfold start_tracking, _update_progress. cbn. rewrite Hz. auto. }
  intros Htarget. cbv zeta.
  set (target := Z.to_nat (Z.max 1 (_target_frames b))).
  set (started := snd (start_tracking b)).
  assert (Hstarted : started = mkTrackingButton true (_target_frames b) 0 [] (saved b))
    by reflexivity.
  split.
  { unfold start_tracking, _update_progress. cbn.
    destruct (Z.eqb_spec (_target_frames b) 0); [contradiction|reflexivity]. }
  split.
  { apply record_all_returns. rewrite Hstarted. exact Htarget. }
  rewrite Hstarted.
  destruct (Nat.ltb_spec (List.length samples) target) as [Hlt|Hge].
  - destruct samples as [|s samples].
    + cbn. auto.
    + rewrite record_below_target; [cbn; auto| reflexivity | exact Htarget |].
      cbn [_current_frame _target_frames List.length] in *.
      subst target. lia.
  - assert (Htpos : (1 <= target)%nat) by (subst target; lia).
    assert (Hlen : List.length (firstn target samples) = target).
    { rewrite length_firstn. lia. }
    assert (Hne : firstn target samples <> []).
    { intros H. rewrite H in Hlen. cbn in Hlen. lia. }
    destruct (exists_last Hne) as (first & s0 & Hfirst).
    rewrite Hfirst in *. rewrite length_app in Hlen. cbn [List.length] in Hlen.
    assert (Hbelow : fold_left record first
                       (mkTrackingButton true (_target_frames b) 0 [] (saved b)) =
              mkTrackingButton true (_target_frames b) (Z.of_nat (List.length first))
                               (rows_from 0 first) (saved b)).
    { destruct first as [|s1 first1].
      - reflexivity.
      - rewrite record_below_target; [reflexivity|reflexivity|exact Htarget|].
        cbn [_current_frame _target_frames List.length] in *.
        subst target. lia. }
    assert (Hend : fold_left record samples
                     (mkTrackingButton true (_target_frames b) 0 [] (saved b)) =
              mkTrackingButton false (_target_frames b)
                (Z.of_nat (List.length first) + 1)
                (rows_from 0 (first ++ [s0]))
                (saved b ++ [rows_from 0 (first ++ [s0])])).
    { rewrite <- (firstn_skipn target samples), Hfirst.
      rewrite !fold_left_app. cbn [fold_left].
      rewrite Hbelow, record_reaches_target.
      2:{ reflexivity. }
      2:{ exact Htarget. }
      2:{ cbn [_target_frames _current_frame]. subst target. lia. }
      rewrite record_not_tracking by reflexivity.
      cbn [_target_frames _current_frame _data saved].
      rewrite rows_from_app. cbn [rows_from]. rewrite Z.add_0_l. reflexivity. }
    rewrite Hend. cbn. auto.
Qed.

End TrackingProperties.

(* ================================================================== *)
(** * The distance sensor's sliding minimum *)

Section SensorProperties.
Import DistanceSensor.

Lemma py_min_list_le (rest : list Z) : forall first,
  py_min_list first rest <= first /\
  (forall x, In x rest -> py_min_list first rest <= x) /\
  In (py_min_list first rest) (first :: rest).
Proof.
  induction rest as [|a rest IH]; intros first.
  - cbn. split; [lia|]. split; [intros x []|auto].
  - unfold py_min_list in *. cbn [fold_left].
    destruct (Z.ltb_spec a first) as [Hlt|Hge].
    + destruct (IH a) as (Hle & Hall & Hin). split; [lia|]. split.
      * intros x [<-|Hx]; [exact Hle|apply Hall, Hx].
      * right. exact Hin.
    + destruct (IH first) as (Hle & Hall & Hin). split; [lia|]. split.
      * intros x [<-|Hx]; [lia|apply Hall, Hx].
      * destruct Hin as [Hin|Hin]; [left; exact Hin|right; right; exact Hin].
Qed.

Lemma least_spec (l : list Z) :
  l <> [] -> In (least l) l /\ forall x, In x l -> least l <= x.
Proof.
  destruct l as [|first rest]; [contradiction|]. intros _. cbn [least].
  destruct (py_min_list_le rest first) as (Hle & Hall & Hin).
  split; [exact Hin|]. intros x [<-|Hx]; [exact Hle|apply Hall, Hx].
Qed.

Lemma skipn_S_tl {A} (n : nat) : forall l : list A,
  skipn (S n) l = tl (skipn n l).
Proof.
  induction n as [|n IH]; intros l.
  - destruct l; reflexivity.
  - destruct l as [|a l]; [reflexivity|]. cbn [skipn] in *. apply IH.
Qed.

(** The deque keeps the last five distances. *)
Lemma deque_append_lastn (pre : list Z) (d : Z) :
  deque_append 5 (lastn 5 pre) d = lastn 5 (pre ++ [d]).
Proof.
  unfold deque_append, lastn. rewrite length_skipn, length_app. cbn [List.length].
  destruct (Z.geb_spec (Z.of_nat (List.length pre - (List.length pre - 5))) 5)
    as [Hge|Hlt].
  - assert (Hlen : (5 <= List.length pre)%nat) by lia.
    replace (List.length pre + 1 - 5)%nat with (S (List.length pre - 5)) by lia.
    rewrite skipn_S_tl, skipn_app.
    replace (List.length pre - 5 - List.length pre)%nat with 0%nat by lia.
    reflexivity.
  - assert (Hlen : (List.length pre < 5)%nat) by lia.
    replace (List.length pre - 5)%nat with 0%nat by lia.
    replace (List.length pre + 1 - 5)%nat with 0%nat by lia.
    reflexivity.
Qed.

Lemma lastn_snoc_nonempty (pre : list Z) (d : Z) : lastn 5 (pre ++ [d]) <> [].
Proof.
  unfold lastn. intros H. apply (f_equal (@List.length Z)) in H.
  rewrite length_skipn, length_app in H. cbn in H. lia.
Qed.

(** The values emitted, given the distances [pre] that came before. *)
Lemma read_loop_emitted (lines : list (option (list Z))) : forall pre,
  snd (read_loop (mkDistanceSensor 5 (lastn 5 pre)) lines) =
  map (fun k => least (lastn 5 (pre ++ firstn (S k) (distances lines))))
      (seq 0 (List.length (distances lines))).
Proof.
  induction lines as [|line lines IH]; intros pre; [reflexivity|].
  cbn [read_loop]. unfold read_turn.
  destruct line as [values|].
  2:{ cbn [distances flat_map app]. fold (distances lines).
      specialize (IH pre). destruct (read_loop _ lines) as [s2 outs]. exact IH. }
  cbn [distances flat_map]. fold (distances lines).
  destruct (nth_error values 5) as [d|].
  2:{ cbn [app]. specialize (IH pre). destruct (read_loop _ lines) as [s2 outs].
      exact IH. }
  cbn [window_size window_buffer]. rewrite deque_append_lastn.
  pose proof (lastn_snoc_nonempty pre d) as Hne.
  destruct (lastn 5 (pre ++ [d])) as [|first rest] eqn:Hbuf; [contradiction|].
  rewrite <- Hbuf. specialize (IH (pre ++ [d])%list).
  destruct (read_loop _ lines) as [s2 outs]. cbn [snd] in *.
  cbn [app List.length]. rewrite <- cons_seq, <- seq_shift. cbn [map].
  rewrite map_map. f_equal.
  - cbn [firstn]. rewrite Hbuf. reflexivity.
  - rewrite IH. apply map_ext. intros k. rewrite <- app_assoc. reflexivity.
Qed.

(** What lies in the window that ends at position [k]. *)
Lemma window_members (ds : list Z) (k : nat) (x : Z) :
  (k < List.length ds)%nat ->
  In x (lastn 5 (firstn (S k) ds)) <->
  exists j, (j <= k)%nat /\ (k - j < 5)%nat /\ nth j ds 0 = x.
Proof.
  intros Hk. unfold lastn.
  assert (Hlen : List.length (firstn (S k) ds) = S k) by (rewrite length_firstn; lia).
  rewrite Hlen. split.
  - intros Hin. apply (In_nth _ _ 0) in Hin. destruct Hin as (i & Hi & Hnth).
    rewrite length_skipn, Hlen in Hi. rewrite nth_skipn, nth_firstn in Hnth.
    destruct (Nat.ltb_spec (S k - 5 + i) (S k)); [|lia].
    exists (S k - 5 + i)%nat. split; [lia|]. split; [lia|exact Hnth].
  - intros (j & Hj & Hwin & Hnth).
    replace j with ((S k - 5) + (j - (S k - 5)))%nat in Hnth by lia.
    assert (Hx : nth (j - (S k - 5)) (skipn (S k - 5) (firstn (S k) ds)) 0 = x).
    { rewrite nth_skipn, nth_firstn.
      destruct (Nat.ltb_spec (S k - 5 + (j - (S k - 5))) (S k)); [exact Hnth|lia]. }
    rewrite <- Hx. apply nth_In. rewrite length_skipn, Hlen. lia.
Qed.

(** The distance the sensor emits is the least of the last five distances
    read (of all of them while fewer than five were read): one value is
    emitted per line that carries a distance, it is one of the distances in
    that window and none of them is below it.  Lines without a distance
    emit nothing and leave the window alone. *)
Theorem sensor_emits_window_minimum (lines : list (option (list Z))) (k : nat) :
  let ds := distances lines in
  let emitted := snd (read_loop init lines) in
  List.length emitted = List.length ds /\
  ((k < List.length ds)%nat ->
   (exists j, (j <= k)%nat /\ (k - j < 5)%nat /\ nth k emitted 0 = nth j ds 0) /\
   (forall j, (j <= k)%nat -> (k - j < 5)%nat -> nth k emitted 0 <= nth j ds 0)).
Proof.
  cbv zeta.
  pose proof (read_loop_emitted lines []) as Hem. cbn [app] in Hem.
  change (mkDistanceSensor 5 (lastn 5 [])) with init in Hem.
  rewrite Hem. split; [rewrite length_map, length_seq; reflexivity|].
  intros Hk.
  set (f := fun k => least (lastn 5 (firstn (S k) (distances lines)))).
  assert (Hnth : nth k (map f (seq 0 (List.length (distances lines)))) 0 = f k).
  { rewrite (nth_indep _ 0 (f 0%nat)) by (rewrite length_map, length_seq; exact Hk).
    rewrite map_nth, seq_nth by exact Hk. reflexivity. }
  rewrite Hnth. unfold f.
  assert (Hne : lastn 5 (firstn (S k) (distances lines)) <> []).
  { unfold lastn. intros H. apply (f_equal (@List.length Z)) in H.
    rewrite length_skipn, length_firstn in H. cbn [List.length] in H. lia. }
  destruct (least_spec _ Hne) as [Hin Hall]. split.
  - apply window_members in Hin; [|exact Hk].
    destruct Hin as (j & Hj & Hw & Hx). exists j. auto.
  - intros j Hj Hw. apply Hall. apply window_members; [exact Hk|].
    exists j. auto.
Qed.

(** The sensor and the gate together.  When the window shows the value the
    sensor emitted for position [k], the far override applies to a frame
    exactly when every distance of the last five read exceeds the
    threshold; one reading at or under the threshold in the window hands
    the decision to the vision gate. *)
Theorem far_override_needs_whole_window {F Frame : Type}
        (lines : list (option (list Z))) (k : nat) (m : MainWindow.MainWindow)
        (frame_data : CameraManager.FrameData F Frame) :
  let ds := distances lines in
  let emitted := snd (read_loop init lines) in
  let m' := MainWindow._on_distance_updated m (nth k emitted 0) in
  (k < List.length ds)%nat ->
  ((forall j, (j <= k)%nat -> (k - j < 5)%nat ->
      nth j ds 0 > MainWindow._distance_threshold m) ->
   MainWindow.shown (MainWindow._on_frame_ready m' frame_data) = true) /\
  ((exists j, (j <= k)%nat /\ (k - j < 5)%nat /\
      nth j ds 0 <= MainWindow._distance_threshold m) ->
   MainWindow.shown (MainWindow._on_frame_ready m' frame_data) =
     CameraManager.can_continue_moving frame_data).
Proof.
  cbv zeta. intros Hk.
  pose proof (read_loop_emitted lines []) as Hem. cbn [app] in Hem.
  change (mkDistanceSensor 5 (lastn 5 [])) with init in Hem.
  set (f := fun k => least (lastn 5 (firstn (S k) (distances lines)))) in Hem.
  assert (Hnth : nth k (snd (read_loop init lines)) 0 = f k).
  { rewrite Hem.
    rewrite (nth_indep _ 0 (f 0%nat)) by (rewrite length_map, length_seq; exact Hk).
    rewrite map_nth, seq_nth by exact Hk. reflexivity. }
  assert (Hne : lastn 5 (firstn (S k) (distances lines)) <> []).
  { unfold lastn. intros H. apply (f_equal (@List.length Z)) in H.
    rewrite length_skipn, length_firstn in H. cbn [List.length] in H. lia. }
  destruct (least_spec _ Hne) as [Hin Hall]. fold (f k) in Hin, Hall.
  unfold MainWindow.shown, MainWindow._on_frame_ready, MainWindow._on_distance_updated.
  cbn [MainWindow._safety_banner MainWindow._current_distance
       MainWindow._distance_threshold].
  rewrite !set_can_continue_shows, Hnth.
  split.
  - intros Hfar. apply window_members in Hin; [|exact Hk].
    destruct Hin as (j & Hj & Hw & Hx). specialize (Hfar j Hj Hw).
    destruct (Z.gtb_spec (f k) (MainWindow._distance_threshold m)); [reflexivity|lia].
  - intros (j & Hj & Hw & Hnear).
    assert (Hle : f k <= nth j (distances lines) 0).
    { apply Hall, window_members; [exact Hk|]. exists j. auto. }
    destruct (Z.gtb_spec (f k) (MainWindow._distance_threshold m)); [lia|reflexivity].
Qed.

End SensorProperties.

(* ================================================================== *)
(** * The classifier client and the marker detector on their inputs *)

Section ClientProperties.
Context {F : Type} {num : Number F}.
Context {Frame : Type} {img : Image Frame}.
Import RoboflowClient.

Lemma find_target_class (predictions : list (Prediction F)) det :
  find_target predictions = Some det ->
  class_name det = Config.ROBOFLOW_TARGET_CLASS.
Proof.
  induction predictions as [|pred rest IH]; [discriminate|].
  cbn [find_target]. destruct (pred_class pred) as [c|]; [|exact IH].
  destruct (String.eqb_spec c Config.ROBOFLOW_TARGET_CLASS) as [->|_]; [|exact IH].
  intros [= <-]. reflexivity.
Qed.

Lemma parse_response_outputs (outs : list (list (Prediction F))) (h wd : Z) :
  _parse_response (Outputs outs) (h, wd) = inr (parsed outs h wd).
Proof.
  unfold _parse_response, parsed. destruct outs as [|predictions others]; [reflexivity|].
  destruct (find_target predictions); reflexivity.
Qed.

Lemma parsed_wellformed (outs : list (list (Prediction F))) (h wd : Z) :
  detected (parsed outs h wd) = CameraManager.is_some (detection (parsed outs h wd)) /\
  (forall det, detection (parsed outs h wd) = Some det ->
     class_name det = Config.ROBOFLOW_TARGET_CLASS) /\
  image_width (parsed outs h wd) = wd /\
  image_height (parsed outs h wd) = h.
Proof.
  unfold parsed. destruct outs as [|predictions others].
  { cbn. repeat split. discriminate. }
  destruct (find_target predictions) as [det|] eqn:Hfind; cbn; repeat split;
    try discriminate.
  intros det' [= <-]. apply (find_target_class _ _ Hfind).
Qed.

(** The log line raises nothing but an [Exception], and lets a detection
    through only when its confidence and centre are numbers. *)
Lemma log_result_outcome (r : RoboflowResult F) :
  match log_result r with
  | inl e => Py.is_Exception e = true
  | inr _ =>
      forall det, detected r = true -> detection r = Some det ->
        exists c cx cy, confidence det = Num c /\ x det = Num cx /\ y det = Num cy
  end.
Proof.
  unfold log_result. destruct (detected r); [|intros det [=]].
  destruct (detection r) as [det|]; [|reflexivity].
  destruct (confidence det) as [c| |sc] eqn:Hc; cbn; try reflexivity.
  destruct (x det) as [cx| |sx] eqn:Hx; cbn; try reflexivity.
  destruct (y det) as [cy| |sy] eqn:Hy; cbn; try reflexivity.
  intros det' _ [= <-]. exists c, cx, cy. auto.
Qed.

Lemma raise_for_status_outcome (response : HttpResponse F) :
  raise_for_status response =
  if (400 <=? status_code response) && (status_code response <? 600)
  then inl (Py.HTTPError (status_code response)) else inr tt.
Proof. unfold raise_for_status. destruct (_ && _); reflexivity. Qed.

(** The [try] block of [detect], by the reply. *)
Lemma detect_try_reply (frame : Frame) (response : HttpResponse F) (body : Response F) :
  json response = inr body ->
  raise_for_status response = inr tt ->
  detect_try frame (inr response) =
  match body with
  | Outputs outs =>
      let r := parsed outs (fst (shape frame)) (snd (shape frame)) in
      match log_result r with
      | inl e => inl e
      | inr _ => inr r
      end
  | IllShaped e =>
      if Py.is_parse_error e
      then inr (no_detection (snd (shape frame)) (fst (shape frame)))
      else inl e
  end.
Proof.
  intros Hjson Hstatus. unfold detect_try. cbn [Py.bind].
  rewrite Hstatus. cbn [Py.bind]. rewrite Hjson. cbn [Py.bind].
  destruct (shape frame) as [h wd]. cbn [fst snd].
  destruct body as [outs|e].
  - rewrite parse_response_outputs. cbn [Py.bind].
    destruct (log_result (parsed outs h wd)) as [e|[]]; reflexivity.
  - unfold _parse_response. cbn.
    destruct (Py.is_parse_error e); reflexivity.
Qed.

Lemma no_detection_wellformed (h wd : Z) :
  detected (no_detection (F := F) wd h) =
    CameraManager.is_some (detection (no_detection (F := F) wd h)) /\
  (forall det, detection (no_detection (F := F) wd h) = Some det ->
     class_name det = Config.ROBOFLOW_TARGET_CLASS /\
     exists c cx cy, confidence det = Num c /\ x det = Num cx /\ y det = Num cy) /\
  image_width (no_detection (F := F) wd h) = wd /\
  image_height (no_detection (F := F) wd h) = h.
Proof. cbn. repeat split; discriminate. Qed.

(** What [RoboflowClient.detect] can give back.  Whatever the key, the
    frame and the outcome of the call, a result says [detected] exactly when
    it carries a detection; a detection is always of the target class and
    its confidence and centre are numbers (a reply where one of them is
    [null] or a string is turned into "no detection" by the log line); the
    image size is that of the frame; without an API key the result is "no
    detection" whatever the call would have given; and the only way out by
    an exception is one that is not an [Exception], raised by the call, by
    [response.json()] or while reading the body. *)
Theorem detect_result_wellformed (api_key : option string) (frame : Frame)
        (post : Py.py (HttpResponse F)) :
  match detect api_key frame post with
  | inl e =>
      Py.is_Exception e = false /\
      (post = inl e \/
       exists response, post = inr response /\
         (json response = inl e \/ json response = inr (IllShaped e)))
  | inr r =>
      detected r = CameraManager.is_some (detection r) /\
      (forall det, detection r = Some det ->
         class_name det = Config.ROBOFLOW_TARGET_CLASS /\
         exists c cx cy, confidence det = Num c /\ x det = Num cx /\ y det = Num cy) /\
      image_width r = snd (shape frame) /\
      image_height r = fst (shape frame) /\
      (truthy_str api_key = false ->
         r = no_detection (snd (shape frame)) (fst (shape frame)))
  end.
Proof.
  destruct (truthy_str api_key) eqn:Hkey.
  2:{ rewrite detect_without_key by exact Hkey. unfold Py.ret.
      destruct (no_detection_wellformed (fst (shape frame)) (snd (shape frame)))
        as (H1 & H2 & H3 & H4).
      repeat split; auto; apply H2; assumption. }
  rewrite detect_by_body by exact Hkey.
  assert (Hnone :
            let r := no_detection (F := F) (snd (shape frame)) (fst (shape frame)) in
            detected r = CameraManager.is_some (detection r) /\
            (forall det, detection r = Some det ->
               class_name det = Config.ROBOFLOW_TARGET_CLASS /\
               exists c cx cy,
                 confidence det = Num c /\ x det = Num cx /\ y det = Num cy) /\
            image_width r = snd (shape frame) /\
            image_height r = fst (shape frame) /\
            (true = false -> r = r)).
  { cbv zeta.
    destruct (no_detection_wellformed (fst (shape frame)) (snd (shape frame)))
      as (H1 & H2 & H3 & H4).
    repeat split; auto; apply H2; assumption. }
  cbv zeta in Hnone.
  destruct post as [e|response].
  { unfold detect_try. cbn [Py.bind].
    destruct (Py.is_Exception e) eqn:He; [exact Hnone|].
    split; [exact He|]. left. reflexivity. }
  destruct (raise_for_status response) as [e|[]] eqn:Hstatus.
  { assert (Htry : detect_try frame (inr response) = inl e).
    { unfold detect_try. cbn [Py.bind]. rewrite Hstatus. reflexivity. }
    rewrite Htry. rewrite raise_for_status_outcome in Hstatus.
    destruct (_ && _); [|discriminate Hstatus]. injection Hstatus as <-.
    exact Hnone. }
  destruct (json response) as [e|body] eqn:Hjson.
  { assert (Htry : detect_try frame (inr response) = inl e).
    { unfold detect_try. cbn [Py.bind]. rewrite Hstatus. cbn [Py.bind].
      rewrite Hjson. reflexivity. }
    rewrite Htry. destruct (Py.is_Exception e) eqn:He; [exact Hnone|].
    split; [exact He|]. right. exists response. auto. }
  rewrite (detect_try_reply frame response body Hjson Hstatus).
  destruct body as [outs|e].
  - cbv zeta.
    pose proof (log_result_outcome
                  (parsed outs (fst (shape frame)) (snd (shape frame)))) as Hlog.
    destruct (log_result (parsed outs (fst (shape frame)) (snd (shape frame))))
      as [e|[]].
    + rewrite Hlog. exact Hnone.
    + destruct (parsed_wellformed outs (fst (shape frame)) (snd (shape frame)))
        as (H1 & H2 & H3 & H4).
      split; [exact H1|]. split.
      { intros det Hdet. split; [apply H2, Hdet|]. apply Hlog; [|exact Hdet].
        rewrite H1, Hdet. reflexivity. }
      split; [exact H3|]. split; [exact H4|]. discriminate.
  - destruct (Py.is_parse_error e) eqn:Hparse.
    + exact Hnone.
    + destruct (Py.is_Exception e) eqn:He; [exact Hnone|].
      split; [exact He|]. right. exists response. auto.
Qed.

End ClientProperties.

Section DecoderProperties.
Context {F : Type} {num : Number F}.
Context {Frame : Type} {img : Image Frame}.
Import CameraManager.

Lemma first_target_payload (decoded : list Pyzbar.Decoded) (d : Smoothing.DetectedQR F) :
  first_target decoded = Py.ret (Some d) ->
  Smoothing.payload d = TARGET_PAYLOAD.
Proof.
  induction decoded as [|qr rest IH]; [discriminate|].
  cbn [first_target]. destruct (Pyzbar.data qr) as [s|]; cbn; [|discriminate].
  destruct (String.eqb_spec s TARGET_PAYLOAD) as [->|_]; [|exact IH].
  intros [= <-]. reflexivity.
Qed.

Lemma first_target_skips (pre : list Pyzbar.Decoded) (rest : list Pyzbar.Decoded) :
  (forall q, In q pre ->
     exists s, Pyzbar.data q = Some s /\ s <> TARGET_PAYLOAD) ->
  first_target (F := F) (pre ++ rest) = first_target rest.
Proof.
  induction pre as [|q pre IH]; intros Hpre; [reflexivity|].
  cbn [app first_target].
  destruct (Hpre q (or_introl eq_refl)) as (s & Hs & Hne). rewrite Hs. cbn.
  destruct (String.eqb_spec s TARGET_PAYLOAD) as [Heq|_]; [contradiction|].
  apply IH. intros q' Hin. apply Hpre. right. exact Hin.
Qed.

(** The marker detector on what the decoder returns.  A detection it gives
    back always has the payload [ROBOT_R1]; the first symbol with that
    payload wins, its rectangle scaled back by [1 / QR_DETECTION_SCALE], and
    nothing after it is looked at; symbols with other payloads before it are
    skipped; but a symbol before it whose bytes are not UTF-8 makes
    [_detect_qr] raise [UnicodeDecodeError], target present or not. *)
Theorem detect_qr_first_target (decode : Frame -> Py.py (list Pyzbar.Decoded))
        (frame : Frame) (pre post : list Pyzbar.Decoded) (qr : Pyzbar.Decoded) :
  decode frame = Py.ret (pre ++ qr :: post) ->
  (forall q, In q pre ->
     exists s, Pyzbar.data q = Some s /\ s <> TARGET_PAYLOAD) ->
  (forall d, _detect_qr (F := F) decode frame = Py.ret (Some d) ->
     Smoothing.payload d = TARGET_PAYLOAD) /\
  (Pyzbar.data qr = Some TARGET_PAYLOAD ->
   _detect_qr decode frame =
     Py.ret (Some (Smoothing.mkDetectedQR TARGET_PAYLOAD
       (let scale_inv := div (of_int 1) QR_DETECTION_SCALE in
        Smoothing.mkBoundingBox
          (mul (of_int (Pyzbar.left (Pyzbar.rect qr))) scale_inv)
          (mul (of_int (Pyzbar.top (Pyzbar.rect qr))) scale_inv)
          (mul (of_int (Pyzbar.width (Pyzbar.rect qr))) scale_inv)
          (mul (of_int (Pyzbar.height (Pyzbar.rect qr))) scale_inv))))) /\
  (Pyzbar.data qr = None ->
   _detect_qr (F := F) decode frame = Py.raise Py.UnicodeDecodeError).
Proof.
  intros Hdec Hpre. unfold _detect_qr. unfold Py.ret in Hdec. rewrite Hdec.
  cbn [Py.bind]. split; [|split].
  - intros d. apply first_target_payload.
  - intros Hqr. rewrite first_target_skips by exact Hpre.
    cbn [first_target]. rewrite Hqr. cbn. reflexivity.
  - intros Hqr. rewrite first_target_skips by exact Hpre.
    cbn [first_target]. rewrite Hqr. reflexivity.
Qed.

End DecoderProperties.

(* ================================================================== *)
(** * Padding of a box, without rounding *)

Section PaddingProperties.
Import Smoothing SmoothingMore.
Local Open Scope R_scope.

(** In exact arithmetic, [with_padding] keeps the centre of the box and
    makes width and height [1 + 2 * padding_ratio] times as large; for a
    ratio and sizes that are not negative, the padded box contains the
    box. *)
Theorem with_padding_keeps_centre (b : BoundingBox R) (ratio : R) :
  let p := with_padding b ratio in
  center_x p = center_x b /\
  center_y p = center_y b /\
  width p = width b * (1 + 2 * ratio) /\
  height p = height b * (1 + 2 * ratio) /\
  (0 <= ratio -> 0 <= width b -> 0 <= height b ->
   x p <= x b /\ y p <= y b /\
   x b + width b <= x p + width p /\
   y b + height b <= y p + height p).
Proof.
  cbv zeta. unfold center_x, center_y, with_padding. cbn.
  repeat split; try field; intros.
  - assert (0 <= width b * ratio) by (apply Rmult_le_pos; assumption). lra.
  - assert (0 <= height b * ratio) by (apply Rmult_le_pos; assumption). lra.
  - assert (0 <= width b * ratio) by (apply Rmult_le_pos; assumption). lra.
  - assert (0 <= height b * ratio) by (apply Rmult_le_pos; assumption). lra.
Qed.

End PaddingProperties.

(* ================================================================== *)
(** * The tracking log and its visualisation *)

Section VisualizeProperties.
Context {F : Type} {num : Number F} {ord : NumberOrder F}.
Context {Frame : Type} {img : Image Frame}.

Lemma record_frame_data (b : Controls.TrackingButton) (now : string) (distance : Z)
      (robot qr : bool) :
  Controls._is_tracking b = true ->
  Controls._data (snd (Controls.record_frame b now distance robot qr)) =
  (Controls._data b ++
   [Controls.mkRow (Controls._current_frame b) now distance robot qr])%list.
Proof.
  intros Ht. unfold Controls.record_frame. rewrite Ht. cbn [negb].
  destruct (Controls._update_progress _) as [e|[]]; [reflexivity|].
  cbn [Controls._current_frame Controls._target_frames].
  destruct (Controls._current_frame b + 1 >=? Controls._target_frames b);
    [|reflexivity].
  unfold Controls.stop_tracking, Controls._save_data.
  cbn [Controls._data Controls._is_tracking Controls._target_frames
       Controls._current_frame Controls.saved snd].
  destruct (Controls._data b ++ _)%list; reflexivity.
Qed.

(** A frame result that a turn of [run] published has the gate of its own
    flags. *)
Lemma published_gate_consistent decode (frame : Frame)
      (w : CameraManager.CameraWorker F Frame) (frames_failed : Z)
      frame_data c w' ff' :
  CameraManager.run_iteration decode (Some frame) w frames_failed =
    Py.ret (c, [CameraManager.frame_ready frame_data], w', ff') ->
  CameraManager.roboflow_enabled frame_data = CameraManager._roboflow_enabled w /\
  CameraManager.qr_enabled frame_data = CameraManager._qr_enabled w /\
  CameraManager.can_continue_moving frame_data =
    (if CameraManager.roboflow_enabled frame_data
     then CameraManager.robot_detected frame_data
          && CameraManager.classification_detected frame_data
     else CameraManager.robot_detected frame_data) /\
  (CameraManager.roboflow_enabled frame_data = false ->
   CameraManager.classification_detected frame_data = false).
Proof.
  intros Hit.
  destruct (if CameraManager._qr_enabled w
            then CameraManager._detect_qr decode (flip frame) else Py.ret None)
    as [e|found] eqn:Hfound.
  - exfalso. unfold CameraManager.run_iteration in Hit. rewrite Hfound in Hit.
    discriminate.
  - destruct (run_iteration_frame decode frame w frames_failed found Hfound)
      as (w1 & Hit1 & _).
    rewrite Hit1 in Hit. injection Hit as _ <- _ _.
    cbn [CameraManager.roboflow_enabled CameraManager.qr_enabled
         CameraManager.can_continue_moving CameraManager.robot_detected
         CameraManager.classification_detected].
    destruct (CameraManager._roboflow_enabled w); repeat split; auto; discriminate.
Qed.

(** The visualiser against the live decision.  While a session is tracked,
    each published frame adds one row, numbered by the session's counter,
    to the log.  With both detectors enabled and the threshold at 150, the
    [robot_stops] the visualiser computes for that row is the opposite of
    the decision the window showed for the frame.  With the classifier
    disabled the row records no robot detection, so the visualiser reports
    a stop for every frame that is not farther than 150, whatever the
    window showed. *)
Theorem visualiser_against_live_gate decode (frame : Frame)
        (w w' : CameraManager.CameraWorker F Frame) (frames_failed : Z)
        (frame_data : CameraManager.FrameData F Frame)
        (a : App.App F Frame) (now : string) :
  CameraManager.run_iteration decode (Some frame) w frames_failed =
    Py.ret (CameraManager.Next, [CameraManager.frame_ready frame_data], w', 0) ->
  Controls._is_tracking (App._tracking_button a) = true ->
  let a' := snd (App._on_frame_ready a frame_data now) in
  (Controls._target_frames (App._tracking_button a) <> 0 ->
   fst (App._on_frame_ready a frame_data now) = Py.ret tt) /\
  exists row,
    Controls._data (App._tracking_button a') =
      (Controls._data (App._tracking_button a) ++ [row])%list /\
    Controls.frame row = Controls._current_frame (App._tracking_button a) /\
    Controls.distance_cm row = MainWindow._current_distance (App.window a) /\
    (CameraManager._roboflow_enabled w = true ->
     CameraManager._qr_enabled w = true ->
     MainWindow._distance_threshold (App.window a) = 150 ->
     Visualize.robot_stops [Visualize.of_row row] =
       [negb (MainWindow.shown (App.window a'))]) /\
    (CameraManager._roboflow_enabled w = false ->
     Visualize.robot_stops [Visualize.of_row row] =
       [negb (MainWindow._current_distance (App.window a) >? 150)]).
Proof.
  intros Hit Htrack. cbv zeta.
  destruct (published_gate_consistent _ _ _ _ _ _ _ _ Hit) as (Hr & Hq & Hgate & Hoff).
  unfold App._on_frame_ready. rewrite Htrack.
  pose proof (record_frame_data (App._tracking_button a) now
                (MainWindow._current_distance (App.window a))
                (if CameraManager.roboflow_enabled frame_data
                 then CameraManager.classification_detected frame_data else false)
                (if CameraManager.qr_enabled frame_data
                 then CameraManager.robot_detected frame_data else false) Htrack)
    as Hdata.
  pose proof (record_frame_returns (App._tracking_button a) now
                (MainWindow._current_distance (App.window a))
                (if CameraManager.roboflow_enabled frame_data
                 then CameraManager.classification_detected frame_data else false)
                (if CameraManager.qr_enabled frame_data
                 then CameraManager.robot_detected frame_data else false))
    as Hret.
  destruct (Controls.record_frame _ _ _ _ _) as [res t].
  cbn [fst snd App._tracking_button App.window] in *.
  split; [intros Htarget; apply (Hret Htarget)|].
  eexists. split; [exact Hdata|].
  cbn [Controls.frame Controls.distance_cm].
  split; [reflexivity|]. split; [reflexivity|].
  unfold Visualize.robot_stops, Visualize.of_row.
  cbn [map Visualize.distance_cm Visualize.robot_detected Visualize.qr_detected
       Controls.distance_cm Controls.robot_detected Controls.qr_detected].
  split.
  - intros Hren Hqen Hthr.
    unfold MainWindow.shown, MainWindow._on_frame_ready.
    cbn [MainWindow._safety_banner]. rewrite set_can_continue_shows.
    rewrite Hthr, Hgate, Hr, Hq, Hren, Hqen.
    destruct (MainWindow._current_distance (App.window a) >? 150);
      cbn [orb]; [reflexivity|].
    rewrite andb_comm. reflexivity.
  - intros Hren. rewrite Hr, Hren. cbn [andb]. rewrite orb_false_r. reflexivity.
Qed.

End VisualizeProperties.

(* ================================================================== *)
(** * Opening the camera and leaving [run] *)

Section CaptureProperties.
Context {F : Type} {num : Number F}.
Context {Frame : Type} {img : Image Frame}.
Import Capture.

Lemma open_from_spec (outcome : nat -> attempt) (left : nat) : forall index,
  match open_from outcome index left with
  | (Some k, sleeps) =>
      (index <= k < index + left)%nat /\
      outcome k = OpenedAndRead /\
      (forall j, (index <= j < k)%nat -> outcome j <> OpenedAndRead) /\
      sleeps = (Nat.min k 4 - Nat.min index 4)%nat
  | (None, sleeps) =>
      (forall j, (index <= j < index + left)%nat -> outcome j <> OpenedAndRead) /\
      sleeps = (Nat.min (index + left) 4 - Nat.min index 4)%nat
  end.
Proof.
  induction left as [|left IH]; intros index.
  - cbn. split; [intros j Hj; lia|lia].
  - cbn [open_from]. specialize (IH (S index)).
    destruct (outcome index) eqn:Hout.
    + destruct (open_from outcome (S index) left) as [[k|] sleeps].
      * destruct IH as (Hk & Hok & Hbefore & Hs). split; [lia|]. split; [exact Hok|].
        split.
        -- intros j Hj. destruct (Nat.eq_dec j index) as [->|Hne].
           ++ rewrite Hout. discriminate.
           ++ apply Hbefore. lia.
        -- destruct (Nat.ltb_spec index 4); lia.
      * destruct IH as (Hnone & Hs). split.
        -- intros j Hj. destruct (Nat.eq_dec j index) as [->|Hne].
           ++ rewrite Hout. discriminate.
           ++ apply Hnone. lia.
        -- destruct (Nat.ltb_spec index 4); lia.
    + destruct (open_from outcome (S index) left) as [[k|] sleeps].
      * destruct IH as (Hk & Hok & Hbefore & Hs). split; [lia|]. split; [exact Hok|].
        split.
        -- intros j Hj. destruct (Nat.eq_dec j index) as [->|Hne].
           ++ rewrite Hout. discriminate.
           ++ apply Hbefore. lia.
        -- destruct (Nat.ltb_spec index 4); lia.
      * destruct IH as (Hnone & Hs). split.
        -- intros j Hj. destruct (Nat.eq_dec j index) as [->|Hne].
           ++ rewrite Hout. discriminate.
           ++ apply Hnone. lia.
        -- destruct (Nat.ltb_spec index 4); lia.
    + split; [lia|]. split; [exact Hout|]. split; [intros j Hj; lia|lia].
Qed.

(** [run] tries to open the camera at most five times and keeps the first
    attempt that opens it and reads a test frame, sleeping once after each
    failed attempt but the fifth.  When all five fail it emits the one
    error and ends: no frame is read and the worker object is untouched.
    When the loop ends without an exception the worker thread is told to
    stop: its next turn breaks at once and changes nothing, whether the
    exit signal found room in the slot or not. *)
Theorem run_opens_then_stops_worker (failed_to_open : string)
        (decode : Frame -> Py.py (list Pyzbar.Decoded))
        (outcome : nat -> attempt) (reads : list (option Frame))
        (w : CameraManager.CameraWorker F Frame) :
  (forall k, fst (open_camera outcome) = Some k <->
     (k < 5)%nat /\ outcome k = OpenedAndRead /\
     (forall j, (j < k)%nat -> outcome j <> OpenedAndRead)) /\
  (forall k, fst (open_camera outcome) = Some k -> snd (open_camera outcome) = k) /\
  (fst (open_camera outcome) = None ->
   snd (open_camera outcome) = 4%nat /\
   run failed_to_open decode outcome reads w =
     Py.ret ([CameraManager.error_occurred failed_to_open], w)) /\
  (forall emitted w',
     fst (open_camera outcome) <> None ->
     run failed_to_open decode outcome reads w = Py.ret (emitted, w') ->
     (exists at_end,
        CameraManager.run_loop decode reads w 0 = Py.ret (emitted, at_end) /\
        w' = run_finish at_end) /\
     forall detect,
       CameraManager._roboflow_worker_iteration detect w' =
         (Py.ret CameraManager.Break, w')).
Proof.
  pose proof (open_from_spec outcome 5 0) as Hspec. unfold open_camera.
  destruct (open_from outcome 0 5) as [[k0|] sleeps] eqn:Hopen; cbn [fst snd].
  - destruct Hspec as (Hk & Hok & Hbefore & Hs).
    split; [|split; [|split]].
    + intros k. split.
      * intros [= <-]. split; [lia|]. split; [exact Hok|].
        intros j Hj. apply Hbefore. lia.
      * intros (Hk5 & Hkok & Hkbefore). f_equal.
        destruct (Nat.lt_trichotomy k0 k) as [Hlt|[Heq|Hgt]]; [|exact Heq|].
        -- exfalso. apply (Hkbefore k0 Hlt). exact Hok.
        -- exfalso. apply (Hbefore k); [lia|exact Hkok].
    + intros k [= <-]. lia.
    + discriminate.
    + intros emitted w' _ Hrun. unfold run, open_camera in Hrun.
      rewrite Hopen in Hrun. cbn [fst] in Hrun.
      destruct (CameraManager.run_loop decode reads w 0) as [e|[em wl]];
        [discriminate|].
      cbn in Hrun. injection Hrun as <- <-.
      split; [exists wl; split; reflexivity|].
      intros detect. unfold run_finish.
      destruct (CameraManager._roboflow_thread_alive wl) eqn:Halive; cbn [
        CameraManager._roboflow_thread_alive
        CameraManager.with_roboflow_thread_running]; rewrite ?Halive.
      * destruct (Queue.put_nowait 1 _ None); reflexivity.
      * reflexivity.
  - destruct Hspec as (Hnone & Hs).
    split; [|split; [|split]].
    + intros k. split; [discriminate|].
      intros (Hk5 & Hkok & _). exfalso. apply (Hnone k); [lia|exact Hkok].
    + discriminate.
    + intros _. split; [lia|]. unfold run, open_camera. rewrite Hopen. reflexivity.
    + intros emitted w' Hne. contradiction.
Qed.

End CaptureProperties.

(* ================================================================== *)
(** * The local detector: which box is returned *)

Section FloatLe.
Local Open Scope float_scope.

Lemma sf_le_trans (a b c : spec_float) : sf_le a b -> sf_le b c -> sf_le a c.
Proof.
  unfold sf_le.
  destruct a as [sa|sa| |sa ma ea], b as [sb|sb| |sb mb eb], c as [sc|sc| |sc mc ec];
    try destruct sa; try destruct sb; try destruct sc;
    cbn [SFcompare]; try tauto;
    intros H1 H2;
    repeat match goal with
    | |- context [(?a ?= ?b)%Z] => destruct (Z.compare_spec a b)
    | H : context [(?a ?= ?b)%Z] |- _ => destruct (Z.compare_spec a b)
    | |- context [Pos.compare_cont Eq ?a ?b] =>
        change (Pos.compare_cont Eq a b) with (Pos.compare a b) in *;
        destruct (Pos.compare_spec a b)
    | H : context [Pos.compare_cont Eq ?a ?b] |- _ =>
        change (Pos.compare_cont Eq a b) with (Pos.compare a b) in *;
        destruct (Pos.compare_spec a b)
    end; cbn [CompOpp] in *; try tauto; try lia.
Qed.

Lemma float_leb_trans (a b c : float) :
  (a <=? b) = true -> (b <=? c) = true -> (a <=? c) = true.
Proof.
  rewrite !leb_spec. unfold SFleb.
  pose proof (sf_le_trans (Prim2SF a) (Prim2SF b) (Prim2SF c)) as H. unfold sf_le in H.
  destruct (SFcompare (Prim2SF a) (Prim2SF b)) as [[ | | ]|];
  destruct (SFcompare (Prim2SF b) (Prim2SF c)) as [[ | | ]|];
  destruct (SFcompare (Prim2SF a) (Prim2SF c)) as [[ | | ]|]; try congruence; tauto.
Qed.

(** Only NaN is incomparable. *)
Lemma SFcompare_none (a b : spec_float) :
  SFcompare a b = None -> a = S754_nan \/ b = S754_nan.
Proof.
  destruct a as [sa|sa| |sa ma ea], b as [sb|sb| |sb mb eb];
    try destruct sa; try destruct sb; cbn [SFcompare]; intros H;
    try discriminate H; auto;
    destruct (ea ?= eb)%Z; discriminate H.
Qed.

Lemma SFcompare_refl (a : spec_float) : a <> S754_nan -> SFcompare a a = Some Eq.
Proof.
  destruct a as [sa|sa| |sa ma ea]; try destruct sa; cbn [SFcompare]; intros H;
    try reflexivity; try contradiction;
    rewrite Z.compare_refl;
    change (Pos.compare_cont Eq ma ma) with (Pos.compare ma ma);
    rewrite Pos.compare_refl; reflexivity.
Qed.

Lemma prim2sf_nan (a : float) : Prim2SF a = S754_nan -> is_nan a = true.
Proof.
  intros H. unfold is_nan. rewrite eqb_spec, H. reflexivity.
Qed.

Lemma float_leb_not_nan (a b : float) :
  (a <=? b) = true -> Prim2SF a <> S754_nan /\ Prim2SF b <> S754_nan.
Proof.
  rewrite leb_spec. unfold SFleb. intros H.
  split; intros Hn; rewrite Hn in H.
  - discriminate H.
  - destruct (Prim2SF a); discriminate H.
Qed.

Lemma float_leb_refl (a : float) : Prim2SF a <> S754_nan -> (a <=? a) = true.
Proof.
  intros H. rewrite leb_spec. unfold SFleb. rewrite (SFcompare_refl _ H). reflexivity.
Qed.

(** When [a <= b] fails for an [a] that is a number, [b] is below [a] or
    NaN. *)
Lemma float_leb_false (a b : float) :
  Prim2SF a <> S754_nan -> (a <=? b) = false ->
  (b <? a) = true \/ is_nan b = true.
Proof.
  intros Ha. rewrite leb_spec, ltb_spec. unfold SFleb, SFltb.
  rewrite (SFcompare_antisym (Prim2SF a) (Prim2SF b)).
  destruct (SFcompare (Prim2SF a) (Prim2SF b)) as [[ | | ]|] eqn:Hc;
    cbn [option_map CompOpp]; intros H; try discriminate H.
  - left. reflexivity.
  - right. destruct (SFcompare_none _ _ Hc) as [Hn|Hn]; [contradiction|].
    apply prim2sf_nan, Hn.
Qed.

End FloatLe.

Section YoloProperties.
Context {Frame : Type} {img : Image Frame}.
Import LocalYoloClient.
Local Open Scope float_scope.

Variable target : string.
Variable names : Z -> option string.

Lemma best_inv_start : best_inv target names [] (None, of_int 0).
Proof.
  unfold best_inv. cbn [fst snd]. split; [vm_compute; reflexivity|].
  split; [intros b []|]. split; [reflexivity|intros b []].
Qed.

Lemma best_step_inv (seen : list (Box float)) best (box : Box float) :
  best_inv target names seen best ->
  best_inv target names (seen ++ [box]) (best_step target names best box).
Proof.
  destruct best as [best_det best_conf]. unfold best_inv, best_step. cbn [fst snd].
  intros (Hpos & Hall & Hdet).
  destruct (String.eqb_spec (class_of names (cls box)) target) as [Hclass|Hclass];
    cbn [negb].
  - cbn [leb float_order].
    destruct (best_conf <=? conf box) eqn:Hle; cbn [fst snd].
    + split; [exact (float_leb_trans _ _ _ Hpos Hle)|]. split.
      * intros b Hin Hb. apply in_app_or in Hin. destruct Hin as [Hin|[<-|[]]].
        -- destruct (Hall b Hin Hb) as [Hb_le|Hnan]; [left|right; exact Hnan].
           exact (float_leb_trans _ _ _ Hb_le Hle).
        -- left. apply float_leb_refl. apply (float_leb_not_nan _ _ Hle).
      * exists seen, box, []. split; [reflexivity|]. split; [exact Hclass|].
        split; [reflexivity|]. split; [reflexivity|]. intros b' [].
    + split; [exact Hpos|]. split.
      * intros b Hin Hb. apply in_app_or in Hin. destruct Hin as [Hin|[<-|[]]].
        -- exact (Hall b Hin Hb).
        -- destruct (float_leb_false best_conf (conf box)) as [Hlt|Hnan];
             [apply (float_leb_not_nan _ _ Hpos)|exact Hle| |].
           ++ left. apply float_ltb_leb, Hlt.
           ++ right. exact Hnan.
      * destruct best_det as [det|].
        -- destruct Hdet as (pre & b & post & Hseen & Hb & Hd & Hconf & Hlater).
           exists pre, b, (post ++ [box])%list. split.
           { rewrite Hseen, <- app_assoc. reflexivity. }
           split; [exact Hb|]. split; [exact Hd|]. split; [exact Hconf|].
           intros b' Hin Hb'. apply in_app_or in Hin. destruct Hin as [Hin|[<-|[]]].
           ++ exact (Hlater b' Hin Hb').
           ++ exact Hle.
        -- destruct Hdet as [Hzero Hnone]. split; [exact Hzero|].
           intros b Hin Hb. apply in_app_or in Hin. destruct Hin as [Hin|[<-|[]]].
           ++ exact (Hnone b Hin Hb).
           ++ rewrite <- Hzero. exact Hle.
  - split; [exact Hpos|]. split.
    + intros b Hin Hb. apply in_app_or in Hin. destruct Hin as [Hin|[<-|[]]].
      * exact (Hall b Hin Hb).
      * contradiction.
    + destruct best_det as [det|].
      * destruct Hdet as (pre & b & post & Hseen & Hb & Hd & Hconf & Hlater).
        exists pre, b, (post ++ [box])%list. split.
        { rewrite Hseen, <- app_assoc. reflexivity. }
        split; [exact Hb|]. split; [exact Hd|]. split; [exact Hconf|].
        intros b' Hin Hb'. apply in_app_or in Hin. destruct Hin as [Hin|[<-|[]]].
        -- exact (Hlater b' Hin Hb').
        -- contradiction.
      * destruct Hdet as [Hzero Hnone]. split; [exact Hzero|].
        intros b Hin Hb. apply in_app_or in Hin. destruct Hin as [Hin|[<-|[]]].
        -- exact (Hnone b Hin Hb).
        -- contradiction.
Qed.

Lemma best_fold_inv (boxes : list (Box float)) : forall seen best,
  best_inv target names seen best ->
  best_inv target names (seen ++ boxes) (fold_left (best_step target names) boxes best).
Proof.
  induction boxes as [|box boxes IH]; intros seen best Hinv.
  - rewrite app_nil_r. exact Hinv.
  - cbn [fold_left].
    replace (seen ++ box :: boxes)%list with ((seen ++ [box]) ++ boxes)%list
      by (rewrite <- app_assoc; reflexivity).
    apply IH, best_step_inv, Hinv.
Qed.

Lemma detect_boxes (frame : Frame) (boxes : list (Box float)) others :
  detect target true names frame (inr (Some boxes :: others)) =
  inr (match fst (fold_left (best_step target names) boxes (None, of_int 0)) with
       | Some best_det =>
           RoboflowClient.mkRoboflowResult true (Some best_det)
             (snd (shape frame)) (fst (shape frame))
       | None => RoboflowClient.no_detection (snd (shape frame)) (fst (shape frame))
       end).
Proof.
  unfold detect. destruct (shape frame) as [h w]. cbn [negb Py.bind Py.ret fst snd].
  destruct (fst (fold_left (best_step target names) boxes (None, of_int 0)));
    reflexivity.
Qed.

(** Which box [LocalYoloClient.detect] returns, on binary64 numbers.  With a
    model loaded, the only way out by an exception is one raised by
    [predict] that is not an [Exception]; every other failure gives "no
    detection".  On the boxes of the first result, something is detected
    exactly when a box of the target class has a confidence of at least 0;
    the detection is built from a box of the target class whose confidence
    no other box of that class exceeds (a NaN confidence is never chosen
    and never compared), and among boxes of equal confidence the last one
    wins. *)
Theorem yolo_returns_best_box (frame : Frame)
        (predict : Py.py (list (option (list (Box float))))) :
  match detect target true names frame predict with
  | inl e => predict = inl e /\ Py.is_Exception e = false
  | inr r =>
      RoboflowClient.image_width r = snd (shape frame) /\
      RoboflowClient.image_height r = fst (shape frame) /\
      RoboflowClient.detected r = CameraManager.is_some (RoboflowClient.detection r) /\
      forall boxes others, predict = inr (Some boxes :: others) ->
        (RoboflowClient.detected r = true <->
         exists b, In b boxes /\ class_of names (cls b) = target /\
                   (0 <=? conf b) = true) /\
        forall det, RoboflowClient.detection r = Some det ->
          exists pre b post,
            boxes = (pre ++ b :: post)%list /\
            class_of names (cls b) = target /\
            det = detection_of names b /\
            (0 <=? conf b) = true /\
            (forall b', In b' boxes -> class_of names (cls b') = target ->
               (conf b' <=? conf b) = true \/ is_nan (conf b') = true) /\
            (forall b', In b' post -> class_of names (cls b') = target ->
               (conf b <=? conf b') = false)
  end.
Proof.
  destruct predict as [e|results].
  - unfold detect. destruct (shape frame) as [h w]. cbn [negb Py.bind Py.try_except].
    destruct (Py.is_Exception e) eqn:He; cbn.
    + split; [reflexivity|]. split; [reflexivity|]. split; [reflexivity|].
      intros boxes others [=].
    + split; [reflexivity|exact He].
  - destruct results as [|[boxes|] others].
    + unfold detect. destruct (shape frame) as [h w]. cbn.
      split; [reflexivity|]. split; [reflexivity|]. split; [reflexivity|].
      intros boxes' others' [=].
    + rewrite detect_boxes.
      pose proof (best_fold_inv boxes [] _ best_inv_start) as Hinv.
      cbn [app] in Hinv. unfold best_inv in Hinv.
      destruct (fold_left (best_step target names) boxes (None, of_int 0))
        as [best_det best_conf].
      cbn [fst snd] in *. destruct Hinv as (Hpos & Hall & Hdet).
      destruct best_det as [det|].
      * cbn. split; [reflexivity|]. split; [reflexivity|]. split; [reflexivity|].
        intros boxes' others' [= <- <-].
        destruct Hdet as (pre & b & post & Hseen & Hb & Hd & Hconf & Hlater).
        split.
        -- split; [|reflexivity]. intros _. exists b. split.
           { rewrite Hseen. apply in_or_app. right. left. reflexivity. }
           split; [exact Hb|]. rewrite Hconf. exact Hpos.
        -- intros det' [= <-]. exists pre, b, post. rewrite Hconf.
           repeat split; auto.
      * cbn. split; [reflexivity|]. split; [reflexivity|]. split; [reflexivity|].
        intros boxes' others' [= <- <-].
        destruct Hdet as [_ Hnone]. split.
        -- split; [discriminate|].
           intros (b & Hin & Hb & Hconf). rewrite (Hnone b Hin Hb) in Hconf.
           discriminate Hconf.
        -- intros det' [=].
    + unfold detect. destruct (shape frame) as [h w]. cbn.
      split; [reflexivity|]. split; [reflexivity|]. split; [reflexivity|].
      intros boxes' others' [=].
Qed.

End YoloProperties.

(* ================================================================== *)
(** * Partial updates: a box that cannot be computed, a setter that is
      interrupted, a run that is cut *)

Section PartialUpdates.
Context {F : Type} {num : Number F}.
Context {Frame : Type} {img : Image Frame}.
Import CameraManager.

Implicit Types (w : CameraWorker F Frame) (frame : Frame).

(** A detection whose box cannot be computed.  When the client returns a
    detection whose centre, width or height is not a number, the worker's
    turn still ends normally; the flag is set and the counter reset, but
    the box stays what it was: the box of an older detection, or none. *)
Theorem detection_without_box_keeps_old_box
        (detect : Frame -> Py.py (RoboflowClient.RoboflowResult F))
        w frame rest r det :
  _roboflow_thread_running w = true ->
  _roboflow_queue w = Some frame :: rest ->
  detect frame = Py.ret r ->
  RoboflowClient.detected r = true ->
  RoboflowClient.detection r = Some det ->
  ~ (exists bx by_ bw bh,
        RoboflowClient.x det = RoboflowClient.Num bx /\
        RoboflowClient.y det = RoboflowClient.Num by_ /\
        RoboflowClient.width det = RoboflowClient.Num bw /\
        RoboflowClient.height det = RoboflowClient.Num bh) ->
  let w' := snd (_roboflow_worker_iteration detect w) in
  fst (_roboflow_worker_iteration detect w) = Py.ret Next /\
  _classification_detected w' = true /\
  _frames_without_classification w' = 0 /\
  _classification_bbox w' = _classification_bbox w.
Proof.
  intros Hrun Hq Hd Hdet Hsome Hnot. cbv zeta.
  rewrite (worker_iteration_result detect w frame rest r Hrun Hq Hd). cbn [fst snd].
  pose proof (bbox_outcome det) as Hbox.
  destruct (RoboflowClient.bbox det) as [e|box] eqn:Hb.
  - rewrite (publish_bbox_raises _ r det e Hdet Hsome Hb). cbn. auto.
  - exfalso. apply Hnot. destruct Hbox as (bx & by_ & bw & bh & Hx & Hy & Hw & Hh & _).
    exists bx, by_, bw, bh. auto.
Qed.

(** A turn of [run] while the classifier is disabled reports no classifier
    detection, whatever the worker object holds. *)
Lemma disabled_turn_reports_nothing decode frame w (frames_failed : Z) :
  _roboflow_enabled w = false ->
  match run_iteration decode (Some frame) w frames_failed with
  | inl e => _qr_enabled w = true /\ _detect_qr (F := F) decode (flip frame) = inl e
  | inr (_, emitted, _, _) =>
      exists frame_data,
        emitted = [frame_ready frame_data] /\
        classification_detected frame_data = false /\
        classification_bbox frame_data = None /\
        can_continue_moving frame_data = robot_detected frame_data
  end.
Proof.
  intros Hoff.
  destruct (if _qr_enabled w then _detect_qr decode (flip frame) else Py.ret None)
    as [e|found] eqn:Hfound.
  - assert (Hq : _qr_enabled w = true).
    { destruct (_qr_enabled w); [reflexivity|discriminate Hfound]. }
    rewrite Hq in Hfound.
    rewrite (run_iteration_raises decode frame w frames_failed e Hq Hfound).
    split; assumption.
  - destruct (run_iteration_frame decode frame w frames_failed found Hfound)
      as (w' & Hit & _).
    rewrite Hit. cbn. eexists. split; [reflexivity|]. cbn. rewrite Hoff. auto.
Qed.

(** The setter against the worker, schedule by schedule.  The thread that
    sets [roboflow_enabled = False] is suspended after its first [k] writes
    while the worker's block stores a detection, then resumes.  When the
    setter returns the classifier is disabled and the counter is 0, but the
    flag is reset only if the block ran before the setter's second write
    and the box only if it ran before the third.  What [run] publishes
    while the classifier stays disabled carries no classifier detection in
    any schedule. *)
Theorem setter_race_outcome (k : nat) w (r : RoboflowClient.RoboflowResult F) det
        (bx by_ bw bh : F) :
  RoboflowClient.detected r = true ->
  RoboflowClient.detection r = Some det ->
  RoboflowClient.x det = RoboflowClient.Num bx ->
  RoboflowClient.y det = RoboflowClient.Num by_ ->
  RoboflowClient.width det = RoboflowClient.Num bw ->
  RoboflowClient.height det = RoboflowClient.Num bh ->
  let w' := set_roboflow_enabled_during k r w false in
  _roboflow_enabled w' = false /\
  _frames_without_classification w' = 0 /\
  _classification_detected w' = (2 <=? k)%nat /\
  _classification_bbox w' =
    (if (3 <=? k)%nat
     then Some (mkClassificationBBox (sub bx (div bw (of_int 2)))
                                     (sub by_ (div bh (of_int 2))) bw bh)
     else None) /\
  forall decode frame (frames_failed : Z),
    match run_iteration decode (Some frame) w' frames_failed with
    | inl e => _qr_enabled w' = true /\ _detect_qr (F := F) decode (flip frame) = inl e
    | inr (_, emitted, _, _) =>
        exists frame_data,
          emitted = [frame_ready frame_data] /\
          classification_detected frame_data = false /\
          classification_bbox frame_data = None /\
          can_continue_moving frame_data = robot_detected frame_data
    end.
Proof.
  intros Hdet Hsome Hx Hy Hw Hh. cbv zeta.
  assert (Hfields :
            _roboflow_enabled (set_roboflow_enabled_during k r w false) = false /\
            _frames_without_classification (set_roboflow_enabled_during k r w false) = 0 /\
            _classification_detected (set_roboflow_enabled_during k r w false)
              = (2 <=? k)%nat /\
            _classification_bbox (set_roboflow_enabled_during k r w false) =
              (if (3 <=? k)%nat
               then Some (mkClassificationBBox (sub bx (div bw (of_int 2)))
                                               (sub by_ (div bh (of_int 2))) bw bh)
               else None)).
  { unfold set_roboflow_enabled_during, set_roboflow_enabled_writes, run_writes.
    destruct k as [|[|[|[|k]]]]; cbn [negb firstn skipn fold_left];
      rewrite ?firstn_nil, ?skipn_nil; cbn [fold_left];
      rewrite (publish_detection _ r det bx by_ bw bh Hdet Hsome Hx Hy Hw Hh);
      cbn; repeat split; reflexivity. }
  destruct Hfields as (Hoff & Hcount & Hflag & Hbox).
  split; [exact Hoff|]. split; [exact Hcount|]. split; [exact Hflag|].
  split; [exact Hbox|].
  intros decode frame frames_failed.
  apply disabled_turn_reports_nothing, Hoff.
Qed.

(** When the loop returns, the signals it returns are the signals it
    emitted. *)
Lemma run_emitted_returns decode (reads : list (option Frame)) :
  forall w (frames_failed : Z) emitted w',
    run_loop decode reads w frames_failed = Py.ret (emitted, w') ->
    run_emitted decode reads w frames_failed = emitted.
Proof.
  induction reads as [|read reads IH]; intros w frames_failed emitted w' Hloop.
  - cbn in Hloop. injection Hloop as <- _. reflexivity.
  - cbn [run_loop run_emitted] in *.
    destruct (run_iteration decode read w frames_failed) as [e|[[[c em] w1] ff1]];
      [discriminate Hloop|].
    cbn [Py.bind] in Hloop. destruct c.
    + destruct (run_loop decode reads w1 ff1) as [e|[later w2]] eqn:Hrest;
        [discriminate Hloop|].
      cbn in Hloop. injection Hloop as <- _.
      rewrite (IH w1 ff1 later w2 Hrest). reflexivity.
    + cbn in Hloop. injection Hloop as <- _. reflexivity.
Qed.

(** A run cut by the marker detector.  With marker detection on, when the
    detector returns for the frames [good] and raises for the frame after
    them, [run] ends by that exception; the frames [good] were published,
    in order, and nothing else: no result for the failing frame, no error
    signal, and the frames after it are never read. *)
Theorem decoder_failure_cuts_run decode (good : list Frame) (bad : Frame)
        (later : list (option Frame)) e : forall w (frames_failed : Z),
  _qr_enabled w = true ->
  (forall frame, In frame good ->
     exists found, _detect_qr (F := F) decode (flip frame) = Py.ret found) ->
  _detect_qr (F := F) decode (flip bad) = Py.raise e ->
  run_loop decode (map Some good ++ Some bad :: later) w frames_failed = Py.raise e /\
  exists frame_data,
    run_emitted decode (map Some good ++ Some bad :: later) w frames_failed =
      map frame_ready frame_data /\
    map CameraManager.frame frame_data = map flip good.
Proof.
  induction good as [|frame good IH]; intros w frames_failed Hq Hgood Hbad.
  - cbn [map app].
    pose proof (run_iteration_raises decode bad w frames_failed e Hq Hbad) as Hit.
    split.
    + cbn [run_loop]. rewrite Hit. reflexivity.
    + exists []. cbn [run_emitted]. rewrite Hit. unfold Py.raise. split; reflexivity.
  - destruct (Hgood frame (or_introl eq_refl)) as [found Hfound].
    destruct (run_iteration_frame decode frame w frames_failed found)
      as (w1 & Hit & _ & _ & Hq1 & _).
    { rewrite Hq. exact Hfound. }
    destruct (IH w1 0) as (Hloop & fds & Hem & Hfr).
    { congruence. }
    { intros f Hin. apply Hgood. right. exact Hin. }
    { exact Hbad. }
    cbn [map app]. split.
    + rewrite (run_loop_cons_frame _ _ _ _ _ _ _ _ _ Hit), Hloop. reflexivity.
    + cbn [run_emitted]. rewrite Hit. unfold Py.ret. rewrite Hem.
      eexists (_ :: fds). split; [reflexivity|]. cbn [map CameraManager.frame].
      rewrite Hfr. reflexivity.
Qed.

End PartialUpdates.

(* ================================================================== *)
(** * The further properties at concrete inputs *)

(** Thirty failed reads are skipped, the thirty-first ends the loop with
    the error, and the frame after it is never read. *)
Lemma read_failure_budget_witness :
  CameraManager.run_loop (F := float) Examples.decode_nothing
                         (repeat None 30 ++ None :: [Some 1%nat])
                         CameraManager.init 0 =
  Py.ret ([CameraManager.error_occurred
             "Camera feed lost. Please check camera connection."],
          CameraManager.init).
Proof.
  apply (proj1 (proj2 (read_failure_budget (F := float) Examples.decode_nothing
                         CameraManager.init 0 30 [Some 1%nat]))).
  reflexivity.
Defined.

(** The worker with frame 7 in the slot keeps the invariant over a turn of
    the worker thread that classifies the frame. *)
Lemma slot_stays_single_witness :
  Slot.slot_inv Examples.busy_worker /\
  Slot.slot_inv
    (snd (CameraManager._roboflow_worker_iteration Examples.finding Examples.busy_worker)).
Proof.
  assert (H : Slot.slot_inv Examples.busy_worker).
  { unfold Slot.slot_inv, Config.ROBOFLOW_FRAME_INTERVAL. cbn. lia. }
  split; [exact H|].
  apply (proj1 (proj2 (proj2 (@slot_stays_single float _ nat _)))
           Examples.finding Examples.busy_worker H).
Defined.

(** Counter at 2 and the slot empty: the turn puts frame 1 into the slot and
    the counter starts again at 0. *)
Lemma every_third_frame_offered_witness :
  exists frame_data w',
    CameraManager.run_iteration Examples.decode_nothing (Some 1%nat)
                                MoreExamples.ready_worker 0 =
      Py.ret (CameraManager.Next, [CameraManager.frame_ready frame_data], w', 0) /\
    CameraManager._roboflow_frame_counter w' = 0 /\
    CameraManager._roboflow_queue w' = [Some 1%nat].
Proof.
  destruct (every_third_frame_offered Examples.decode_nothing 1%nat
              MoreExamples.ready_worker 0 None)
    as (frame_data & w' & Hrun & Hcounter & Hqueue).
  - unfold Slot.slot_inv, Config.ROBOFLOW_FRAME_INTERVAL. cbn. lia.
  - reflexivity.
  - reflexivity.
  - exists frame_data, w'. split; [exact Hrun|]. split; [exact Hcounter|exact Hqueue].
Defined.

(** Frame 7 waits in the slot when the classifier is disabled; the worker
    thread still classifies it, and after enabling again frame 8 is
    published with the laptop of frame 7. *)
Lemma stale_detection_after_toggle_witness :
  let disabled := CameraManager.set_roboflow_enabled Examples.busy_worker false in
  let after_worker :=
    snd (CameraManager._roboflow_worker_iteration Examples.finding disabled) in
  let enabled := CameraManager.set_roboflow_enabled after_worker true in
  CameraManager._classification_detected disabled = false /\
  CameraManager._classification_detected after_worker = true /\
  exists frame_data w',
    CameraManager.run_iteration Examples.decode_nothing (Some 8%nat) enabled 0 =
      Py.ret (CameraManager.Next, [CameraManager.frame_ready frame_data], w', 0) /\
    CameraManager.classification_detected frame_data = true.
Proof.
  apply (stale_detection_after_toggle Examples.finding Examples.busy_worker 7%nat []
           MoreExamples.laptop_found Examples.laptop
           Examples.decode_nothing 8%nat 0 None); reflexivity.
Defined.

(** A stored detection and a counter at 1: one result without a detection
    keeps the flag, the second clears it. *)
Lemma classifier_flag_debounce_witness :
  CameraManager._classification_detected
    (fold_left (fun w r => snd (CameraManager.publish w r))
               [RoboflowClient.no_detection 1280 720]
               (CameraManager.with_frames_without_classification
                  Examples.stale_worker 1)) = true /\
  CameraManager._classification_detected
    (fold_left (fun w r => snd (CameraManager.publish w r))
               [RoboflowClient.no_detection 1280 720; RoboflowClient.no_detection 1280 720]
               (CameraManager.with_frames_without_classification
                  Examples.stale_worker 1)) = false.
Proof.
  split.
  - refine (proj1 (proj1 (proj2 (classifier_flag_debounce
              (CameraManager.with_frames_without_classification Examples.stale_worker 1)
              [RoboflowClient.no_detection 1280 720] _)) _)).
    + intros r [<-|[]]. left. reflexivity.
    + unfold Config.ROBOFLOW_PERSISTENCE_FRAMES. cbn. lia.
  - refine (proj1 (proj2 (proj2 (classifier_flag_debounce
              (CameraManager.with_frames_without_classification Examples.stale_worker 1)
              [RoboflowClient.no_detection 1280 720; RoboflowClient.no_detection 1280 720]
              _)) _ _)).
    + intros r [<-|[<-|[]]]; left; reflexivity.
    + discriminate.
    + unfold Config.ROBOFLOW_PERSISTENCE_FRAMES. cbn. lia.
Defined.

(** 0.3 is stored as it is, -2 as 0.0 and 7 as 1.0. *)
Lemma alpha_setter_clamps_witness :
  SmoothingMore.alpha (SmoothingMore.set_alpha Examples.default_smoother Examples.alpha_30)
    = Examples.alpha_30 /\
  SmoothingMore.alpha (SmoothingMore.set_alpha Examples.default_smoother (of_int (-2)))
    = of_int 0 /\
  SmoothingMore.alpha (SmoothingMore.set_alpha Examples.default_smoother (of_int 7))
    = of_int 1.
Proof.
  split; [|split].
  - apply (proj1 (proj2 (proj2
             (alpha_setter_clamps Examples.default_smoother Examples.alpha_30))));
      vm_compute; reflexivity.
  - apply (proj1 (proj2 (proj2 (proj2
             (alpha_setter_clamps Examples.default_smoother (of_int (-2)))))));
      vm_compute; reflexivity.
  - apply (proj1 (proj2 (proj2 (proj2 (proj2
             (alpha_setter_clamps Examples.default_smoother (of_int 7)))))));
      vm_compute; reflexivity.
Defined.

(** The slider at 30 with the camera running: the smoother holds 30 / 100. *)
Lemma slider_position_is_stored_witness :
  Manager.smoothing_alpha
    (App._camera (App._on_smoothing_changed MoreExamples.running_app
                                            (Controls.slider_value 30)))
  = Controls.slider_value 30.
Proof.
  eapply (slider_position_is_stored MoreExamples.running_app _ 30).
  - reflexivity.
  - lia.
Defined.

(** Seven distances, 80 the second: the fifth value emitted is 80, which is
    still in the window, the seventh is 130, the least of the last five. *)
Lemma sensor_emits_window_minimum_witness :
  (forall j, (j <= 4)%nat -> (4 - j < 5)%nat ->
     nth 4 (snd (DistanceSensor.read_loop DistanceSensor.init MoreExamples.sensor_lines)) 0
       <= nth j (DistanceSensor.distances MoreExamples.sensor_lines) 0) /\
  (forall j, (j <= 6)%nat -> (6 - j < 5)%nat ->
     nth 6 (snd (DistanceSensor.read_loop DistanceSensor.init MoreExamples.sensor_lines)) 0
       <= nth j (DistanceSensor.distances MoreExamples.sensor_lines) 0).
Proof.
  split.
  - apply (proj2 (sensor_emits_window_minimum MoreExamples.sensor_lines 4)).
    cbn. lia.
  - apply (proj2 (sensor_emits_window_minimum MoreExamples.sensor_lines 6)).
    cbn. lia.
Defined.

(** The threshold at 100.  At the seventh reading the last five distances
    all exceed it and the window shows "may continue" on a frame without any
    detection; at the fifth reading the 80 is still in the window and the
    vision gate decides. *)
Lemma far_override_needs_whole_window_witness :
  MainWindow.shown
    (MainWindow._on_frame_ready
       (MainWindow._on_distance_updated MainWindow.init
          (nth 6 (snd (DistanceSensor.read_loop DistanceSensor.init
                                                MoreExamples.sensor_lines)) 0))
       Examples.nothing_seen) = true /\
  MainWindow.shown
    (MainWindow._on_frame_ready
       (MainWindow._on_distance_updated MainWindow.init
          (nth 4 (snd (DistanceSensor.read_loop DistanceSensor.init
                                                MoreExamples.sensor_lines)) 0))
       Examples.nothing_seen) = false.
Proof.
  split.
  - refine (proj1 (far_override_needs_whole_window MoreExamples.sensor_lines 6
                     MainWindow.init Examples.nothing_seen _) _).
    + cbn. lia.
    + intros j Hj Hw.
      do 7 (destruct j as [|j]; [cbn; lia|]). lia.
  - refine (proj2 (far_override_needs_whole_window MoreExamples.sensor_lines 4
                     MainWindow.init Examples.nothing_seen _) _).
    + cbn. lia.
    + exists 1%nat. cbn. lia.
Defined.

(** The reply with one laptop: the result carries a detection of the target
    class with a confidence that is a number, and the size of the frame. *)
Lemma detect_result_wellformed_witness :
  exists r det,
    Examples.finding 7%nat = Py.ret r /\
    RoboflowClient.detection r = Some det /\
    RoboflowClient.class_name det = Config.ROBOFLOW_TARGET_CLASS /\
    (exists c, RoboflowClient.confidence det = RoboflowClient.Num c) /\
    RoboflowClient.image_width r = 1280 /\
    RoboflowClient.image_height r = 720.
Proof.
  pose proof (detect_result_wellformed (F := float) (Some "key"%string) 7%nat
                (Py.ret (RoboflowClient.mkHttpResponse 200
                           (Py.ret Examples.laptop_reply)))) as H.
  change (RoboflowClient.detect (Some "key"%string) 7%nat
            (Py.ret (RoboflowClient.mkHttpResponse 200 (Py.ret Examples.laptop_reply))))
    with (@inr Py.exn _ MoreExamples.laptop_found) in H.
  cbv beta iota in H.
  destruct H as (_ & Hdet & Hw & Hh & _).
  destruct (Hdet Examples.laptop eq_refl) as (Hclass & c & cx & cy & Hc & _).
  exists MoreExamples.laptop_found, Examples.laptop.
  split; [reflexivity|]. split; [reflexivity|].
  split; [exact Hclass|]. split; [exists c; exact Hc|]. split; [exact Hw|exact Hh].
Defined.

(** A foreign marker, the target and a symbol that is not UTF-8: the target
    is returned with its rectangle doubled, the symbol after it is never
    decoded. *)
Lemma detect_qr_first_target_witness :
  CameraManager._detect_qr (F := float) MoreExamples.decode_three 1%nat =
  Py.ret (Some (Smoothing.mkDetectedQR CameraManager.TARGET_PAYLOAD
                  (Smoothing.mkBoundingBox (of_int 200) (of_int 100)
                                           (of_int 80) (of_int 80)))).
Proof.
  refine (proj1 (proj2 (detect_qr_first_target (F := float) MoreExamples.decode_three
            1%nat
            [Pyzbar.mkDecoded (Some "ROBOT_R2"%string) (Pyzbar.mkRect 0 0 10 10)]
            [Pyzbar.mkDecoded None (Pyzbar.mkRect 7 7 7 7)]
            (Pyzbar.mkDecoded (Some "ROBOT_R1"%string) (Pyzbar.mkRect 100 50 40 40))
            _ _)) _).
  - reflexivity.
  - intros q [<-|[]]. exists "ROBOT_R2"%string. split; [reflexivity|discriminate].
  - reflexivity.
Defined.

(** A box of 10 by 10 at (3, 0) padded by a tenth lies inside its padded
    box. *)
Lemma with_padding_keeps_centre_witness :
  (Smoothing.x (SmoothingMore.with_padding (Examples.real_box_at 3) (1 / 10))
     <= Smoothing.x (Examples.real_box_at 3))%R /\
  (Smoothing.y (SmoothingMore.with_padding (Examples.real_box_at 3) (1 / 10))
     <= Smoothing.y (Examples.real_box_at 3))%R.
Proof.
  destruct (proj2 (proj2 (proj2 (proj2
              (with_padding_keeps_centre (Examples.real_box_at 3) (1 / 10)%R)))))
    as (Hx & Hy & _).
  - lra.
  - cbn. lra.
  - cbn. lra.
  - split; [exact Hx|exact Hy].
Defined.

(** A tracked session with a reading of 120 under the threshold of 150 and
    both detectors on: the marker is seen, the classifier has no
    detection, the window shows "must stop" and the visualiser computes a
    stop for the row that was logged. *)
Lemma visualiser_against_live_gate_witness :
  exists frame_data w' row,
    CameraManager.run_iteration Examples.decode_target (Some 1%nat)
                                Examples.busy_worker 0 =
      Py.ret (CameraManager.Next, [CameraManager.frame_ready frame_data], w', 0) /\
    fst (App._on_frame_ready MoreExamples.tracking_app frame_data "t") = Py.ret tt /\
    Controls._data
      (App._tracking_button
         (snd (App._on_frame_ready MoreExamples.tracking_app frame_data "t")))
      = [row] /\
    Controls.frame row = 0 /\
    Controls.distance_cm row = 120 /\
    Visualize.robot_stops [Visualize.of_row row] = [true] /\
    MainWindow.shown
      (App.window (snd (App._on_frame_ready MoreExamples.tracking_app frame_data "t")))
      = false.
Proof.
  destruct (run_iteration_frame (F := float) Examples.decode_target 1%nat
              Examples.busy_worker 0 (MoreExamples.found_5_to_40 5) eq_refl)
    as (w' & Hrun & _).
  destruct (visualiser_against_live_gate Examples.decode_target 1%nat
              Examples.busy_worker w' 0 _ MoreExamples.tracking_app "t" Hrun eq_refl)
    as (Hret & row & Hdata & Hframe & Hdist & Hon & _).
  eexists. exists w', row. split; [exact Hrun|].
  split; [apply Hret; discriminate|].
  split; [exact Hdata|]. split; [exact Hframe|]. split; [exact Hdist|].
  split; [|reflexivity].
  rewrite (Hon eq_refl eq_refl eq_refl). reflexivity.
Defined.

(** A target of 2 and three samples: the second call ends the session, one
    file holds the two rows and the third sample is dropped. *)
Lemma tracking_session_witness :
  let b' := fold_left Controls.record
              [Controls.mkSample "t0" 120 true true;
               Controls.mkSample "t1" 110 true false;
               Controls.mkSample "t2" 100 false false]
              (snd (Controls.start_tracking (Controls.tracking_init 2))) in
  Controls._is_tracking b' = false /\
  Controls.saved b' =
    [[Controls.mkRow 0 "t0" 120 true true; Controls.mkRow 1 "t1" 110 true false]].
Proof.
  destruct (proj1 (tracking_session (Controls.tracking_init 2)
                     [Controls.mkSample "t0" 120 true true;
                      Controls.mkSample "t1" 110 true false;
                      Controls.mkSample "t2" 100 false false]))
    as (_ & _ & Hend).
  - discriminate.
  - destruct Hend as (Hstop & _ & Hsaved). split; [exact Hstop|exact Hsaved].
Defined.

(** The camera opens at the third attempt, after two sleeps; two frames are
    read and the worker thread, if it runs, breaks at its next turn. *)
Lemma run_opens_then_stops_worker_witness :
  fst (Capture.open_camera MoreExamples.opens_third) = Some 2%nat /\
  snd (Capture.open_camera MoreExamples.opens_third) = 2%nat /\
  exists emitted w',
    Capture.run (F := float) "Failed to open camera" Examples.decode_nothing
                MoreExamples.opens_third [Some 1%nat; Some 2%nat]
                MoreExamples.ready_worker = Py.ret (emitted, w') /\
    List.length emitted = 2%nat /\
    forall detect,
      CameraManager._roboflow_worker_iteration detect w' = (Py.ret CameraManager.Break, w').
Proof.
  pose proof (run_opens_then_stops_worker (F := float) "Failed to open camera"
                Examples.decode_nothing MoreExamples.opens_third
                [Some 1%nat; Some 2%nat] MoreExamples.ready_worker)
    as (Hfirst & Hsleeps & _ & Hrun).
  assert (Hopen : fst (Capture.open_camera MoreExamples.opens_third) = Some 2%nat).
  { apply Hfirst. split; [lia|]. split; [reflexivity|].
    intros j Hj. destruct j as [|[|j]]; [discriminate|discriminate|lia]. }
  split; [exact Hopen|]. split; [apply Hsleeps, Hopen|].
  eexists. eexists. split; [reflexivity|]. split; [reflexivity|].
  eapply Hrun; [rewrite Hopen; discriminate|reflexivity].
Defined.

(** Two phones at 0.8 after a phone at 0.5 and a person at 0.9: the last
    phone at 0.8 is returned. *)
Lemma yolo_returns_best_box_witness :
  LocalYoloClient.detect "cell phone" true MoreExamples.coco_names 7%nat
    (Py.ret [Some MoreExamples.phone_boxes]) =
  Py.ret (RoboflowClient.mkRoboflowResult true
            (Some (LocalYoloClient.detection_of MoreExamples.coco_names
                     (MoreExamples.yolo_box 67 8 300)))
            1280 720) /\
  (forall b, In b MoreExamples.phone_boxes ->
     LocalYoloClient.class_of MoreExamples.coco_names (LocalYoloClient.cls b)
       = "cell phone"%string ->
     PrimFloat.leb (LocalYoloClient.conf b)
                   (LocalYoloClient.conf (MoreExamples.yolo_box 67 8 300)) = true \/
     PrimFloat.is_nan (LocalYoloClient.conf b) = true).
Proof.
  split; [reflexivity|].
  pose proof (yolo_returns_best_box "cell phone" MoreExamples.coco_names 7%nat
                (Py.ret [Some MoreExamples.phone_boxes])) as H.
  change (LocalYoloClient.detect "cell phone" true MoreExamples.coco_names 7%nat
            (Py.ret [Some MoreExamples.phone_boxes]))
    with (@inr Py.exn _
            (RoboflowClient.mkRoboflowResult true
               (Some (LocalYoloClient.detection_of MoreExamples.coco_names
                        (MoreExamples.yolo_box 67 8 300)))
               1280 720)) in H.
  cbv beta iota in H.
  destruct H as (_ & _ & _ & H).
  destruct (H MoreExamples.phone_boxes [] eq_refl) as [_ Hbest].
  destruct (Hbest _ eq_refl) as (pre & b & post & _ & _ & Hdet & _ & Hall & _).
  assert (Hconf : LocalYoloClient.conf b
                  = LocalYoloClient.conf (MoreExamples.yolo_box 67 8 300)).
  { apply (f_equal RoboflowClient.confidence) in Hdet.
    unfold LocalYoloClient.detection_of in Hdet.
    destruct (LocalYoloClient.xyxy b) as [[[x1 y1] x2] y2].
    cbn in Hdet. injection Hdet as Hdet. symmetry. exact Hdet. }
  intros b' Hin Hclass. rewrite <- Hconf. apply Hall; assumption.
Defined.

(** A laptop whose width is [null], on a worker that holds an older box:
    the flag is set, the counter reset and the older box is still there. *)
Lemma detection_without_box_keeps_old_box_witness :
  CameraManager._classification_detected
    (snd (CameraManager._roboflow_worker_iteration Examples.finding_null_width
                                                   Examples.stale_worker)) = true /\
  CameraManager._frames_without_classification
    (snd (CameraManager._roboflow_worker_iteration Examples.finding_null_width
                                                   Examples.stale_worker)) = 0 /\
  CameraManager._classification_bbox
    (snd (CameraManager._roboflow_worker_iteration Examples.finding_null_width
                                                   Examples.stale_worker))
    = Some (CameraManager.mkClassificationBBox (of_int 10) (of_int 20)
                                               (of_int 30) (of_int 40)).
Proof.
  destruct (detection_without_box_keeps_old_box Examples.finding_null_width
              Examples.stale_worker 7%nat []
              (RoboflowClient.mkRoboflowResult true
                 (Some MoreExamples.laptop_null_width) 1280 720)
              MoreExamples.laptop_null_width)
    as (_ & Hflag & Hcount & Hbox); try reflexivity.
  - intros (bx & by_ & bw & bh & _ & _ & Hw & _). discriminate Hw.
  - split; [exact Hflag|]. split; [exact Hcount|exact Hbox].
Defined.

(** The worker's block with the laptop runs after the setter's second
    write: the classifier is disabled and the flag is set. *)
Lemma setter_race_outcome_witness :
  CameraManager._roboflow_enabled
    (CameraManager.set_roboflow_enabled_during 2 MoreExamples.laptop_found
                                               Examples.busy_worker false) = false /\
  CameraManager._classification_detected
    (CameraManager.set_roboflow_enabled_during 2 MoreExamples.laptop_found
                                               Examples.busy_worker false) = true.
Proof.
  destruct (setter_race_outcome 2 Examples.busy_worker MoreExamples.laptop_found
              Examples.laptop (of_int 100) (of_int 80) (of_int 40) (of_int 20))
    as (Hoff & _ & Hflag & _); try reflexivity.
  split; [exact Hoff|exact Hflag].
Defined.

(** Frames 1, 2 and 3 with a decoder that fails in frame 2: frame 1 is
    published and the run ends by the exception. *)
Lemma decoder_failure_cuts_run_witness :
  CameraManager.run_loop Examples.decode_fails_on_2
                         [Some 1%nat; Some 2%nat; Some 3%nat] Examples.busy_worker 0
    = Py.raise (Py.Exception_ "zbar: decode failed") /\
  exists frame_data,
    CameraManager.run_emitted Examples.decode_fails_on_2
                              [Some 1%nat; Some 2%nat; Some 3%nat] Examples.busy_worker 0
      = map CameraManager.frame_ready frame_data /\
    map CameraManager.frame frame_data = [1%nat].
Proof.
  destruct (decoder_failure_cuts_run (F := float) Examples.decode_fails_on_2
              [1%nat] 2%nat [Some 3%nat] (Py.Exception_ "zbar: decode failed")
              Examples.busy_worker 0)
    as (Hloop & frame_data & Hemitted & Hframes).
  - reflexivity.
  - intros frame [<-|[]]. eexists. reflexivity.
  - reflexivity.
  - split; [exact Hloop|]. exists frame_data. split; [exact Hemitted|exact Hframes].
Defined.
